(** * Factory digital twin: root cause, cascade, critical paths, drift

    A shallow embedding of the analysis endpoints of
    [dashboard/backend/main.py]: [find_root_cause],
    [analyze_cascade_impact], [analyze_critical_paths],
    [get_gitops_config_for_asset] and [calculate_drift].

    The Python code delegates graph traversal to Cypher queries.  Each
    query is embedded as a pipeline over lists of rows: pattern matching
    enumerates paths, [ORDER BY] is a stable sort applied to the rows in
    the order the query engine produced them, and [LIMIT] keeps a prefix.
    The order in which the engine produces rows is not fixed by the query
    text, so it is a parameter ([Engine]); the facts below use of it only
    that it rearranges the rows.  Random draws and the clock used by the
    drift endpoints are explicit oracles ([World]), uncaught exceptions a
    result of their own ([Raised]). *)

From Stdlib Require Import String Ascii List Arith NArith ZArith Lia Bool.
From Stdlib Require Import Permutation Sorted.
From Stdlib Require DecimalString HexadecimalString.
Import ListNotations.
Open Scope string_scope.
Open Scope list_scope.
Open Scope nat_scope.

(** ** Python and Cypher values *)

(** Python [str.lower] / [str.upper], on the ASCII letters. *)
Definition lower_ascii (c : ascii) : ascii :=
  let n := nat_of_ascii c in
  if (65 <=? n) && (n <=? 90) then ascii_of_nat (n + 32) else c.

Definition upper_ascii (c : ascii) : ascii :=
  let n := nat_of_ascii c in
  if (97 <=? n) && (n <=? 122) then ascii_of_nat (n - 32) else c.

Fixpoint lower (s : string) : string :=
  match s with
  | EmptyString => EmptyString
  | String c r => String (lower_ascii c) (lower r)
  end.

Fixpoint upper (s : string) : string :=
  match s with
  | EmptyString => EmptyString
  | String c r => String (upper_ascii c) (upper r)
  end.

(** [x in [s1, ..., sn]] for a Python value that is a string or [None],
    and Cypher's [x IN [...]] used as a condition (null is not true). *)
Definition str_in (s : string) (l : list string) : bool :=
  existsb (String.eqb s) l.

Definition opt_in (x : option string) (l : list string) : bool :=
  match x with
  | Some s => str_in s l
  | None => false
  end.

(** Equality of two values that are strings or [None]. *)
Definition opt_eqb (x y : option string) : bool :=
  match x, y with
  | Some a, Some b => String.eqb a b
  | None, None => true
  | _, _ => false
  end.

(** Truth value of a string or [None]. *)
Definition truthy (x : option string) : bool :=
  match x with
  | Some s => negb (String.eqb s "")
  | None => false
  end.

(** [x or d]. *)
Definition or_default (x : option string) (d : string) : string :=
  if truthy x then match x with Some s => s | None => d end else d.

(** [str(x)] inside an f-string. *)
Definition py_str (x : option string) : string :=
  match x with
  | Some s => s
  | None => "None"
  end.

Definition str_of_nat (n : nat) : string :=
  DecimalString.NilEmpty.string_of_uint (Nat.to_uint n).

Definition str_of_N (n : N) : string :=
  DecimalString.NilEmpty.string_of_uint (N.to_uint n).

(** What an endpoint hands back: a JSON body, the body
    [{"error": msg}], or an uncaught exception. *)
Inductive Response (A : Type) : Type :=
| Ok (body : A)
| ErrorBody (msg : string)
| Raised (exn : string).

Arguments Ok {A} body.
Arguments ErrorBody {A} msg.
Arguments Raised {A} exn.

(** ** Graph snapshot *)

(** An [Asset] node.  [name] and [type] are strings and [status] is
    optional, as in [GraphNode]; the other properties may be absent. *)
Record Asset : Type := mkAsset {
  name : string;
  type : string;
  status : option string;
  ipAddress : option string;
  version : option string;
  configChecksum : option string;
  securityZone : option string;
  location : option string;
  failureReason : option string;
  lastFailure : option string
}.

(** A relationship between two nodes, named by their position in the
    node list; its own identity is its position in the edge list. *)
Record Edge : Type := mkEdge {
  src : nat;
  kind : string;
  dst : nat
}.

Record Graph : Type := mkGraph {
  nodes : list Asset;
  edges : list Edge
}.

Definition indexed {A : Type} (l : list A) : list (nat * A) :=
  combine (seq 0 (length l)) l.

Definition get_node (g : Graph) (i : nat) : option Asset :=
  nth_error (nodes g) i.

(** [MATCH (a:Asset {name: $assetName})]: a null parameter matches
    nothing. *)
Definition nodes_named (g : Graph) (assetName : option string)
  : list (nat * Asset) :=
  match assetName with
  | Some n => filter (fun ia => String.eqb (name (snd ia)) n) (indexed (nodes g))
  | None => []
  end.

(** ** Query engine *)

(** The places where a query hands rows over without a complete
    [ORDER BY]. *)
Inductive Site : Type :=
| RootCauseRows
| AssetRow
| SourceRow
| CascadeRows
| CriticalAssets
| DependentRows (critical : nat)
| ActualStates.

(** The order in which the engine hands over the rows of a match is any
    rearrangement of them, chosen by the engine for each place. *)
Record Engine : Type := mkEngine {
  row_order : Site -> forall A : Type, list A -> list A;
  row_order_perm :
    forall (q : Site) (A : Type) (l : list A), Permutation (row_order q A l) l
}.

Arguments row_order E q {A} l : rename.

Definition first_match_engine : Engine :=
  mkEngine (fun _ _ l => l) (fun _ _ l => Permutation_refl l).

Definition last_match_engine : Engine :=
  mkEngine (fun _ _ l => rev l)
           (fun _ _ l => Permutation_sym (Permutation_rev l)).

(** [ORDER BY]: a stable sort; [before a b] says that [a] may stay in
    front of [b]. *)
Fixpoint insert_by {A : Type} (before : A -> A -> bool) (x : A) (l : list A)
  : list A :=
  match l with
  | [] => [x]
  | y :: r => if before x y then x :: y :: r else y :: insert_by before x r
  end.

Definition order_by {A : Type} (before : A -> A -> bool) (l : list A)
  : list A :=
  fold_right (insert_by before) [] l.

(** [LIMIT n]. *)
Definition limit {A : Type} (n : nat) (l : list A) : list A := firstn n l.

(** [Result.single()]: no record gives [None]; with more than one record
    the driver warns and hands over the first. *)
Definition single {A : Type} (l : list A) : option A := hd_error l.

(** ** Variable-length patterns *)

(** A matched path: its relationships, first to last, each with its
    position in the edge list. *)
Definition Path : Type := list (nat * Edge).

Definition edge_ok (kinds : list string) (used : list nat) (ie : nat * Edge)
  : bool :=
  str_in (kind (snd ie)) kinds && negb (existsb (Nat.eqb (fst ie)) used).

(** [(x)-[:kinds*1..n]->(v)]: every path of 1 to [n] relationships of the
    given kinds that ends in [v]; a relationship occurs at most once in a
    path. *)
Fixpoint trails_to (n : nat) (es : list (nat * Edge)) (kinds : list string)
    (used : list nat) (v : nat) : list Path :=
  match n with
  | 0 => []
  | S n' =>
      flat_map
        (fun ie =>
           if (dst (snd ie) =? v) && edge_ok kinds used ie
           then [ie] :: map (fun p => p ++ [ie])
                            (trails_to n' es kinds (fst ie :: used) (src (snd ie)))
           else [])
        es
  end.

(** [(v)-[:kinds*1..n]->(x)]: the same, leaving [v]. *)
Fixpoint trails_from (n : nat) (es : list (nat * Edge)) (kinds : list string)
    (used : list nat) (v : nat) : list Path :=
  match n with
  | 0 => []
  | S n' =>
      flat_map
        (fun ie =>
           if (src (snd ie) =? v) && edge_ok kinds used ie
           then [ie] :: map (cons ie)
                            (trails_from n' es kinds (fst ie :: used) (dst (snd ie)))
           else [])
        es
  end.

Definition paths_into (g : Graph) (kinds : list string) (n v : nat)
  : list Path :=
  trails_to n (indexed (edges g)) kinds [] v.

Definition paths_out_of (g : Graph) (kinds : list string) (n v : nat)
  : list Path :=
  trails_from n (indexed (edges g)) kinds [] v.

(** First and last node of a path, [nodes(path)] and
    [[rel in relationships(path) | type(rel)]]. *)
Definition path_start (p : Path) : option nat :=
  option_map (fun ie => src (snd ie)) (hd_error p).

Definition path_end (p : Path) : option nat :=
  option_map (fun ie => dst (snd ie)) (hd_error (rev p)).

Definition path_nodes (p : Path) : list nat :=
  match p with
  | [] => []
  | ie :: _ => src (snd ie) :: map (fun je => dst (snd je)) p
  end.

Definition path_kinds (p : Path) : list string :=
  map (fun ie => kind (snd ie)) p.

(** Consecutive relationships of a path meet. *)
Fixpoint chained (p : Path) : Prop :=
  match p with
  | [] => True
  | ie :: r =>
      match r with
      | [] => True
      | je :: _ => dst (snd ie) = src (snd je)
      end /\ chained r
  end.

(** What the pattern [-[:kinds*1..n]->] asks of a path: 1 to [n]
    relationships of [es], each of an allowed kind and none of them in
    [used], no relationship twice, consecutive ones meeting. *)
Definition is_trail (n : nat) (es : list (nat * Edge)) (kinds : list string)
    (used : list nat) (p : Path) : Prop :=
  1 <= length p <= n /\
  Forall (fun ie => In ie es /\ str_in (kind (snd ie)) kinds = true
                    /\ ~ In (fst ie) used) p /\
  NoDup (map fst p) /\
  chained p.

(** ** Root-cause analysis: [find_root_cause] *)

Definition rca_kinds : list string :=
  ["POWERS"; "CONNECTS_TO"; "FEEDS_DATA"; "DEPENDS_ON"].

Definition rca_statuses : list string :=
  ["offline"; "error"; "failed"; "unreachable"; "degraded"; "warning"].

(** One entry of [failureChain]. *)
Record ChainEntry : Type := mkChainEntry {
  node_name : string;
  node_type : string;
  node_status : option string;
  node_failureReason : option string;
  node_lastFailure : option string
}.

Definition chain_entry (a : Asset) : ChainEntry :=
  mkChainEntry (name a) (type a) (status a) (failureReason a) (lastFailure a).

(** The [rca] map and the dictionary [find_root_cause] returns.  A field
    is [None] when the query yields null for it or when the dictionary has
    no such key.  [detailedAnalysis] and [teamOwnership], prose and a
    roster lookup computed from the fields kept here, are left out;
    [analysis] is the conclusion of the detailed analysis. *)
Record RcaData : Type := mkRcaData {
  targetAsset : string;
  targetStatus : option string;
  rootCause : option string;
  rootCauseType : option string;
  rootCauseStatus : option string;
  rootCauseReason : option string;
  rootCauseZone : option string;
  failureDepth : option nat;
  failureChain : option (list ChainEntry);
  relationshipTypes : option (list string);
  analysis : option string
}.

(** [WHERE root.status IN [...]] on the first node of a path. *)
Definition root_unhealthy (g : Graph) (p : Path) : bool :=
  match path_start p with
  | Some r =>
      match get_node g r with
      | Some a => opt_in (status a) rca_statuses
      | None => false
      end
  | None => false
  end.

(** The paths the [OPTIONAL MATCH] finds for one target node. *)
Definition rca_matches (g : Graph) (t : nat) : list Path :=
  filter (root_unhealthy g) (paths_into g rca_kinds 5 t).

(** Rows after [MATCH] and [OPTIONAL MATCH]: a target with no match keeps
    one row whose path is null. *)
Definition rca_rows (g : Graph) (assetName : option string)
  : list ((nat * Asset) * option Path) :=
  flat_map
    (fun t =>
       match rca_matches g (fst t) with
       | [] => [(t, None)]
       | ps => map (fun p => (t, Some p)) ps
       end)
    (nodes_named g assetName).

Definition row_depth (r : (nat * Asset) * option Path) : option nat :=
  option_map (@length (nat * Edge)) (snd r).

(** [ORDER BY depth DESC]: null sorts first in descending order. *)
Definition depth_desc (r1 r2 : (nat * Asset) * option Path) : bool :=
  match row_depth r1, row_depth r2 with
  | None, _ => true
  | Some _, None => false
  | Some a, Some b => b <=? a
  end.

Definition assets_of (g : Graph) (ids : list nat) : list Asset :=
  flat_map (fun i => match get_node g i with Some a => [a] | None => [] end) ids.

(** The [RETURN {...} as rca] map of one row. *)
Definition rca_of_row (g : Graph) (r : (nat * Asset) * option Path) : RcaData :=
  let target := snd (fst r) in
  let root :=
    match snd r with
    | Some p => match path_start p with Some i => get_node g i | None => None end
    | None => None
    end in
  let prop (f : Asset -> option string) :=
    match root with Some a => f a | None => None end in
  let depth := row_depth r in
  mkRcaData
    (name target)
    (status target)
    (option_map name root)
    (option_map type root)
    (prop status)
    (prop failureReason)
    (prop securityZone)
    depth
    (option_map (fun p => map chain_entry (assets_of g (path_nodes p))) (snd r))
    (option_map path_kinds (snd r))
    (match root, depth with
     | Some a, Some d =>
         Some ("Root cause identified: " ++ name a ++ " (" ++ type a
               ++ ") failed, causing " ++ str_of_nat d
               ++ " downstream failures including " ++ name target)%string
     | _, _ => None
     end).

Definition root_cause_query (E : Engine) (g : Graph) (assetName : option string)
  : list RcaData :=
  map (rca_of_row g)
      (limit 1 (order_by depth_desc
                (row_order E RootCauseRows (rca_rows g assetName)))).

(** [generate_detailed_rca_analysis(rca_data)["conclusion"]]. *)
Definition generate_detailed_rca_analysis (rca : RcaData) : Response string :=
  match failureDepth rca, failureChain rca with
  | Some depth, Some chain =>
      Ok ("ROOT CAUSE IDENTIFIED: " ++ py_str (rootCause rca)
          ++ " (" ++ py_str (rootCauseType rca) ++ ") experienced "
          ++ py_str (rootCauseReason rca)
          ++ ", which propagated through " ++ str_of_nat depth
          ++ " dependency levels affecting " ++ str_of_nat (length chain)
          ++ " assets including " ++ targetAsset rca ++ ". This is a "
          ++ (if (1 <? depth)%nat then "cascading" else "direct")
          ++ " failure pattern requiring immediate attention to "
          ++ py_str (rootCause rca) ++ ".")%string
  | _, _ => Raised "TypeError"
  end.

Definition status_description (st : string) : string :=
  if String.eqb st "unreachable"
  then "network connectivity issue or device is powered off"
  else if String.eqb st "degraded"
  then "performance degradation or partial functionality loss"
  else if String.eqb st "warning" then "early warning indicators detected"
  else if String.eqb st "offline" then "complete service unavailability"
  else if String.eqb st "error" then "active error condition"
  else if String.eqb st "failed"
  then "critical failure requiring immediate attention"
  else "unexpected state".

(** [generate_isolated_failure_analysis(asset_name, asset_details)
    ["conclusion"]]; [asset_details] always carries the three keys, so a
    null status reaches [.lower()]. *)
Definition generate_isolated_failure_analysis (asset_name : string)
    (d_type : string) (d_status : option string) (d_failureReason : string)
  : Response string :=
  match d_status with
  | None => Raised "AttributeError"
  | Some s =>
      let st := lower s in
      Ok ("ROOT CAUSE IDENTIFIED: " ++ asset_name ++ " (" ++ d_type
          ++ ") is experiencing an isolated " ++ upper st
          ++ " condition with no upstream dependencies as the cause."
          ++ " The issue is: " ++ d_failureReason ++ ". This indicates "
          ++ status_description st ++ ".")%string
  end.

(** The second query of [find_root_cause]. *)
Definition asset_query (E : Engine) (g : Graph) (assetName : option string)
  : list Asset :=
  map snd (row_order E AssetRow (nodes_named g assetName)).

(** The isolated-failure branch, for the asset record found. *)
Definition isolated_result (asset_name : string) (a : Asset) : Response RcaData :=
  let reason := or_default (failureReason a) "No specific reason provided" in
  let zone := or_default (securityZone a) "Unassigned" in
  match generate_isolated_failure_analysis asset_name (type a) (status a) reason with
  | Ok conclusion =>
      Ok (mkRcaData asset_name None (Some asset_name) (Some (type a))
                    (status a) (Some reason) (Some zone)
                    (Some 0) (Some []) None (Some conclusion))
  | ErrorBody m => ErrorBody m
  | Raised e => Raised e
  end.

Definition find_root_cause (E : Engine) (g : Graph) (assetName : option string)
  : Response RcaData :=
  let upstream :=
    match single (root_cause_query E g assetName) with
    | Some rca => if truthy (rootCause rca) then Some rca else None
    | None => None
    end in
  match upstream with
  | Some rca =>
      match generate_detailed_rca_analysis rca with
      | Ok conclusion =>
          Ok (mkRcaData (targetAsset rca) (targetStatus rca) (rootCause rca)
                        (rootCauseType rca) (rootCauseStatus rca)
                        (rootCauseReason rca) (rootCauseZone rca)
                        (failureDepth rca) (failureChain rca)
                        (relationshipTypes rca) (Some conclusion))
      | ErrorBody m => ErrorBody m
      | Raised e => Raised e
      end
  | None =>
      match single (asset_query E g assetName), assetName with
      | Some a, Some asset_name => isolated_result asset_name a
      | _, _ => ErrorBody "Asset not found"
      end
  end.

(** ** Cascade impact: [analyze_cascade_impact] *)

Definition cascade_kinds : list string :=
  ["POWERS"; "CONNECTS_TO"; "FEEDS_DATA"; "DEPENDS_ON"; "CONTROLS"].

(** One record of the downstream query, and one value of [assets_map]. *)
Record AffectedAsset : Type := mkAffectedAsset {
  aff_name : string;
  aff_type : string;
  aff_status : option string;
  aff_ipAddress : option string;
  distance : nat;
  isAffected : bool
}.

(** The impact dictionary; the prose fields ([analysis], [plainEnglish],
    [detailedBreakdown]) are renderings of the fields kept here. *)
Record CascadeData : Type := mkCascadeData {
  sourceAsset : string;
  sourceType : string;
  sourceStatus : option string;
  sourceIp : option string;
  totalDownstream : nat;
  currentlyAffected : nat;
  potentialImpact : nat;
  impactRadius : nat;
  allAffectedAssets : list AffectedAsset;
  severity : string
}.

(** The first query: the source asset's own row. *)
Definition source_query (E : Engine) (g : Graph) (assetName : option string)
  : list Asset :=
  map snd (row_order E SourceRow (nodes_named g assetName)).

(** A row of the second query: the asset a path ends in and the length of
    the path. *)
Definition cascade_rows (g : Graph) (assetName : option string)
  : list (Asset * nat) :=
  flat_map
    (fun s =>
       flat_map
         (fun p =>
            match path_end p with
            | Some i =>
                match get_node g i with
                | Some a => [(a, length p)]
                | None => []
                end
            | None => []
            end)
         (paths_out_of g cascade_kinds 5 (fst s)))
    (nodes_named g assetName).

(** [ORDER BY affected.name, length(path)]; names are compared byte by
    byte. *)
Definition name_then_length (r1 r2 : Asset * nat) : bool :=
  match String.compare (name (fst r1)) (name (fst r2)) with
  | Lt => true
  | Eq => snd r1 <=? snd r2
  | Gt => false
  end.

Definition paths_query (E : Engine) (g : Graph) (assetName : option string)
  : list (Asset * nat) :=
  order_by name_then_length (row_order E CascadeRows (cascade_rows g assetName)).

(** The value [assets_map] keeps for a record. *)
Definition affected_of (record : Asset * nat) : AffectedAsset :=
  mkAffectedAsset (name (fst record)) (type (fst record))
    (status (fst record)) (ipAddress (fst record)) (snd record)
    (opt_in (status (fst record)) ["offline"; "error"; "degraded"; "warning"]).

(** One turn of the loop that fills [assets_map], a dictionary kept in
    insertion order. *)
Definition assets_map_step (assets_map : list (string * AffectedAsset))
    (record : Asset * nat) : list (string * AffectedAsset) :=
  let asset_name_key := name (fst record) in
  if existsb (fun kv => String.eqb (fst kv) asset_name_key) assets_map
  then assets_map
  else assets_map ++ [(asset_name_key, affected_of record)].

(** In a well-formed [assets_map] keys are distinct and each key is the
    name of its value. *)
Definition assets_map_wf (m : list (string * AffectedAsset)) : Prop :=
  NoDup (map fst m) /\ forall kv, In kv m -> fst kv = aff_name (snd kv).

Definition cascade_severity (total_downstream : nat) : string :=
  if 10 <? total_downstream then "critical"
  else if 5 <? total_downstream then "high"
  else if 2 <? total_downstream then "medium"
  else "low".

Definition analyze_cascade_impact (E : Engine) (g : Graph)
    (assetName : option string) : Response CascadeData :=
  match single (source_query E g assetName) with
  | None => ErrorBody "Asset not found"
  | Some source_info =>
      let assets_map :=
        fold_left assets_map_step (paths_query E g assetName) [] in
      let all_affected := map snd assets_map in
      let currently_affected := length (filter isAffected all_affected) in
      let total_downstream := length all_affected in
      let max_distance := fold_right Nat.max 0 (map distance all_affected) in
      Ok (mkCascadeData (name source_info) (type source_info)
            (status source_info) (ipAddress source_info)
            total_downstream currently_affected total_downstream
            max_distance all_affected (cascade_severity total_downstream))
  end.

(** ** Critical paths: [analyze_critical_paths] *)

Definition spof_kinds : list string := ["POWERS"; "CONNECTS_TO"; "FEEDS_DATA"].

(** [DISTINCT]: the first occurrence of each value is kept. *)
Fixpoint distinct {A : Type} (eqb : A -> A -> bool) (l : list A) : list A :=
  match l with
  | [] => []
  | x :: r => x :: filter (fun y => negb (eqb x y)) (distinct eqb r)
  end.

Definition dep_eqb (x y : string * string * option string) : bool :=
  String.eqb (fst (fst x)) (fst (fst y))
  && String.eqb (snd (fst x)) (snd (fst y))
  && opt_eqb (snd x) (snd y).

Record CriticalPath : Type := mkCriticalPath {
  asset : string;
  spof_type : string;
  spof_status : option string;
  dependentCount : nat;
  criticalityScore : nat;
  isSPOF : bool;
  spof_severity : string;
  dependencies : list (string * string * option string);
  recommendation : string
}.

(** The nodes the paths out of [c] end in, one per path. *)
Definition dependents (E : Engine) (g : Graph) (c : nat) : list nat :=
  flat_map
    (fun p =>
       match path_end p with
       | Some i => match get_node g i with Some _ => [i] | None => [] end
       | None => []
       end)
    (row_order E (DependentRows c) (paths_out_of g spof_kinds 3 c)).

(** [count(DISTINCT dependent)]. *)
Definition dependent_count (E : Engine) (g : Graph) (c : nat) : nat :=
  length (distinct Nat.eqb (dependents E g c)).

Definition criticality_score (a : Asset) (dependent_count : nat) : nat :=
  dependent_count
  + (if str_in (type a) ["UPS"; "Router"; "NetworkSwitch"] then 10 else 0)
  + (if opt_in (status a) ["warning"; "degraded"] then 5 else 0).

Definition criticality_severity (score : nat) : string :=
  if 20 <? score then "critical"
  else if 10 <? score then "high"
  else "medium".

Definition critical_path_row (E : Engine) (g : Graph) (c : nat * Asset)
  : CriticalPath :=
  let a := snd c in
  let n := dependent_count E g (fst c) in
  let score := criticality_score a n in
  mkCriticalPath (name a) (type a) (status a) n score true
    (criticality_severity score)
    (distinct dep_eqb
       (map (fun d => (name d, type d, status d))
            (assets_of g (dependents E g (fst c)))))
    (if str_in (type a) ["UPS"; "PowerSupply"]
     then "CRITICAL: Add redundant power source"
     else if str_in (type a) ["Router"; "NetworkSwitch"]
     then "HIGH: Implement network redundancy"
     else ("Consider redundancy for " ++ str_of_nat n
           ++ " dependent systems")%string).

(** [ORDER BY criticalityScore DESC]. *)
Definition score_desc (r1 r2 : CriticalPath) : bool :=
  criticalityScore r2 <=? criticalityScore r1.

(** The rows that pass [WHERE dependentCount > 3], one per asset. *)
Definition significant_rows (E : Engine) (g : Graph) : list CriticalPath :=
  filter (fun r => 3 <? dependentCount r)
         (map (critical_path_row E g)
              (row_order E CriticalAssets (indexed (nodes g)))).

Definition analyze_critical_paths (E : Engine) (g : Graph) : list CriticalPath :=
  limit 10 (order_by score_desc (significant_rows E g)).

(** ** Random draws, the clock and exceptions *)

(** The raw numbers [random] hands out and the instants [datetime.now()]
    reads (seconds), by call number. *)
Record World : Type := mkWorld {
  tape : nat -> N;
  clock : nat -> Z
}.

(** How many draws and clock readings have been made. *)
Record Counters : Type := mkCounters {
  draws : nat;
  reads : nat
}.

(** A computation that may draw, read the clock or raise. *)
Definition M (A : Type) : Type := World -> Counters -> Response (A * Counters).

Definition ret {A : Type} (a : A) : M A := fun _ c => Ok (a, c).

Definition bind {A B : Type} (m : M A) (k : A -> M B) : M B :=
  fun w c =>
    match m w c with
    | Ok (a, c') => k a w c'
    | ErrorBody msg => ErrorBody msg
    | Raised e => Raised e
    end.

Definition raise {A : Type} (exn : string) : M A := fun _ _ => Raised exn.

Notation "x <- m ;; k" := (bind m (fun x => k))
  (at level 61, m at next level, right associativity).

(** [random.randint(a, b)], both ends included. *)
Definition randint (a b : N) : M N :=
  fun w c =>
    Ok ((a + N.modulo (tape w (draws c)) (b - a + 1))%N,
        mkCounters (S (draws c)) (reads c)).

(** [datetime.now()]. *)
Definition now : M Z :=
  fun w c => Ok (clock w (reads c), mkCounters (draws c) (S (reads c))).

(** A time stamp: a literal ISO string of the source, or an instant read
    from the clock. *)
Inductive Timestamp : Type :=
| Literal (iso : string)
| Instant (seconds : Z).

(** [f"{n:04x}"]. *)
Definition hex04 (n : N) : string :=
  let h := HexadecimalString.NilEmpty.string_of_uint (N.to_hex_uint n) in
  (match 4 - String.length h with
   | 0 => ""
   | 1 => "0"
   | 2 => "00"
   | 3 => "000"
   | _ => "0000"
   end ++ h)%string.

(** ** Intended configuration: [get_gitops_config_for_asset] *)

(** The keys of an intended configuration that [calculate_drift] reads,
    and [lastUpdated]. *)
Record GitopsConfig : Type := mkGitopsConfig {
  cfg_name : string;
  cfg_type : string;
  cfg_status : string;
  cfg_ipAddress : string;
  cfg_version : string;
  cfg_configChecksum : string;
  cfg_securityZone : string;
  cfg_gitRepo : string;
  cfg_gitPath : string;
  cfg_lastCommit : string;
  cfg_lastUpdated : Timestamp
}.

Definition gitops_configs : list (string * GitopsConfig) :=
  [("PLC-001",
    mkGitopsConfig "PLC-001" "PLC" "running" "192.168.1.10" "2.5.0"
      "a1b2c3d4" "Level 1 - Control" "github.com/factory/plc-configs"
      "plcs/assembly-line-1/plc-001.yaml" "abc123"
      (Literal "2026-01-05T10:30:00Z"));
   ("NetworkSwitch-01",
    mkGitopsConfig "NetworkSwitch-01" "NetworkSwitch" "running" "192.168.0.5"
      "16.9.3" "e5f6g7h8" "Level 2 - Supervisory"
      "github.com/factory/network-configs" "switches/core/switch-01.yaml"
      "def456" (Literal "2026-01-04T15:20:00Z"));
   ("Robot-Arm-101",
    mkGitopsConfig "Robot-Arm-101" "IndustrialRobot" "running" "192.168.2.15"
      "7.2.1" "i9j0k1l2" "Level 1 - Control"
      "github.com/factory/robot-configs" "robots/assembly/robot-arm-101.yaml"
      "ghi789" (Literal "2026-01-03T09:15:00Z"));
   ("SCADA-HMI-01",
    mkGitopsConfig "SCADA-HMI-01" "HMI" "running" "192.168.3.20" "12.4.0"
      "m3n4o5p6" "Level 2 - Supervisory" "github.com/factory/scada-configs"
      "hmi/control-room/scada-hmi-01.yaml" "jkl012"
      (Literal "2026-01-02T14:00:00Z"))].

Fixpoint dict_get {V : Type} (d : list (string * V)) (k : string) : option V :=
  match d with
  | [] => None
  | (k', v) :: r => if String.eqb k' k then Some v else dict_get r k
  end.

Definition get_gitops_config_for_asset (asset_name asset_type : string)
  : M GitopsConfig :=
  match dict_get gitops_configs asset_name with
  | Some config => ret config
  | None =>
      ip1 <- randint 1 5 ;;
      ip2 <- randint 10 250 ;;
      v1 <- randint 1 10 ;;
      v2 <- randint 0 9 ;;
      v3 <- randint 0 9 ;;
      checksum <- randint 1000 9999 ;;
      commit <- randint 100 999 ;;
      t <- now ;;
      days <- randint 1 30 ;;
      ret (mkGitopsConfig asset_name asset_type "running"
             ("192.168." ++ str_of_N ip1 ++ "." ++ str_of_N ip2)%string
             (str_of_N v1 ++ "." ++ str_of_N v2 ++ "." ++ str_of_N v3)%string
             (hex04 checksum)
             "Level 1 - Control"
             ("github.com/factory/" ++ lower asset_type ++ "-configs")%string
             (lower asset_type ++ "s/" ++ lower asset_name ++ ".yaml")%string
             ("commit" ++ str_of_N commit)%string
             (Instant (t - 86400 * Z.of_N days)%Z))
  end.

(** ** Drift: [calculate_drift] *)

(** The [actualState] map of one asset. *)
Record ActualState : Type := mkActualState {
  act_name : string;
  act_type : string;
  act_status : option string;
  act_ipAddress : option string;
  act_version : option string;
  act_configChecksum : option string;
  act_securityZone : option string;
  act_location : option string
}.

Definition coalesce (x : option string) (d : string) : option string :=
  match x with
  | Some s => Some s
  | None => Some d
  end.

Definition actual_state (a : Asset) : ActualState :=
  mkActualState (name a) (type a) (status a) (ipAddress a) (version a)
    (coalesce (configChecksum a) "unknown") (securityZone a)
    (coalesce (location a) "Unknown").

(** [ORDER BY asset.name], names compared byte by byte. *)
Definition name_asc (a b : nat * Asset) : bool :=
  match String.compare (name (snd a)) (name (snd b)) with
  | Gt => false
  | _ => true
  end.

Definition actual_query (E : Engine) (g : Graph) : list ActualState :=
  map (fun ia => actual_state (snd ia))
      (limit 50 (order_by name_asc
                 (row_order E ActualStates (indexed (nodes g))))).

(** One entry of [drifts]. *)
Record FieldDrift : Type := mkFieldDrift {
  field : string;
  intended : option string;
  actual : option string;
  field_severity : string
}.

(** The variables the comparison updates. *)
Record DriftVars : Type := mkDriftVars {
  drifts : list FieldDrift;
  drift_severity : string;
  critical_drift : nat
}.

Definition status_drift (a : ActualState) (i : GitopsConfig) (v : DriftVars)
  : Response DriftVars :=
  match act_status a with
  | None => Raised "AttributeError"
  | Some s =>
      if negb (String.eqb (lower s) (lower (cfg_status i)))
      then Ok (mkDriftVars
                 (drifts v ++
                  [mkFieldDrift "status" (Some (cfg_status i)) (act_status a)
                     (if opt_in (act_status a) ["offline"; "error"; "failed"]
                      then "critical" else "high")])
                 "critical"
                 (critical_drift v + 1))
      else Ok v
  end.

Definition ip_drift (a : ActualState) (i : GitopsConfig) (v : DriftVars)
  : DriftVars :=
  if negb (opt_eqb (act_ipAddress a) (Some (cfg_ipAddress i)))
  then mkDriftVars
         (drifts v ++
          [mkFieldDrift "ipAddress" (Some (cfg_ipAddress i)) (act_ipAddress a)
             "medium"])
         (if String.eqb (drift_severity v) "none" then "medium"
          else drift_severity v)
         (critical_drift v)
  else v.

Definition version_drift (a : ActualState) (i : GitopsConfig) (v : DriftVars)
  : DriftVars :=
  if negb (opt_eqb (act_version a) (Some (cfg_version i)))
  then mkDriftVars
         (drifts v ++
          [mkFieldDrift "version" (Some (cfg_version i)) (act_version a) "high"])
         (if str_in (drift_severity v) ["none"; "medium"] then "high"
          else drift_severity v)
         (critical_drift v)
  else v.

Definition checksum_drift (a : ActualState) (i : GitopsConfig) (v : DriftVars)
  : DriftVars :=
  if negb (opt_eqb (act_configChecksum a) (Some (cfg_configChecksum i)))
  then
    if negb (opt_eqb (act_configChecksum a) (Some "unknown"))
    then mkDriftVars
           (drifts v ++
            [mkFieldDrift "configChecksum" (Some (cfg_configChecksum i))
               (act_configChecksum a) "high"])
           (if str_in (drift_severity v) ["none"; "medium"] then "high"
            else drift_severity v)
           (critical_drift v)
    else v
  else v.

Definition zone_drift (a : ActualState) (i : GitopsConfig) (v : DriftVars)
  : DriftVars :=
  if negb (opt_eqb (act_securityZone a) (Some (cfg_securityZone i)))
  then mkDriftVars
         (drifts v ++
          [mkFieldDrift "securityZone" (Some (cfg_securityZone i))
             (act_securityZone a) "critical"])
         "critical"
         (critical_drift v + 1)
  else v.

(** The comparison of one asset, from [drifts = []] to the last field;
    [critical] is the running [critical_drift] counter. *)
Definition detect_drifts (a : ActualState) (i : GitopsConfig) (critical : nat)
  : Response DriftVars :=
  match status_drift a i (mkDriftVars [] "none" critical) with
  | Ok v => Ok (zone_drift a i (checksum_drift a i (version_drift a i (ip_drift a i v))))
  | ErrorBody m => ErrorBody m
  | Raised e => Raised e
  end.

(** One entry of [generate_drift_actions]. *)
Record DriftAction : Type := mkDriftAction {
  action : string;
  title : string;
  description : string;
  priority : string;
  automated : bool
}.

Definition drift_action (d : FieldDrift) : list DriftAction :=
  if String.eqb (field d) "status"
  then [mkDriftAction "investigate_failure" "Investigate Asset Failure"
          ("Asset status drifted to " ++ py_str (actual d)
           ++ ". Run RCA to identify root cause.")%string
          "critical" false]
  else if String.eqb (field d) "version"
  then [mkDriftAction "sync_version" "Update to Intended Version"
          ("Upgrade/downgrade from " ++ py_str (actual d) ++ " to "
           ++ py_str (intended d))%string
          "high" true]
  else if String.eqb (field d) "ipAddress"
  then [mkDriftAction "update_network" "Update Network Configuration"
          ("Reconfigure IP from " ++ py_str (actual d) ++ " to "
           ++ py_str (intended d))%string
          "medium" true]
  else if String.eqb (field d) "configChecksum"
  then [mkDriftAction "sync_config" "Sync Configuration from Git"
          "Configuration has drifted. Pull latest config from GitOps repository."
          "high" true]
  else if String.eqb (field d) "securityZone"
  then [mkDriftAction "update_zone" "Reassign Security Zone"
          ("Move asset from " ++ py_str (actual d) ++ " to "
           ++ py_str (intended d))%string
          "critical" false]
  else [].

Definition generate_drift_actions (ds : list FieldDrift) : list DriftAction :=
  flat_map drift_action ds.

(** One entry of the drift list. *)
Record DriftRecord : Type := mkDriftRecord {
  assetName : string;
  assetType : string;
  driftStatus : string;
  driftCount : nat;
  driftEntries : list FieldDrift;
  gitRepo : string;
  gitPath : string;
  lastCommit : string;
  detectedAt : Timestamp;
  actions : list DriftAction
}.

(** The variables of the loop over the assets. *)
Record DriftLoop : Type := mkDriftLoop {
  drift_records : list DriftRecord;
  total_drifted : nat;
  critical_total : nat
}.

(** The response; [driftPercentage], a floating-point rendering of
    [driftedAssets], is left out. *)
Record DriftReport : Type := mkDriftReport {
  totalAssets : nat;
  driftedAssets : nat;
  inSyncAssets : nat;
  criticalDrifts : nat;
  driftList : list DriftRecord;
  lastCalculated : Timestamp
}.

Definition lift {A : Type} (r : Response A) : M A :=
  fun _ c =>
    match r with
    | Ok a => Ok (a, c)
    | ErrorBody m => ErrorBody m
    | Raised e => Raised e
    end.

(** The body of the loop for one asset. *)
Definition drift_step (st : DriftLoop) (a : ActualState) : M DriftLoop :=
  i <- get_gitops_config_for_asset (act_name a) (act_type a) ;;
  v <- lift (detect_drifts a i (critical_total st)) ;;
  match drifts v with
  | [] => ret (mkDriftLoop (drift_records st) (total_drifted st) (critical_drift v))
  | _ :: _ =>
      t <- now ;;
      ret (mkDriftLoop
             (drift_records st ++
              [mkDriftRecord (act_name a) (act_type a) (drift_severity v)
                 (length (drifts v)) (drifts v) (cfg_gitRepo i) (cfg_gitPath i)
                 (cfg_lastCommit i) (Instant t)
                 (generate_drift_actions (drifts v))])
             (total_drifted st + 1)
             (critical_drift v))
  end.

Fixpoint drift_loop (st : DriftLoop) (rows : list ActualState) : M DriftLoop :=
  match rows with
  | [] => ret st
  | a :: rest => st' <- drift_step st a ;; drift_loop st' rest
  end.

Definition calculate_drift (E : Engine) (g : Graph) : M DriftReport :=
  st <- drift_loop (mkDriftLoop [] 0 0) (actual_query E g) ;;
  t <- now ;;
  ret (mkDriftReport
         (length (drift_records st) + (50 - total_drifted st))
         (total_drifted st)
         (50 - total_drifted st)
         (critical_total st)
         (drift_records st)
         (Instant t)).

(** ** The specification's traversal *)

(** The traversal of the written specification, kept apart from the
    queries above so that the two can be compared: breadth-first from the
    start, forward or backward, with a visited set, each asset reported
    once, at the depth at which it was first reached. *)
Definition spec_neighbours (forward : bool) (es : list Edge)
    (kinds : list string) (seen : list nat) (v : nat) : list nat :=
  fold_left
    (fun acc e =>
       let here := if forward then src e else dst e in
       let there := if forward then dst e else src e in
       if (here =? v) && str_in (kind e) kinds
          && negb (existsb (Nat.eqb there) (seen ++ acc))
       then acc ++ [there] else acc)
    es [].

Definition spec_next_level (forward : bool) (es : list Edge)
    (kinds : list string) (visited frontier : list nat) : list nat :=
  fold_left
    (fun acc v => acc ++ spec_neighbours forward es kinds (visited ++ acc) v)
    frontier [].

Fixpoint spec_levels (forward : bool) (fuel depth : nat) (es : list Edge)
    (kinds : list string) (visited frontier : list nat) : list (nat * nat) :=
  match fuel with
  | 0 => []
  | S fuel' =>
      let next := spec_next_level forward es kinds visited frontier in
      map (fun v => (v, depth)) next
      ++ spec_levels forward fuel' (S depth) es kinds (visited ++ next) next
  end.

Definition spec_traverse (g : Graph) (forward : bool) (kinds : list string)
    (maxDepth start : nat) : list (nat * nat) :=
  spec_levels forward maxDepth 1 (edges g) kinds [start] [start].

Definition spec_unhealthy (g : Graph) (i : nat) : bool :=
  match get_node g i with
  | Some a => opt_in (status a) rca_statuses
  | None => false
  end.

(** The unhealthy ancestor at maximum depth, the first discovered among
    those at that depth, with its depth. *)
Definition spec_deepest (found : list (nat * nat)) : option (nat * nat) :=
  fold_left
    (fun best vd =>
       match best with
       | None => Some vd
       | Some b => if snd b <? snd vd then Some vd else Some b
       end)
    found None.

Definition spec_findRootCause (g : Graph) (target : nat) : option (nat * nat) :=
  spec_deepest
    (filter (fun vd => spec_unhealthy g (fst vd))
            (spec_traverse g false rca_kinds 5 target)).

(** The order of severities: critical > high > medium > none. *)
Definition severity_rank (s : string) : nat :=
  if String.eqb s "critical" then 3
  else if String.eqb s "high" then 2
  else if String.eqb s "medium" then 1
  else 0.

Definition max_severity (l : list string) : string :=
  fold_left (fun m s => if severity_rank m <? severity_rank s then s else m)
            l "none".

(** The severity the specification gives to a mismatch of each field. *)
Definition expected_field_severity (d : FieldDrift) : string :=
  if String.eqb (field d) "status"
  then (if opt_in (actual d) ["offline"; "error"; "failed"]
        then "critical" else "high")
  else if String.eqb (field d) "ipAddress" then "medium"
  else if String.eqb (field d) "version" then "high"
  else if String.eqb (field d) "configChecksum" then "high"
  else if String.eqb (field d) "securityZone" then "critical"
  else "none".

(** What a mismatch weighs in the overall severity of its asset: a status
    mismatch weighs [critical] whatever its own severity. *)
Definition asset_level_severity (d : FieldDrift) : string :=
  if String.eqb (field d) "status" then "critical" else field_severity d.

(** ** Example snapshots *)

(** An asset with a name, a type and a status and no other property. *)
Definition plain_asset (n t : string) (s : option string) : Asset :=
  mkAsset n t s None None None None None None None.

(** [UPS -(POWERS)-> PLC1 -(CONTROLS)-> Robot1], all offline. *)
Definition scenario_graph : Graph :=
  mkGraph
    [plain_asset "UPS" "UPS" (Some "offline");
     plain_asset "PLC1" "PLC" (Some "offline");
     plain_asset "Robot1" "Robot" (Some "offline")]
    [mkEdge 0 "POWERS" 1; mkEdge 1 "CONTROLS" 2].

(** The same assets with [PLC1 -(POWERS)-> Robot1]. *)
Definition scenario_graph_powers : Graph :=
  mkGraph (nodes scenario_graph) [mkEdge 0 "POWERS" 1; mkEdge 1 "POWERS" 2].

(** A gateway that feeds two distinct cameras of the same name. *)
Definition twin_names_graph : Graph :=
  mkGraph
    [plain_asset "Gateway-01" "Gateway" (Some "online");
     plain_asset "Camera" "Camera" (Some "online");
     plain_asset "Camera" "Camera" (Some "online")]
    [mkEdge 0 "FEEDS_DATA" 1; mkEdge 0 "FEEDS_DATA" 2].

(** A UPS that powers a PLC whose status is [failed]. *)
Definition failed_downstream_graph : Graph :=
  mkGraph
    [plain_asset "UPS-Main" "UPS" (Some "online");
     plain_asset "PLC-001" "PLC" (Some "failed")]
    [mkEdge 0 "POWERS" 1].

(** A single asset without a [status] property. *)
Definition no_status_graph : Graph :=
  mkGraph
    [mkAsset "Pump-7" "Pump" None None None None None None None None]
    [].

(** [A] (offline) powers [T] directly and through the healthy [B]. *)
Definition diamond_graph : Graph :=
  mkGraph
    [plain_asset "A" "UPS" (Some "offline");
     plain_asset "B" "PLC" (Some "online");
     plain_asset "T" "Robot" (Some "offline")]
    [mkEdge 0 "POWERS" 2; mkEdge 0 "POWERS" 1; mkEdge 1 "POWERS" 2].

(** [A] and [B], both offline, each power [T]. *)
Definition two_parents_graph : Graph :=
  mkGraph
    [plain_asset "A" "UPS" (Some "offline");
     plain_asset "B" "UPS" (Some "offline");
     plain_asset "T" "Robot" (Some "offline")]
    [mkEdge 0 "POWERS" 2; mkEdge 1 "POWERS" 2].

(** [PLC-001] as observed, in agreement with its intended
    configuration. *)
Definition plc_in_sync : Asset :=
  mkAsset "PLC-001" "PLC" (Some "running") (Some "192.168.1.10") (Some "2.5.0")
    (Some "a1b2c3d4") (Some "Level 1 - Control") None None None.

(** [PLC-001] observed in status [warning], all else as intended. *)
Definition plc_warning : Asset :=
  mkAsset "PLC-001" "PLC" (Some "warning") (Some "192.168.1.10") (Some "2.5.0")
    (Some "a1b2c3d4") (Some "Level 1 - Control") None None None.

(** An asset that has no predefined configuration. *)
Definition pump_asset : Asset :=
  mkAsset "Pump-7" "Pump" (Some "running") (Some "192.168.1.10") (Some "1.0.0")
    None (Some "Level 1 - Control") None None None.

(** Draws that are all 0, draws that are all 1, and a clock that ticks
    once per reading. *)
Definition zero_world : World := mkWorld (fun _ => 0%N) (fun k => Z.of_nat k).

Definition one_world : World := mkWorld (fun _ => 1%N) (fun k => Z.of_nat k).

Definition plc_config : GitopsConfig :=
  mkGitopsConfig "PLC-001" "PLC" "running" "192.168.1.10" "2.5.0"
    "a1b2c3d4" "Level 1 - Control" "github.com/factory/plc-configs"
    "plcs/assembly-line-1/plc-001.yaml" "abc123"
    (Literal "2026-01-05T10:30:00Z").

(** Eleven servers, each powering the same four sensors. *)
Definition eleven_hubs_graph : Graph :=
  mkGraph
    (map (fun n => plain_asset n "Server" (Some "online"))
         ["H00"; "H01"; "H02"; "H03"; "H04"; "H05"; "H06"; "H07"; "H08";
          "H09"; "H10"]
     ++ map (fun n => plain_asset n "Sensor" (Some "online"))
            ["S0"; "S1"; "S2"; "S3"])
    (flat_map (fun h => map (fun l => mkEdge h "POWERS" l) [11; 12; 13; 14])
              (seq 0 11)).

(** Two servers, each powering the same four sensors. *)
Definition two_hubs_graph : Graph :=
  mkGraph
    (map (fun n => plain_asset n "Server" (Some "online")) ["H0"; "H1"]
     ++ map (fun n => plain_asset n "Sensor" (Some "online"))
            ["S0"; "S1"; "S2"; "S3"])
    (flat_map (fun h => map (fun l => mkEdge h "POWERS" l) [2; 3; 4; 5])
              (seq 0 2)).

(** ** Further operations of the backend *)

(** Every relationship joins two nodes of the snapshot. *)
Definition edges_in_range (g : Graph) : Prop :=
  forall e, In e (edges g) ->
            src e < length (nodes g) /\ dst e < length (nodes g).

(** The snapshot with one more relationship. *)
Definition add_edge (g : Graph) (e : Edge) : Graph :=
  mkGraph (nodes g) (edges g ++ [e]).

(** The fields [calculate_drift] compares, in the order it compares
    them. *)
Definition drift_fields : list string :=
  ["status"; "ipAddress"; "version"; "configChecksum"; "securityZone"].

(** The mismatches of a record that add to [critical_drift]. *)
Definition critical_entries (r : DriftRecord) : nat :=
  length (filter (fun d => str_in (field d) ["status"; "securityZone"])
                 (driftEntries r)).

(** What holds of every record of the drift list. *)
Definition record_ok (r : DriftRecord) : Prop :=
  driftCount r = length (driftEntries r) /\
  1 <= driftCount r <= 5 /\
  In (driftStatus r) ["medium"; "high"; "critical"] /\
  actions r = generate_drift_actions (driftEntries r) /\
  map field (driftEntries r)
  = filter (fun f => str_in f (map field (driftEntries r))) drift_fields.

(** What the loop of [calculate_drift] keeps true of its variables. *)
Definition drift_loop_inv (st : DriftLoop) : Prop :=
  total_drifted st = length (drift_records st) /\
  critical_total st = list_sum (map critical_entries (drift_records st)) /\
  Forall record_ok (drift_records st).

(** ** Zones and teams: [get_default_zone], [get_team_ownership] *)

Definition get_default_zone (asset_type : string) : string :=
  if str_in asset_type ["Sensor"; "IoTDevice"; "Camera"; "RFID"]
  then "Level 0 - Process"
  else if str_in asset_type
            ["PLC"; "Robot"; "IndustrialRobot"; "Cobot"; "CNC"; "HMI"]
  then "Level 1 - Control"
  else if str_in asset_type ["Gateway"; "EdgeGateway"; "NetworkSwitch"]
  then "Level 2 - Supervisory"
  else if str_in asset_type
            ["Server"; "Storage"; "KafkaBroker"; "PostgreSQL"; "TimescaleDB"]
  then "Level 3 - Operations"
  else if str_in asset_type
            ["KubernetesCluster"; "Router"; "Firewall"; "UPS"; "BMS"]
  then "Level 4 - Enterprise"
  else "Unassigned".

Record TeamOwnership : Type := mkTeamOwnership {
  team : string;
  lead : string;
  contact : string;
  slack : string;
  oncall : string
}.

Definition get_team_ownership (asset_type zone : string) : TeamOwnership :=
  if str_in asset_type ["Sensor"; "IoTDevice"; "Camera"; "RFID"]
  then mkTeamOwnership "IoT & Sensor Operations" "Sarah Chen"
         "sarah.chen@factory.com" "#iot-operations" "+1-555-0101"
  else if str_in asset_type ["PLC"; "Robot"; "IndustrialRobot"; "Cobot"; "CNC"]
  then mkTeamOwnership "Automation & Robotics" "Michael Torres"
         "michael.torres@factory.com" "#automation-team" "+1-555-0102"
  else if str_in asset_type ["HMI"; "SCADA"]
  then mkTeamOwnership "Control Systems Engineering" "Jennifer Park"
         "jennifer.park@factory.com" "#control-systems" "+1-555-0103"
  else if str_in asset_type
            ["Gateway"; "EdgeGateway"; "NetworkSwitch"; "Router"; "Firewall"]
  then mkTeamOwnership "Network Infrastructure" "David Kim"
         "david.kim@factory.com" "#network-ops" "+1-555-0104"
  else if str_in asset_type
            ["Server"; "Storage"; "KafkaBroker"; "PostgreSQL"; "TimescaleDB"]
  then mkTeamOwnership "Data Platform Engineering" "Aisha Patel"
         "aisha.patel@factory.com" "#data-platform" "+1-555-0105"
  else if str_in asset_type ["KubernetesCluster"; "UPS"; "BMS"]
  then mkTeamOwnership "Cloud & Enterprise Systems" "Robert Martinez"
         "robert.martinez@factory.com" "#cloud-ops" "+1-555-0106"
  else mkTeamOwnership "General Maintenance & Operations" "Operations Manager"
         "ops-manager@factory.com" "#general-ops" "+1-555-0100".

(** ** Rows of the further queries *)

(** The order in which the rows of a query without a complete [ORDER BY]
    arrive: [scan] for the rows of a node or relationship match, [expand c]
    for the paths matched out of (or into) node [c]. *)
Record Planner : Type := mkPlanner {
  scan : forall A : Type, list A -> list A;
  scan_perm : forall (A : Type) (l : list A), Permutation (scan A l) l;
  expand : nat -> forall A : Type, list A -> list A;
  expand_perm :
    forall (c : nat) (A : Type) (l : list A), Permutation (expand c A l) l
}.

Arguments scan P {A} l : rename.
Arguments expand P c {A} l : rename.

Definition forward_planner : Planner :=
  mkPlanner (fun _ l => l) (fun _ l => Permutation_refl l)
            (fun _ _ l => l) (fun _ _ l => Permutation_refl l).

Definition backward_planner : Planner :=
  mkPlanner (fun _ l => rev l)
            (fun _ l => Permutation_sym (Permutation_rev l))
            (fun _ _ l => rev l)
            (fun _ _ l => Permutation_sym (Permutation_rev l)).

(** ** Zone health: [get_zones] *)

Record ZoneStats : Type := mkZoneStats {
  zone_id : option string;
  zone_name : string;
  zone_level : string;
  zone_security : string;
  zone_total : nat;
  zone_online : nat;
  zone_warning : nat;
  zone_offline : nat;
  zone_color : string
}.

Definition new_zone (zone : string) : ZoneStats :=
  mkZoneStats None zone zone "Medium" 0 0 0 0 "#94a3b8".

(** [d[k] = f(d[k])] for a key that is present. *)
Fixpoint dict_update {V : Type} (d : list (string * V)) (k : string)
    (f : V -> V) : list (string * V) :=
  match d with
  | [] => []
  | (k', v) :: r =>
      if String.eqb k' k then (k', f v) :: r
      else (k', v) :: dict_update r k f
  end.

Definition count_asset (status : option string) (s : ZoneStats) : ZoneStats :=
  let s1 :=
    mkZoneStats (zone_id s) (zone_name s) (zone_level s) (zone_security s)
      (zone_total s + 1) (zone_online s) (zone_warning s) (zone_offline s)
      (zone_color s) in
  if opt_in status ["running"; "online"]
  then mkZoneStats (zone_id s1) (zone_name s1) (zone_level s1)
         (zone_security s1) (zone_total s1) (zone_online s1 + 1)
         (zone_warning s1) (zone_offline s1) (zone_color s1)
  else if opt_in status ["warning"; "degraded"]
  then mkZoneStats (zone_id s1) (zone_name s1) (zone_level s1)
         (zone_security s1) (zone_total s1) (zone_online s1)
         (zone_warning s1 + 1) (zone_offline s1) (zone_color s1)
  else if opt_in status ["offline"; "error"]
  then mkZoneStats (zone_id s1) (zone_name s1) (zone_level s1)
         (zone_security s1) (zone_total s1) (zone_online s1)
         (zone_warning s1) (zone_offline s1 + 1) (zone_color s1)
  else s1.

(** The body of the loop over the records; a record carries the type
    and the status of one asset. *)
Definition zone_step (zone_stats : list (string * ZoneStats)) (r : Asset)
  : list (string * ZoneStats) :=
  let zone := get_default_zone (type r) in
  let zone_stats1 :=
    match dict_get zone_stats zone with
    | Some _ => zone_stats
    | None => zone_stats ++ [(zone, new_zone zone)]
    end in
  dict_update zone_stats1 zone (count_asset (status r)).

Definition zone_colors : list (string * (string * string)) :=
  [("Level 0 - Process", ("#ef4444", "Critical"));
   ("Level 1 - Control", ("#f59e0b", "High"));
   ("Level 2 - Supervisory", ("#eab308", "High"));
   ("Level 3 - Operations", ("#22c55e", "Medium"));
   ("Level 4 - Enterprise", ("#3b82f6", "Low"));
   ("Unassigned", ("#94a3b8", "Medium"))].

Definition paint_zone (kv : string * ZoneStats) : string * ZoneStats :=
  match dict_get zone_colors (fst kv) with
  | Some cs =>
      (fst kv,
       mkZoneStats (zone_id (snd kv)) (zone_name (snd kv))
         (zone_level (snd kv)) (snd cs) (zone_total (snd kv))
         (zone_online (snd kv)) (zone_warning (snd kv))
         (zone_offline (snd kv)) (fst cs))
  | None => kv
  end.

(** [sorted(..., key=lambda x: x["zone"])]. *)
Definition zone_asc (a b : ZoneStats) : bool :=
  match String.compare (zone_name a) (zone_name b) with
  | Gt => false
  | _ => true
  end.

Definition get_zones (P : Planner) (g : Graph) : list ZoneStats :=
  let zone_stats := fold_left zone_step (scan P (nodes g)) [] in
  order_by zone_asc (map snd (map paint_zone zone_stats)).

(** What the report is to say of zone [k] for the assets [l], before the
    colours are set. *)
Definition in_zone (k : string) (a : Asset) : bool :=
  String.eqb (get_default_zone (type a)) k.

Definition zone_summary (k : string) (l : list Asset) : ZoneStats :=
  mkZoneStats None k k "Medium"
    (length (filter (in_zone k) l))
    (length (filter (fun a => in_zone k a
                              && opt_in (status a) ["running"; "online"]) l))
    (length (filter (fun a => in_zone k a
                              && opt_in (status a) ["warning"; "degraded"]) l))
    (length (filter (fun a => in_zone k a
                              && opt_in (status a) ["offline"; "error"]) l))
    "#94a3b8".

(** What the loop of [get_zones] keeps true of [zone_stats] once it has
    seen the records [l]. *)
Definition zones_wf (d : list (string * ZoneStats)) (l : list Asset) : Prop :=
  NoDup (map fst d) /\
  (forall k, In k (map fst d) <->
             exists a, In a l /\ get_default_zone (type a) = k) /\
  (forall k s, In (k, s) d -> s = zone_summary k l).

(** ** Rows of a match from one asset *)

(** The asset a matched path ends in; a path that ends outside the node
    list matches no asset. *)
Definition end_asset (g : Graph) (p : Path) : option (nat * Asset) :=
  match path_end p with
  | Some j =>
      match get_node g j with
      | Some a => Some (j, a)
      | None => None
      end
  | None => None
  end.

(** [OPTIONAL MATCH]: when nothing matches, one row of nulls. *)
Definition optional_rows {A : Type} (null_row : A) (matched : list A)
  : list A :=
  match matched with
  | [] => [null_row]
  | _ :: _ => matched
  end.

(** ** Network path failures: [analyze_network_path_failures] *)

(** One map of [isolatedDevices]; its values are null on the row of an
    optional match that found nothing. *)
Record IsolatedDevice : Type := mkIsolatedDevice {
  iso_name : option string;
  iso_type : option string;
  iso_status : option string
}.

Definition null_device : IsolatedDevice := mkIsolatedDevice None None None.

Definition iso_eqb (x y : IsolatedDevice) : bool :=
  opt_eqb (iso_name x) (iso_name y)
  && opt_eqb (iso_type x) (iso_type y)
  && opt_eqb (iso_status x) (iso_status y).

Record NetworkFailure : Type := mkNetworkFailure {
  failedNetworkDevice : string;
  deviceType : string;
  nf_ipAddress : option string;
  isolatedCount : nat;
  isolatedDevices : list IsolatedDevice;
  nf_severity : string;
  nf_recommendation : string
}.

Definition network_failed (a : Asset) : bool :=
  str_in (type a) ["NetworkSwitch"; "Router"; "Firewall"; "Gateway"]
  && opt_in (status a) ["offline"; "error"].

(** The paths of the optional match out of [c] that pass its [WHERE]. *)
Definition isolated_matches (P : Planner) (g : Graph) (c : nat)
  : list IsolatedDevice :=
  flat_map
    (fun p =>
       match end_asset g p with
       | Some ja =>
           if opt_in (status (snd ja)) ["offline"; "unreachable"; "error"]
           then [mkIsolatedDevice (Some (name (snd ja)))
                   (Some (type (snd ja))) (status (snd ja))]
           else []
       | None => []
       end)
    (expand P c (paths_out_of g ["CONNECTS_TO"] 3 c)).

Definition isolation_severity (n : nat) : string :=
  if 10 <? n then "critical"
  else if 5 <? n then "high"
  else "medium".

Definition network_failure_row (P : Planner) (g : Graph) (c : nat * Asset)
  : NetworkFailure :=
  let a := snd c in
  let devices :=
    distinct iso_eqb
      (optional_rows null_device (isolated_matches P g (fst c))) in
  let n := length devices in
  mkNetworkFailure (name a) (type a) (ipAddress a) n devices
    (isolation_severity n)
    (if String.eqb (type a) "Router"
     then "Critical: Router failure causing network segmentation"
     else if String.eqb (type a) "NetworkSwitch"
     then ("High: Switch failure isolating " ++ str_of_nat n
           ++ " devices")%string
     else "Check network connectivity").

(** [ORDER BY size(isolatedDevices) DESC]. *)
Definition isolated_desc (r1 r2 : NetworkFailure) : bool :=
  isolatedCount r2 <=? isolatedCount r1.

Definition failed_network_devices (P : Planner) (g : Graph)
  : list (nat * Asset) :=
  scan P (filter (fun ia => network_failed (snd ia)) (indexed (nodes g))).

Definition analyze_network_path_failures (P : Planner) (g : Graph)
  : list NetworkFailure :=
  limit 10
    (order_by isolated_desc
       (map (network_failure_row P g) (failed_network_devices P g))).

(** ** Blast radius: [get_blast_radius_all] *)


















(** ** Dependencies: [get_all_dependencies] *)

Definition dependency_kinds : list string :=
  ["POWERS"; "CONNECTS_TO"; "FEEDS_DATA"; "CONTROLS"].

Record Dependency : Type := mkDependency {
  dep_source : string;
  dep_sourceType : string;
  dep_relationship : string;
  dep_target : string;
  dep_targetType : string;
  dep_sourceStatus : option string;
  dep_targetStatus : option string
}.

(** The rows of the match: one for each relationship of an allowed kind
    between two assets. *)
Definition dependency_of (g : Graph) (e : Edge) : list Dependency :=
  match get_node g (src e), get_node g (dst e) with
  | Some s, Some t =>
      if str_in (kind e) dependency_kinds
      then [mkDependency (name s) (type s) (kind e) (name t) (type t)
              (status s) (status t)]
      else []
  | _, _ => []
  end.

Definition dependency_rows (g : Graph) : list Dependency :=
  flat_map (dependency_of g) (edges g).

Record Dependencies : Type := mkDependencies {
  totalDependencies : nat;
  dependency_list : list Dependency;
  cypher : string
}.

Definition get_all_dependencies (P : Planner) (g : Graph) : Dependencies :=
  let dependencies := limit 100 (scan P (dependency_rows g)) in
  mkDependencies (length dependencies) dependencies
    "MATCH (source:Asset)-[r:POWERS|CONNECTS_TO|FEEDS_DATA|CONTROLS]->(target:Asset) RETURN source, r, target".

(** ** Downstream impact: [get_critical_paths] *)

Definition downstream (P : Planner) (g : Graph) (c : nat) : list nat :=
  flat_map
    (fun p =>
       match end_asset g p with
       | Some ja => [fst ja]
       | None => []
       end)
    (expand P c (paths_out_of g dependency_kinds 3 c)).

(** [count(DISTINCT downstream)]. *)
Definition downstream_count (P : Planner) (g : Graph) (c : nat) : nat :=
  length (distinct Nat.eqb (downstream P g c)).

Record CriticalAsset : Type := mkCriticalAsset {
  ca_asset : string;
  ca_type : string;
  ca_status : option string;
  downstreamCount : nat;
  criticality : string
}.

Definition criticality_of (n : nat) : string :=
  if 10 <? n then "CRITICAL"
  else if 5 <? n then "HIGH"
  else if 2 <? n then "MEDIUM"
  else "LOW".

Definition critical_asset_row (P : Planner) (g : Graph) (c : nat * Asset)
  : CriticalAsset :=
  let n := downstream_count P g (fst c) in
  mkCriticalAsset (name (snd c)) (type (snd c)) (status (snd c)) n
    (criticality_of n).

(** The rows that pass [WHERE downstreamCount > 0], one per asset. *)
Definition critical_asset_rows (P : Planner) (g : Graph) : list CriticalAsset :=
  filter (fun r => 0 <? downstreamCount r)
         (map (critical_asset_row P g) (scan P (indexed (nodes g)))).

Definition downstream_desc (r1 r2 : CriticalAsset) : bool :=
  downstreamCount r2 <=? downstreamCount r1.

Record CriticalAssetReport : Type := mkCriticalAssetReport {
  totalCriticalAssets : nat;
  criticalAssets : list CriticalAsset;
  ca_insight : string
}.

Definition get_critical_paths (P : Planner) (g : Graph) : CriticalAssetReport :=
  let paths := limit 20 (order_by downstream_desc (critical_asset_rows P g)) in
  mkCriticalAssetReport (length paths) paths
    ("Found " ++ str_of_nat (length paths)
     ++ " assets with downstream dependencies")%string.

(** ** All intended configurations: [get_all_gitops_configs] *)

(** [RETURN asset.name as name, asset.type as type ORDER BY asset.name
    LIMIT 50]. *)
Definition config_query (P : Planner) (g : Graph) : list (string * string) :=
  map (fun ia => (name (snd ia), type (snd ia)))
      (limit 50 (order_by name_asc (scan P (indexed (nodes g))))).

Fixpoint configs_loop (configs : list GitopsConfig)
    (rows : list (string * string)) : M (list GitopsConfig) :=
  match rows with
  | [] => ret configs
  | r :: rest =>
      config <- get_gitops_config_for_asset (fst r) (snd r) ;;
      configs_loop (configs ++ [config]) rest
  end.

Record GitopsConfigs : Type := mkGitopsConfigs {
  cfgs_totalAssets : nat;
  repository : string;
  branch : string;
  lastSync : Timestamp;
  configs : list GitopsConfig
}.

Definition get_all_gitops_configs (P : Planner) (g : Graph) : M GitopsConfigs :=
  configs <- configs_loop [] (config_query P g) ;;
  t <- now ;;
  ret (mkGitopsConfigs (length configs)
         "github.com/factory-org/factory-digital-twin-gitops" "main"
         (Instant t) configs).

(** The rows for which a configuration is generated. *)
Definition generated_rows (rows : list (string * string)) : nat :=
  length (filter (fun r => match dict_get gitops_configs (fst r) with
                           | Some _ => false
                           | None => true
                           end) rows).

(** ** Drift history: [get_drift_history] *)

(** One entry of the history.  [date], the day of [timestamp] as text,
    and [driftPercentage], a floating-point rendering of [driftedAssets],
    are left out. *)
Record HistoryEntry : Type := mkHistoryEntry {
  h_timestamp : Timestamp;
  h_totalAssets : nat;
  h_driftedAssets : N;
  h_criticalDrifts : N
}.

(** [datetime.min], in the seconds of the clock. *)
Definition datetime_min : Z := (-62135596800)%Z.

(** [t - timedelta(days=day)]: a [timedelta] holds at most 999999999
    days, and a date before [datetime.min] cannot be represented. *)
Definition days_before (t : Z) (day : nat) : Response Z :=
  if (999999999 <? Z.of_nat day)%Z then Raised "OverflowError"
  else if (t - 86400 * Z.of_nat day <? datetime_min)%Z
  then Raised "OverflowError"
  else Ok (t - 86400 * Z.of_nat day)%Z.

Definition history_step (history : list HistoryEntry) (day : nat)
  : M (list HistoryEntry) :=
  t <- now ;;
  date <- lift (days_before t day) ;;
  drifted <- (if 0 <? day then randint 5 15 else ret 12%N) ;;
  critical <- (if 0 <? day then randint 1 5 else ret 3%N) ;;
  ret (history ++ [mkHistoryEntry (Instant date) 50 drifted critical]).

Fixpoint history_loop (history : list HistoryEntry) (days : list nat)
  : M (list HistoryEntry) :=
  match days with
  | [] => ret history
  | day :: rest =>
      history' <- history_step history day ;; history_loop history' rest
  end.

(** [range(days, -1, -1)]. *)
Definition day_range (days : Z) : list nat :=
  if (days <? 0)%Z then [] else rev (seq 0 (S (Z.to_nat days))).

Definition str_of_Z (z : Z) : string :=
  match z with
  | Z0 => "0"
  | Zpos p => str_of_N (Npos p)
  | Zneg p => ("-" ++ str_of_N (Npos p))%string
  end.

Record DriftHistory : Type := mkDriftHistory {
  timeRange : string;
  history : list HistoryEntry
}.

Definition get_drift_history (days : Z) : M DriftHistory :=
  history <- history_loop [] (day_range days) ;;
  ret (mkDriftHistory ("Last " ++ str_of_Z days ++ " days")%string history).

(** What holds of every entry of the history. *)
Definition entry_in_range (e : HistoryEntry) : Prop :=
  h_totalAssets e = 50 /\
  (5 <= h_driftedAssets e <= 15)%N /\
  (1 <= h_criticalDrifts e <= 5)%N.

(** ** The whole answer of [find_root_cause] *)

(** ["\n"], and the arrow that joins the failure chain (U+2192, as UTF-8). *)
Definition nl : string := String (ascii_of_nat 10) "".

Definition arrow : string :=
  String (ascii_of_nat 226) (String (ascii_of_nat 134)
    (String (ascii_of_nat 146) "")).

(** [sep.join(l)]. *)
Fixpoint join (sep : string) (l : list string) : string :=
  match l with
  | [] => ""
  | x :: r =>
      match r with
      | [] => x
      | _ :: _ => (x ++ sep ++ join sep r)%string
      end
  end.

(** The order in which the running interpreter iterates [set(l)]: the
    distinct strings of [l], arranged by their hashes, which are seeded
    anew for each process. *)
Record Hashing : Type := mkHashing {
  set_order : list string -> list string;
  set_order_perm :
    forall l : list string, Permutation (set_order l) (distinct String.eqb l)
}.

Definition first_seen_hashing : Hashing :=
  mkHashing (fun l => distinct String.eqb l) (fun l => Permutation_refl _).

Definition last_seen_hashing : Hashing :=
  mkHashing (fun l => rev (distinct String.eqb l))
            (fun l => Permutation_sym (Permutation_rev _)).

(** [', '.join(set(rel_types)) if rel_types else otherwise]. *)
Definition relationship_text (H : Hashing) (rel_types : list string)
    (otherwise : string) : string :=
  match rel_types with
  | [] => otherwise
  | _ :: _ => join ", " (set_order H rel_types)
  end.

(** One entry of [evidenceExamined]. *)
Record Evidence : Type := mkEvidence {
  ev_category : string;
  ev_finding : string;
  ev_details : string
}.

(** The [detailedAnalysis] dictionary. *)
Record DetailedAnalysis : Type := mkDetailedAnalysis {
  da_thoughtProcess : list string;
  da_evidenceExamined : list Evidence;
  da_reasoning : list string;
  da_conclusion : string;
  da_recommendation : string
}.

(** [f"{asset.get('name', 'Unknown')} ({asset.get('status', 'unknown')})"]. *)
Definition chain_text (asset : ChainEntry) : string :=
  (node_name asset ++ " (" ++ py_str (node_status asset) ++ ")")%string.

(** [generate_detailed_rca_analysis(rca_data)], whole.  [len] of a null
    chain or of null relationship types, and the comparison of a null depth
    with 1, raise [TypeError]. *)
Definition detailed_rca_analysis (H : Hashing) (rca : RcaData)
  : Response DetailedAnalysis :=
  match failureDepth rca, failureChain rca, relationshipTypes rca with
  | Some depth, Some chain, Some rel_types =>
      Ok (mkDetailedAnalysis
            [("1. INITIAL OBSERVATION: Asset '" ++ targetAsset rca
             ++ "' is experiencing issues and requires root cause investigation.")%string;
             ("2. DEPENDENCY ANALYSIS: Examining upstream dependencies through "
             ++ str_of_nat (length chain)
             ++ " assets in the failure chain.")%string;
             ("3. RELATIONSHIP MAPPING: Identified "
             ++ str_of_nat (length rel_types) ++ " dependency relationships: "
             ++ relationship_text H rel_types "none" ++ ".")%string;
             ("4. FAILURE PROPAGATION: Traced " ++ str_of_nat depth
             ++ " levels deep through the dependency graph.")%string;
             ("5. ROOT IDENTIFICATION: Found '" ++ py_str (rootCause rca)
             ++ "' (" ++ py_str (rootCauseType rca)
             ++ ") as the originating failure point.")%string]
            [mkEvidence
               "Asset Status"
               (py_str (rootCause rca)
               ++ " has status indicating failure")%string
               ("Failure reason: " ++ py_str (rootCauseReason rca))%string;
             mkEvidence
               "Dependency Chain"
               ("Identified " ++ str_of_nat (length chain)
               ++ " assets in failure propagation path")%string
               (join (" " ++ arrow ++ " ") (map chain_text chain));
             mkEvidence
               "Relationship Types"
               ("Dependencies connected through: "
               ++ relationship_text H rel_types "direct connections")%string
               ("These relationships indicate that " ++ py_str (rootCause rca)
               ++ " provides critical services to downstream assets")%string;
             mkEvidence
               "Failure Depth"
               ("Failure propagated " ++ str_of_nat depth
               ++ " levels downstream")%string
               ("This indicates a cascading failure pattern where "
               ++ py_str (rootCause rca)
               ++ "'s failure has ripple effects")%string]
            [("**Step 1: Hypothesis Formation** - Based on the failure of '"
             ++ targetAsset rca
             ++ "', we hypothesize that an upstream dependency failure is the root cause.")%string;
             ("**Step 2: Graph Traversal** - Traversed the knowledge graph using LangGraph, examining "
             ++ str_of_nat depth
             ++ " levels of incoming dependencies (POWERS, CONNECTS_TO, FEEDS_DATA, DEPENDS_ON relationships).")%string;
             ("**Step 3: Failure Pattern Analysis** - Identified that '"
             ++ py_str (rootCause rca)
             ++ "' failed first, with timestamp predating downstream failures.")%string;
             ("**Step 4: Causal Link Verification** - Verified causal links through "
             ++ str_of_nat (length rel_types)
             ++ " relationship types showing how " ++ py_str (rootCause rca)
             ++ " supports " ++ targetAsset rca ++ ".")%string;
             ("**Step 5: Alternative Hypothesis Elimination** - No other upstream failures detected at greater depth, confirming "
             ++ py_str (rootCause rca) ++ " as the root cause.")%string;
             ("**Step 6: Impact Assessment** - " ++ py_str (rootCause rca)
             ++ "'s failure directly caused or contributed to "
             ++ str_of_Z (Z.of_nat (length chain) - 1)%Z
             ++ " downstream asset failures.")%string]
            ("ROOT CAUSE IDENTIFIED: " ++ py_str (rootCause rca) ++ " ("
            ++ py_str (rootCauseType rca) ++ ") experienced "
            ++ py_str (rootCauseReason rca) ++ ", which propagated through "
            ++ str_of_nat depth ++ " dependency levels affecting "
            ++ str_of_nat (length chain) ++ " assets including "
            ++ targetAsset rca ++ ". This is a "
            ++ (if (1 <? depth)%nat then "cascading" else "direct")
            ++ " failure pattern requiring immediate attention to "
            ++ py_str (rootCause rca) ++ ".")%string
            ("RECOMMENDED ACTIONS:" ++ nl
            ++ "1. Investigate and resolve the issue with "
            ++ py_str (rootCause rca) ++ " (" ++ py_str (rootCauseReason rca)
            ++ ")" ++ nl ++ "2. Monitor the " ++ str_of_nat (length chain)
            ++ " affected assets in the dependency chain" ++ nl
            ++ "3. Consider implementing redundancy for critical asset "
            ++ py_str (rootCause rca) ++ nl
            ++ "4. Review alerting thresholds for "
            ++ relationship_text H rel_types "dependency"
            ++ " relationships")%string)
  | _, _, _ => Raised "TypeError"
  end.

(** The [actions] of [status_analysis.get(status, {...})]. *)
Definition status_actions (st asset_name : string) : list string :=
  if String.eqb st "unreachable"
  then [("1. Verify network connectivity to " ++ asset_name)%string;
        ("2. Check if " ++ asset_name
        ++ " is powered on and responding to ping")%string;
        "3. Inspect firewall rules and network ACLs blocking access";
        "4. Review switch/router logs for network path issues";
        "5. Check physical cabling and network port status"]
  else if String.eqb st "degraded"
  then [("1. Monitor performance metrics and resource utilization on "
        ++ asset_name)%string;
        "2. Check for high CPU, memory, or disk usage";
        "3. Review recent workload changes or traffic spikes";
        "4. Inspect application logs for errors or warnings";
        "5. Consider scaling resources or optimizing configuration"]
  else if String.eqb st "warning"
  then [("1. Review warning messages and alerts from " ++ asset_name)%string;
        "2. Check system health metrics (temperature, disk space, memory)";
        "3. Investigate threshold violations or approaching limits";
        "4. Review predictive maintenance indicators";
        "5. Schedule preventive maintenance before escalation to failure"]
  else if String.eqb st "offline"
  then [("1. Attempt to restart " ++ asset_name ++ " services")%string;
        "2. Check system logs for crash reports or errors";
        "3. Verify hardware status (power supply, disk, memory)";
        "4. Review recent changes or deployments";
        "5. Initiate failover to backup systems if available"]
  else if String.eqb st "error"
  then [("1. Examine error logs and stack traces from " ++ asset_name)%string;
        "2. Identify the specific error code or message";
        "3. Check for known issues or bugs in current version";
        "4. Review recent configuration or code changes";
        "5. Apply patches or rollback to last known good state"]
  else if String.eqb st "failed"
  then [("1. Investigate critical failure logs on " ++ asset_name)%string;
        "2. Check hardware diagnostics for component failures";
        "3. Verify data integrity and backup status";
        "4. Engage vendor support if hardware/software failure";
        "5. Execute disaster recovery procedures if necessary"]
  else [("1. Examine " ++ asset_name ++ "'s current status and logs")%string;
        "2. Check for configuration issues or misconfigurations";
        "3. Review system health and diagnostics";
        "4. Investigate environmental factors";
        "5. Contact asset owner or vendor for support"].

(** [generate_isolated_failure_analysis(asset_name, asset_details)],
    whole. *)
Definition isolated_failure_analysis (asset_name : string) (d_type : string)
    (d_status : option string) (d_failureReason : string)
  : Response DetailedAnalysis :=
  match d_status with
  | None => Raised "AttributeError"
  | Some s =>
      let st := lower s in
      Ok (mkDetailedAnalysis
            [("1. INITIAL OBSERVATION: Asset '" ++ asset_name ++ "' ("
             ++ d_type ++ ") is in '" ++ upper st ++ "' state.")%string;
             "2. UPSTREAM ANALYSIS: Examined all incoming dependency relationships up to 5 levels deep.";
             "3. NO UPSTREAM FAILURES: No problematic assets found in the dependency chain - all upstream dependencies are healthy.";
             "4. ISOLATED ISSUE: This appears to be an isolated issue, not caused by upstream dependencies.";
             ("5. CONCLUSION: '" ++ asset_name
             ++ "' itself is the source of the issue - investigating: "
             ++ status_description st ++ ".")%string]
            [mkEvidence
               "Asset Status"
               (asset_name ++ " is in '" ++ st ++ "' state")%string
               ("Failure/issue reason: " ++ d_failureReason)%string;
             mkEvidence
               "Dependency Analysis"
               "No upstream failures detected"
               ("All upstream dependencies of " ++ asset_name
               ++ " are operational (not in failed/warning/degraded states)")%string;
             mkEvidence
               "Failure Pattern"
               "Isolated issue pattern detected"
               (asset_name
               ++ " has issues independently without cascading from another asset")%string;
             mkEvidence
               "Asset Type Analysis"
               ("Asset is a " ++ d_type)%string
               (d_type
               ++ " assets typically fail due to hardware issues, configuration errors, or external factors specific to this device")%string]
            [("**Step 1: Hypothesis Formation** - Investigated if "
             ++ asset_name ++ "'s " ++ st
             ++ " state was caused by an upstream dependency failure.")%string;
             "**Step 2: Graph Traversal** - Traversed all incoming relationships (POWERS, CONNECTS_TO, FEEDS_DATA, DEPENDS_ON) up to 5 levels deep.";
             "**Step 3: Status Verification** - Verified that all upstream assets are in healthy operational states.";
             ("**Step 4: Root Cause Determination** - Since no upstream failures exist, "
             ++ asset_name ++ " is experiencing an internal issue.")%string;
             ("**Step 5: Issue Classification** - Status '" ++ st
             ++ "' indicates: " ++ status_description st ++ ".")%string;
             ("**Step 6: Action Planning** - Specific troubleshooting steps identified based on "
             ++ st ++ " state and " ++ d_type ++ " asset type.")%string]
            ("ROOT CAUSE IDENTIFIED: " ++ asset_name ++ " (" ++ d_type
            ++ ") is experiencing an isolated " ++ upper st
            ++ " condition with no upstream dependencies as the cause. The issue is: "
            ++ d_failureReason ++ ". This indicates " ++ status_description st
            ++ ".")%string
            ("RECOMMENDED ACTIONS:" ++ nl
            ++ join nl (status_actions st asset_name))%string)
  end.

(** The dictionary [find_root_cause] returns: the fields of [RcaData],
    [detailedAnalysis] and [teamOwnership]. *)
Record RootCauseResponse : Type := mkRootCauseResponse {
  rc_data : RcaData;
  rc_detailedAnalysis : DetailedAnalysis;
  rc_teamOwnership : TeamOwnership
}.

(** [get_team_ownership(root_cause_type, root_cause_zone)] for a type
    that may be null: null is in none of the lists.  The zone is not read
    by the function; a null zone is passed as the empty string. *)
Definition team_for (asset_type zone : option string) : TeamOwnership :=
  match asset_type with
  | Some t => get_team_ownership t (match zone with Some z => z | None => "" end)
  | None =>
      mkTeamOwnership "General Maintenance & Operations" "Operations Manager"
        "ops-manager@factory.com" "#general-ops" "+1-555-0100"
  end.

Definition isolated_response (asset_name : string) (a : Asset)
  : Response RootCauseResponse :=
  let reason := or_default (failureReason a) "No specific reason provided" in
  let zone := or_default (securityZone a) "Unassigned" in
  match isolated_failure_analysis asset_name (type a) (status a) reason with
  | Ok d =>
      Ok (mkRootCauseResponse
            (mkRcaData asset_name None (Some asset_name) (Some (type a))
                       (status a) (Some reason) (Some zone)
                       (Some 0) (Some []) None (Some (da_conclusion d)))
            d
            (get_team_ownership (type a) zone))
  | ErrorBody m => ErrorBody m
  | Raised e => Raised e
  end.

Definition find_root_cause_response (H : Hashing) (E : Engine) (g : Graph)
    (assetName : option string) : Response RootCauseResponse :=
  let upstream :=
    match single (root_cause_query E g assetName) with
    | Some rca => if truthy (rootCause rca) then Some rca else None
    | None => None
    end in
  match upstream with
  | Some rca =>
      match detailed_rca_analysis H rca with
      | Ok d =>
          Ok (mkRootCauseResponse
                (mkRcaData (targetAsset rca) (targetStatus rca) (rootCause rca)
                           (rootCauseType rca) (rootCauseStatus rca)
                           (rootCauseReason rca) (rootCauseZone rca)
                           (failureDepth rca) (failureChain rca)
                           (relationshipTypes rca) (Some (da_conclusion d)))
                d
                (team_for (rootCauseType rca) (rootCauseZone rca)))
      | ErrorBody m => ErrorBody m
      | Raised e => Raised e
      end
  | None =>
      match single (asset_query E g assetName), assetName with
      | Some a, Some asset_name => isolated_response asset_name a
      | _, _ => ErrorBody "Asset not found"
      end
  end.

(** ** The four analyzer operations *)

Inductive Operation : Type :=
| RootCause (assetName : option string)
| CascadeImpact (assetName : option string)
| CriticalPaths
| Drift.

Inductive Answer : Type :=
| RootCauseAnswer (r : RootCauseResponse)
| CascadeAnswer (r : CascadeData)
| CriticalPathsAnswer (l : list CriticalPath)
| DriftAnswer (r : DriftReport).

Definition answer {A : Type} (wrap : A -> Answer) (r : Response A)
  : Response Answer :=
  match r with
  | Ok a => Ok (wrap a)
  | ErrorBody m => ErrorBody m
  | Raised e => Raised e
  end.

(** One request to an analyzer, run by an interpreter with hashing [H]
    against engine [E] and snapshot [g]; the random draws and the clock are
    those of [M]. *)
Definition analyzer (H : Hashing) (E : Engine) (g : Graph) (op : Operation)
  : M Answer :=
  match op with
  | RootCause n => lift (answer RootCauseAnswer (find_root_cause_response H E g n))
  | CascadeImpact n => lift (answer CascadeAnswer (analyze_cascade_impact E g n))
  | CriticalPaths => ret (CriticalPathsAnswer (analyze_critical_paths E g))
  | Drift => r <- calculate_drift E g ;; ret (DriftAnswer r)
  end.

(** [A -(POWERS)-> B -(CONNECTS_TO)-> T], all offline. *)
Definition two_kinds_graph : Graph :=
  mkGraph
    [plain_asset "A" "UPS" (Some "offline");
     plain_asset "B" "NetworkSwitch" (Some "offline");
     plain_asset "T" "Robot" (Some "offline")]
    [mkEdge 0 "POWERS" 1; mkEdge 1 "CONNECTS_TO" 2].

(** * Facts about the query engine *)

Lemma skipn_incl {A : Type} (n : nat) (l : list A) (x : A) :
  In x (skipn n l) -> In x l.
Proof.
  revert l. induction n as [|n IH]; intros l; simpl; [auto|].
  destruct l as [|y l]; simpl; auto.
Qed.

Lemma firstn_incl {A : Type} (n : nat) (l : list A) (x : A) :
  In x (firstn n l) -> In x l.
Proof.
  revert l. induction n as [|n IH]; intros l; simpl; [contradiction|].
  destruct l as [|y l]; simpl; [contradiction|].
  intros [H|H]; auto.
Qed.

Section OrderBy.

Context {A : Type} (before : A -> A -> bool).

Lemma insert_by_perm (x : A) (l : list A) :
  Permutation (insert_by before x l) (x :: l).
Proof.
  induction l as [|y r IH]; simpl.
  - apply Permutation_refl.
  - destruct (before x y).
    + apply Permutation_refl.
    + rewrite IH. apply perm_swap.
Qed.

Lemma order_by_perm (l : list A) : Permutation (order_by before l) l.
Proof.
  induction l as [|x r IH]; simpl.
  - constructor.
  - rewrite insert_by_perm. now constructor.
Qed.

Lemma order_by_In (l : list A) (x : A) : In x (order_by before l) <-> In x l.
Proof.
  split; apply Permutation_in;
    [apply order_by_perm | apply Permutation_sym, order_by_perm].
Qed.

Lemma order_by_length (l : list A) : length (order_by before l) = length l.
Proof. apply Permutation_length, order_by_perm. Qed.

Hypothesis before_total : forall a b, before a b = false -> before b a = true.
Hypothesis before_trans :
  forall a b c, before a b = true -> before b c = true -> before a c = true.

Let precedes (a b : A) : Prop := before a b = true.

Lemma insert_by_sorted (x : A) (l : list A) :
  StronglySorted precedes l -> StronglySorted precedes (insert_by before x l).
Proof.
  induction 1 as [|y r Hr IH Hy]; simpl.
  - repeat constructor.
  - destruct (before x y) eqn:Hxy.
    + constructor.
      * now constructor.
      * constructor; [exact Hxy|].
        rewrite Forall_forall in *. intros z Hz.
        apply before_trans with y; [exact Hxy | now apply Hy].
    + constructor; [exact IH|].
      rewrite Forall_forall in *. intros z Hz.
      apply (Permutation_in _ (insert_by_perm x r)) in Hz.
      destruct Hz as [<-|Hz]; [now apply before_total | now apply Hy].
Qed.

Lemma order_by_sorted (l : list A) : StronglySorted precedes (order_by before l).
Proof.
  induction l as [|x r IH]; simpl.
  - constructor.
  - now apply insert_by_sorted.
Qed.

(** The first row after [ORDER BY] is in front of every row. *)
Lemma order_by_head (l : list A) (x : A) (r : list A) :
  order_by before l = x :: r ->
  In x l /\ forall y, In y l -> y = x \/ before x y = true.
Proof.
  intros Heq. split.
  - apply order_by_In. rewrite Heq. now left.
  - intros y Hy. apply order_by_In in Hy. rewrite Heq in Hy.
    destruct Hy as [->|Hy]; [now left|right].
    pose proof (order_by_sorted l) as Hs. rewrite Heq in Hs.
    inversion Hs as [|? ? _ Hall]; subst.
    rewrite Forall_forall in Hall. now apply Hall.
Qed.

(** [LIMIT] after [ORDER BY]: every row kept is in front of every row
    dropped. *)
Lemma limit_order_by_dropped (n : nat) (l : list A) (x y : A) :
  In x (limit n (order_by before l)) ->
  In y (skipn n (order_by before l)) ->
  before x y = true.
Proof.
  unfold limit. pose proof (order_by_sorted l) as Hs. revert Hs.
  generalize (order_by before l) as s. clear l. revert x y.
  induction n as [|n IH]; intros x y s Hs Hx Hy; simpl in *.
  - contradiction.
  - destruct s as [|z s]; simpl in *; [contradiction|].
    inversion Hs as [|? ? Hs' Hall]; subst.
    destruct Hx as [<-|Hx].
    + rewrite Forall_forall in Hall. apply Hall.
      now apply skipn_incl with n.
    + now apply (IH x y s).
Qed.

End OrderBy.

Lemma order_by_nil_inv {A : Type} (before : A -> A -> bool) (l : list A) :
  order_by before l = [] -> l = [].
Proof.
  intros H. apply Permutation_nil. rewrite <- H. apply order_by_perm.
Qed.

Lemma row_order_In (E : Engine) (q : Site) {A : Type} (l : list A) (x : A) :
  In x (row_order E q l) <-> In x l.
Proof.
  split; apply Permutation_in;
    [apply row_order_perm | apply Permutation_sym, row_order_perm].
Qed.

Lemma row_order_nil (E : Engine) (q : Site) {A : Type} :
  row_order E q (@nil A) = [].
Proof. apply Permutation_nil, Permutation_sym, row_order_perm. Qed.

Lemma row_order_singleton (E : Engine) (q : Site) {A : Type} (x : A) :
  row_order E q [x] = [x].
Proof. apply Permutation_length_1_inv, Permutation_sym, row_order_perm. Qed.

Lemma row_order_nil_inv (E : Engine) (q : Site) {A : Type} (l : list A) :
  row_order E q l = [] -> l = [].
Proof.
  intros H. apply Permutation_nil. rewrite <- H. apply row_order_perm.
Qed.

(** * Facts about variable-length patterns *)

Lemma existsb_eqb_In (x : nat) (l : list nat) :
  existsb (Nat.eqb x) l = true <-> In x l.
Proof.
  rewrite existsb_exists. split.
  - intros [y [Hy Heq]]. apply Nat.eqb_eq in Heq. now subst.
  - intros H. exists x. split; [exact H | apply Nat.eqb_refl].
Qed.

Lemma edge_ok_iff (kinds : list string) (used : list nat) (ie : nat * Edge) :
  edge_ok kinds used ie = true <->
  str_in (kind (snd ie)) kinds = true /\ ~ In (fst ie) used.
Proof.
  unfold edge_ok. rewrite andb_true_iff, negb_true_iff.
  rewrite <- existsb_eqb_In. split; intros [H1 H2]; split; auto.
  - now rewrite H2.
  - now apply not_true_is_false.
Qed.

Lemma path_end_snoc (q : Path) (ie : nat * Edge) :
  path_end (q ++ [ie]) = Some (dst (snd ie)).
Proof. unfold path_end. now rewrite rev_app_distr. Qed.

Lemma path_end_cons2 (je ke : nat * Edge) (q : Path) :
  path_end (je :: ke :: q) = path_end (ke :: q).
Proof.
  unfold path_end. simpl.
  destruct (rev q ++ [ke]) eqn:Hr; [|reflexivity].
  now destruct (rev q).
Qed.

Lemma chained_snoc (q : Path) (ie : nat * Edge) :
  chained (q ++ [ie]) <->
  chained q /\ (q = [] \/ path_end q = Some (src (snd ie))).
Proof.
  induction q as [|je q IH].
  - simpl. split; [intros _; split; auto | intros _; auto].
  - destruct q as [|ke q].
    + simpl. unfold path_end. simpl. split.
      * intros [H _]. split; [auto|]. right. now rewrite H.
      * intros [_ [H|H]]; [discriminate|]. inversion H. auto.
    + change (chained ((je :: ke :: q) ++ [ie]))
        with (dst (snd je) = src (snd ke) /\ chained ((ke :: q) ++ [ie])).
      change (chained (je :: ke :: q))
        with (dst (snd je) = src (snd ke) /\ chained (ke :: q)).
      rewrite path_end_cons2, IH. split.
      * intros [H1 [H2 [H3|H3]]]; [discriminate|].
        split; [split; assumption|]. now right.
      * intros [[H1 H2] [H3|H3]]; [discriminate|].
        split; [assumption|]. split; [assumption|]. now right.
Qed.

Lemma NoDup_map_snoc (q : Path) (ie : nat * Edge) :
  NoDup (map fst (q ++ [ie])) <->
  NoDup (map fst q) /\ ~ In (fst ie) (map fst q).
Proof.
  rewrite map_app. simpl. split.
  - intros H. apply (Permutation_NoDup (Permutation_app_comm _ _)) in H.
    simpl in H. inversion H; subst. auto.
  - intros [H1 H2].
    apply (Permutation_NoDup (Permutation_app_comm [fst ie] _)).
    simpl. now constructor.
Qed.

(** The paths [trails_from] lists are the paths of the pattern that
    leave [v]. *)
Lemma trails_from_iff (n : nat) (es : list (nat * Edge)) (kinds : list string) :
  forall (used : list nat) (v : nat) (p : Path),
    In p (trails_from n es kinds used v) <->
    is_trail n es kinds used p /\ path_start p = Some v.
Proof.
  induction n as [|n IH]; intros used v p; simpl.
  - split; [contradiction|]. intros [[[H1 H2] _] _]. lia.
  - rewrite in_flat_map. split.
    + intros [ie [Hie Hp]].
      destruct ((src (snd ie) =? v) && edge_ok kinds used ie) eqn:Hc;
        [|contradiction].
      apply andb_true_iff in Hc. destruct Hc as [Hsrc Hok].
      apply Nat.eqb_eq in Hsrc. apply edge_ok_iff in Hok.
      destruct Hok as [Hk Hu].
      destruct Hp as [<-|Hp].
      * split; [|now unfold path_start; simpl; rewrite Hsrc].
        unfold is_trail. simpl.
        split; [lia|]. split; [repeat constructor; auto|].
        split; [|auto]. constructor; [intros []|constructor].
      * apply in_map_iff in Hp. destruct Hp as [q [<- Hq]].
        apply IH in Hq. destruct Hq as [[Hlen [Hall [Hnd Hch]]] Hst].
        split; [|now unfold path_start; simpl; rewrite Hsrc].
        repeat split; simpl; try lia.
        -- constructor; [auto|].
           eapply Forall_impl; [|exact Hall]. simpl.
           intros a [Ha1 [Ha2 Ha3]]. repeat split; auto.
        -- constructor; [|exact Hnd].
           rewrite in_map_iff. intros [a [Ha1 Ha2]].
           rewrite Forall_forall in Hall.
           destruct (Hall a Ha2) as [_ [_ Hno]]. apply Hno. now left.
        -- destruct q as [|je q]; [exact I|].
           unfold path_start in Hst. simpl in Hst. now inversion Hst.
        -- exact Hch.
    + intros [[Hlen [Hall [Hnd Hch]]] Hst].
      destruct p as [|ie q]; [simpl in Hlen; lia|].
      unfold path_start in Hst. simpl in Hst. inversion Hst as [Hsrc].
      inversion Hall as [|? ? [Hin [Hk Hu]] Hall']; subst.
      exists ie. split; [exact Hin|].
      rewrite Nat.eqb_refl. simpl.
      assert (Hok : edge_ok kinds used ie = true) by now apply edge_ok_iff.
      rewrite Hok.
      destruct q as [|je q]; [now left|right].
      apply in_map. apply IH.
      change (NoDup (fst ie :: map fst (je :: q))) in Hnd.
      inversion Hnd as [|? ? Hni Hnd']; subst.
      change (dst (snd ie) = src (snd je) /\ chained (je :: q)) in Hch.
      destruct Hch as [Hd Hch].
      split; [|now unfold path_start; simpl; rewrite Hd].
      unfold is_trail. split; [simpl in *; lia|].
      split; [|split; [exact Hnd'|exact Hch]].
      rewrite Forall_forall in *. intros a Ha.
      destruct (Hall' a Ha) as [Ha1 [Ha2 Ha3]]. repeat split; auto.
      intros [Hb|Hb]; [|now apply Ha3].
      apply Hni. rewrite Hb.
      change (In (fst a) (map fst (je :: q))). now apply in_map.
Qed.

(** The paths [trails_to] lists are the paths of the pattern that end in
    [v]. *)
Lemma trails_to_iff (n : nat) (es : list (nat * Edge)) (kinds : list string) :
  forall (used : list nat) (v : nat) (p : Path),
    In p (trails_to n es kinds used v) <->
    is_trail n es kinds used p /\ path_end p = Some v.
Proof.
  induction n as [|n IH]; intros used v p; simpl.
  - split; [contradiction|]. intros [[[H1 H2] _] _]. lia.
  - rewrite in_flat_map. split.
    + intros [ie [Hie Hp]].
      destruct ((dst (snd ie) =? v) && edge_ok kinds used ie) eqn:Hc;
        [|contradiction].
      apply andb_true_iff in Hc. destruct Hc as [Hdst Hok].
      apply Nat.eqb_eq in Hdst. apply edge_ok_iff in Hok.
      destruct Hok as [Hk Hu].
      destruct Hp as [<-|Hp].
      * split; [|now unfold path_end; simpl; rewrite Hdst].
        unfold is_trail. simpl.
        split; [lia|]. split; [repeat constructor; auto|].
        split; [|auto]. constructor; [intros []|constructor].
      * apply in_map_iff in Hp. destruct Hp as [q [<- Hq]].
        apply IH in Hq. destruct Hq as [[Hlen [Hall [Hnd Hch]]] Hend].
        split; [|now rewrite path_end_snoc, Hdst].
        unfold is_trail. rewrite length_app. simpl.
        split; [lia|]. split; [|split].
        -- apply Forall_app. split.
           ++ eapply Forall_impl; [|exact Hall]. simpl.
              intros a [Ha1 [Ha2 Ha3]]. repeat split; auto.
           ++ repeat constructor; auto.
        -- apply NoDup_map_snoc. split; [exact Hnd|].
           rewrite in_map_iff. intros [a [Ha1 Ha2]].
           rewrite Forall_forall in Hall.
           destruct (Hall a Ha2) as [_ [_ Hno]]. apply Hno. now left.
        -- apply chained_snoc. split; [exact Hch|now right].
    + intros [[Hlen [Hall [Hnd Hch]]] Hend].
      destruct (exists_last (l:=p)) as [q [ie Hp]].
      { intros ->. simpl in Hlen. lia. }
      subst p. rewrite path_end_snoc in Hend. inversion Hend as [Hdst].
      apply Forall_app in Hall. destruct Hall as [Hall' Hie].
      inversion Hie as [|? ? [Hin [Hk Hu]] _]; subst.
      exists ie. split; [exact Hin|].
      rewrite Nat.eqb_refl. simpl.
      assert (Hok : edge_ok kinds used ie = true) by now apply edge_ok_iff.
      rewrite Hok.
      destruct q as [|je q]; [now left|right].
      apply in_map_iff. exists (je :: q). split; [reflexivity|].
      apply IH.
      apply NoDup_map_snoc in Hnd. destruct Hnd as [Hnd' Hni].
      apply chained_snoc in Hch. destruct Hch as [Hch' [Hq|Hq]]; [discriminate|].
      rewrite length_app in Hlen. simpl in Hlen.
      split; [|exact Hq].
      unfold is_trail. split; [simpl in *; lia|].
      split; [|split; [exact Hnd'|exact Hch']].
      rewrite Forall_forall in *. intros a Ha.
      destruct (Hall' a Ha) as [Ha1 [Ha2 Ha3]]. repeat split; auto.
      intros [Hb|Hb]; [|now apply Ha3].
      apply Hni. rewrite Hb.
      change (In (fst a) (map fst (je :: q))). now apply in_map.
Qed.

Lemma paths_into_length (g : Graph) (kinds : list string) (n v : nat) (p : Path) :
  In p (paths_into g kinds n v) -> 1 <= length p <= n.
Proof. intros H. apply trails_to_iff in H. apply H. Qed.

Lemma paths_out_of_length (g : Graph) (kinds : list string) (n v : nat) (p : Path) :
  In p (paths_out_of g kinds n v) -> 1 <= length p <= n.
Proof. intros H. apply trails_from_iff in H. apply H. Qed.

(** * Facts about the endpoints *)

Lemma filter_nil {A : Type} (f : A -> bool) (l : list A) :
  (forall x, In x l -> f x = false) -> filter f l = [].
Proof.
  induction l as [|x l IH]; simpl; intros H; [reflexivity|].
  rewrite (H x) by now left. apply IH. intros y Hy. apply H. now right.
Qed.

Lemma indexed_In {A : Type} (l : list A) (ia : nat * A) :
  In ia (indexed l) -> nth_error l (fst ia) = Some (snd ia).
Proof.
  unfold indexed.
  assert (H : forall m, In ia (combine (seq m (length l)) l) ->
                        nth_error l (fst ia - m) = Some (snd ia) /\ m <= fst ia).
  { induction l as [|x l IH]; simpl; intros m Hin; [contradiction|].
    destruct Hin as [<-|Hin]; simpl.
    - rewrite Nat.sub_diag. split; [reflexivity|lia].
    - destruct (IH (S m) Hin) as [H1 H2].
      replace (fst ia - m) with (S (fst ia - S m)) by lia.
      split; [exact H1|lia]. }
  intros Hin. destruct (H 0 Hin) as [H1 _].
  now rewrite Nat.sub_0_r in H1.
Qed.

Lemma indexed_In_snd {A : Type} (l : list A) (ia : nat * A) :
  In ia (indexed l) -> In (snd ia) l.
Proof. intros H. apply indexed_In in H. eapply nth_error_In, H. Qed.

Lemma In_indexed {A : Type} (l : list A) (x : A) :
  In x l -> exists i, In (i, x) (indexed l).
Proof.
  unfold indexed. generalize 0 as k.
  induction l as [|y l IH]; simpl; intros k Hin; [contradiction|].
  destruct Hin as [->|Hin].
  - exists k. now left.
  - destruct (IH (S k) Hin) as [i Hi]. exists i. now right.
Qed.

Lemma nodes_named_absent (g : Graph) (n : string) :
  ~ In n (map name (nodes g)) -> nodes_named g (Some n) = [].
Proof.
  intros H. simpl. apply filter_nil. intros ia Hia.
  apply String.eqb_neq. intros Heq. apply H. rewrite <- Heq.
  apply in_map. now apply indexed_In_snd.
Qed.

Lemma nodes_named_present (g : Graph) (n : string) :
  In n (map name (nodes g)) -> nodes_named g (Some n) <> [].
Proof.
  intros H. apply in_map_iff in H. destruct H as [a [Hn Ha]].
  destruct (In_indexed _ _ Ha) as [i Hi].
  assert (Hin : In (i, a) (nodes_named g (Some n))).
  { simpl. apply filter_In. split; [exact Hi|]. simpl. now apply String.eqb_eq. }
  intros Heq. now rewrite Heq in Hin.
Qed.

Lemma nodes_named_name (g : Graph) (n : string) (t : nat * Asset) :
  In t (nodes_named g (Some n)) ->
  name (snd t) = n /\ get_node g (fst t) = Some (snd t).
Proof.
  simpl. rewrite filter_In. intros [H1 H2]. split.
  - now apply String.eqb_eq.
  - now apply indexed_In.
Qed.

(** C7.  When no asset of the snapshot bears the requested name, both
    [find_root_cause] and [analyze_cascade_impact] answer with the error
    body "Asset not found", whatever the engine's row order: no other asset
    and no default result is substituted. *)
Theorem absent_asset_reported_not_found (E : Engine) (g : Graph) (n : string) :
  ~ In n (map name (nodes g)) ->
  find_root_cause E g (Some n) = ErrorBody "Asset not found" /\
  analyze_cascade_impact E g (Some n) = ErrorBody "Asset not found".
Proof.
  intros H. apply nodes_named_absent in H.
  unfold find_root_cause, root_cause_query, rca_rows, asset_query,
    analyze_cascade_impact, source_query.
  rewrite H. simpl. rewrite !row_order_nil. simpl. split; reflexivity.
Qed.

Lemma absent_asset_reported_not_found_witness :
  ~ In "Pump-9" (map name (nodes scenario_graph)) /\
  find_root_cause first_match_engine scenario_graph (Some "Pump-9")
  = ErrorBody "Asset not found" /\
  analyze_cascade_impact first_match_engine scenario_graph (Some "Pump-9")
  = ErrorBody "Asset not found".
Proof.
  assert (H : ~ In "Pump-9" (map name (nodes scenario_graph))).
  { simpl. intros [H|[H|[H|[]]]]; discriminate. }
  split; [exact H|].
  exact (absent_asset_reported_not_found first_match_engine scenario_graph
           "Pump-9" H).
Defined.

(** A request without [assetName] is answered the same way. *)
Lemma missing_name_reported_not_found (E : Engine) (g : Graph) :
  find_root_cause E g None = ErrorBody "Asset not found" /\
  analyze_cascade_impact E g None = ErrorBody "Asset not found".
Proof.
  unfold find_root_cause, root_cause_query, rca_rows, asset_query,
    analyze_cascade_impact, source_query.
  simpl. rewrite !row_order_nil. simpl. split; reflexivity.
Qed.

(** ** Cascade impact *)

(** Every value of [assets_map] was built from a record of the query or
    was there before. *)
Lemma assets_map_values (rows : list (Asset * nat)) :
  forall (m : list (string * AffectedAsset)) (x : AffectedAsset),
    In x (map snd (fold_left assets_map_step rows m)) ->
    In x (map snd m) \/
    exists r, In r rows /\ distance x = snd r /\ aff_name x = name (fst r)
              /\ aff_status x = status (fst r)
              /\ isAffected x
                 = opt_in (status (fst r))
                          ["offline"; "error"; "degraded"; "warning"].
Proof.
  induction rows as [|r rows IH]; intros m x Hx; simpl in Hx; [now left|].
  apply IH in Hx. destruct Hx as [Hx|[r' [Hr' Hd]]].
  - unfold assets_map_step in Hx.
    destruct (existsb _ m); [now left|].
    rewrite map_app in Hx. apply in_app_or in Hx.
    destruct Hx as [Hx|[<-|[]]]; [now left|right].
    exists r. simpl. repeat split; auto.
  - right. exists r'. split; [now right|exact Hd].
Qed.

Lemma fold_max_le (b : nat) (l : list nat) :
  (forall x, In x l -> x <= b) -> fold_right Nat.max 0 l <= b.
Proof.
  induction l as [|x l IH]; simpl; intros H; [lia|].
  apply Nat.max_lub; [apply H; now left | apply IH; intros y Hy; apply H; now right].
Qed.

Lemma cascade_rows_distance (g : Graph) (n : option string) (r : Asset * nat) :
  In r (cascade_rows g n) -> 1 <= snd r <= 5.
Proof.
  unfold cascade_rows. rewrite in_flat_map. intros [s [_ Hr]].
  apply in_flat_map in Hr. destruct Hr as [p [Hp Hr]].
  apply paths_out_of_length in Hp.
  destruct (path_end p) as [i|]; [|contradiction].
  destruct (get_node g i); [|contradiction].
  destruct Hr as [<-|[]]. exact Hp.
Qed.

Lemma flat_map_nil {A B : Type} (f : A -> list B) (l : list A) :
  (forall x, In x l -> f x = []) -> flat_map f l = [].
Proof.
  induction l as [|x l IH]; simpl; intros H; [reflexivity|].
  rewrite (H x) by now left. apply IH. intros y Hy. apply H. now right.
Qed.

(** Without an edge of the given kinds leaving a node, no path leaves
    it. *)
Lemma paths_out_of_no_edge (g : Graph) (kinds : list string) (n v : nat) :
  (forall e, In e (edges g) -> src e = v -> str_in (kind e) kinds = false) ->
  paths_out_of g kinds n v = [].
Proof.
  intros H. destruct (paths_out_of g kinds n v) as [|p l] eqn:Heq; [reflexivity|].
  assert (Hp : In p (paths_out_of g kinds n v)) by (rewrite Heq; now left).
  apply trails_from_iff in Hp. destruct Hp as [[Hlen [Hall _]] Hst].
  destruct p as [|ie q]; [simpl in Hlen; lia|].
  inversion Hall as [|? ? [Hin [Hk _]] _]; subst.
  unfold path_start in Hst. simpl in Hst. inversion Hst as [Hsrc].
  rewrite (H (snd ie)) in Hk; [discriminate| |exact Hsrc].
  now apply indexed_In_snd.
Qed.

Lemma cascade_rows_no_edge (g : Graph) (n : string) :
  (forall s e, In s (nodes_named g (Some n)) -> In e (edges g) ->
               src e = fst s -> str_in (kind e) cascade_kinds = false) ->
  cascade_rows g (Some n) = [].
Proof.
  intros H. unfold cascade_rows. apply flat_map_nil. intros s Hs.
  rewrite paths_out_of_no_edge; [reflexivity|].
  intros e He. now apply H.
Qed.

(** C10.  For a name borne by some asset of the snapshot,
    [analyze_cascade_impact] returns a result (not an error) in which
    [currentlyAffected <= totalDownstream] and [impactRadius <= 5]; both
    counts are natural numbers, hence non-negative.  When no POWERS,
    CONNECTS_TO, FEEDS_DATA, DEPENDS_ON or CONTROLS edge leaves the asset,
    the result has [totalDownstream = 0] and [impactRadius = 0]. *)
Theorem cascade_impact_bounds (E : Engine) (g : Graph) (n : string) :
  In n (map name (nodes g)) ->
  exists r,
    analyze_cascade_impact E g (Some n) = Ok r /\
    0 <= currentlyAffected r <= totalDownstream r /\
    0 <= impactRadius r <= 5 /\
    ((forall s e, In s (nodes_named g (Some n)) -> In e (edges g) ->
                  src e = fst s -> str_in (kind e) cascade_kinds = false) ->
     totalDownstream r = 0 /\ impactRadius r = 0).
Proof.
  intros Hn. apply nodes_named_present in Hn.
  unfold analyze_cascade_impact, source_query.
  destruct (row_order E SourceRow (nodes_named g (Some n))) as [|s rest] eqn:Hs.
  { apply row_order_nil_inv in Hs. contradiction. }
  simpl. eexists. split; [reflexivity|]. simpl.
  split; [split; [lia|apply filter_length_le]|].
  split.
  - split; [lia|]. apply fold_max_le. intros d Hd.
    apply in_map_iff in Hd. destruct Hd as [x [<- Hx]].
    apply assets_map_values in Hx. destruct Hx as [[]|[r [Hr [-> _]]]].
    unfold paths_query in Hr. apply order_by_In, row_order_In in Hr.
    now apply cascade_rows_distance in Hr.
  - intros Hno. unfold paths_query.
    rewrite (cascade_rows_no_edge g n Hno), row_order_nil. simpl. auto.
Qed.

Lemma cascade_impact_bounds_witness :
  In "Robot1" (map name (nodes scenario_graph)) /\
  exists r,
    analyze_cascade_impact first_match_engine scenario_graph (Some "Robot1")
    = Ok r /\
    0 <= currentlyAffected r <= totalDownstream r /\
    0 <= impactRadius r <= 5 /\
    ((forall s e, In s (nodes_named scenario_graph (Some "Robot1")) ->
                  In e (edges scenario_graph) ->
                  src e = fst s -> str_in (kind e) cascade_kinds = false) ->
     totalDownstream r = 0 /\ impactRadius r = 0).
Proof.
  assert (H : In "Robot1" (map name (nodes scenario_graph))) by (simpl; auto).
  split; [exact H|].
  exact (cascade_impact_bounds first_match_engine scenario_graph "Robot1" H).
Defined.

(** *** Each asset is kept at its shortest distance *)

Lemma string_compare_refl (s : string) : String.compare s s = Eq.
Proof.
  induction s as [|c s IH]; simpl; [reflexivity|].
  unfold Ascii.compare. now rewrite N.compare_refl.
Qed.

Lemma string_compare_lt_trans (a b c : string) :
  String.compare a b = Lt -> String.compare b c = Lt -> String.compare a c = Lt.
Proof.
  revert b c. induction a as [|x a IH]; intros [|y b] [|z c]; simpl;
    try discriminate; auto.
  intros H1 H2.
  destruct (Ascii.compare x y) eqn:Hxy; try discriminate;
    destruct (Ascii.compare y z) eqn:Hyz; try discriminate.
  - apply Ascii.compare_eq_iff in Hxy, Hyz. subst.
    unfold Ascii.compare. rewrite N.compare_refl. now apply IH with b.
  - apply Ascii.compare_eq_iff in Hxy. subst. now rewrite Hyz.
  - apply Ascii.compare_eq_iff in Hyz. subst. now rewrite Hxy.
  - unfold Ascii.compare in *. rewrite N.compare_lt_iff in *.
    assert (Hlt : (N_of_ascii x < N_of_ascii z)%N) by lia.
    apply N.compare_lt_iff in Hlt. now rewrite Hlt.
Qed.

Lemma string_compare_eq (a b : string) : String.compare a b = Eq <-> a = b.
Proof.
  split; [apply String.compare_eq_iff|intros ->; apply string_compare_refl].
Qed.

Lemma name_then_length_total (a b : Asset * nat) :
  name_then_length a b = false -> name_then_length b a = true.
Proof.
  unfold name_then_length. rewrite (String.compare_antisym (name (fst b))).
  destruct (String.compare (name (fst a)) (name (fst b))); simpl;
    try discriminate; auto.
  rewrite Nat.leb_gt, Nat.leb_le. lia.
Qed.

Lemma name_then_length_trans (a b c : Asset * nat) :
  name_then_length a b = true -> name_then_length b c = true ->
  name_then_length a c = true.
Proof.
  unfold name_then_length.
  destruct (String.compare (name (fst a)) (name (fst b))) eqn:Hab;
    try discriminate;
    destruct (String.compare (name (fst b)) (name (fst c))) eqn:Hbc;
    try discriminate; intros H1 H2.
  - apply string_compare_eq in Hab, Hbc. rewrite Hab, Hbc.
    rewrite string_compare_refl. rewrite Nat.leb_le in *. lia.
  - apply string_compare_eq in Hab. now rewrite Hab, Hbc.
  - apply string_compare_eq in Hbc. now rewrite <- Hbc, Hab.
  - now rewrite (string_compare_lt_trans _ _ _ Hab Hbc).
Qed.

Lemma assets_map_step_keys (m : list (string * AffectedAsset))
    (r : Asset * nat) (k : string) :
  In k (map fst (assets_map_step m r)) <->
  In k (map fst m) \/ k = name (fst r).
Proof.
  unfold assets_map_step.
  destruct (existsb _ m) eqn:He.
  - split; [now left|]. intros [H| ->]; [exact H|].
    apply existsb_exists in He. destruct He as [kv [Hkv Heq]].
    apply String.eqb_eq in Heq. rewrite <- Heq. now apply in_map.
  - rewrite map_app, in_app_iff. simpl. intuition.
Qed.

Lemma assets_map_keys (rows : list (Asset * nat)) :
  forall (m : list (string * AffectedAsset)) (k : string),
    In k (map fst (fold_left assets_map_step rows m)) <->
    In k (map fst m) \/ In k (map (fun r => name (fst r)) rows).
Proof.
  induction rows as [|r rows IH]; intros m k; simpl; [tauto|].
  rewrite IH, assets_map_step_keys. intuition.
Qed.

Lemma assets_map_step_wf (m : list (string * AffectedAsset)) (r : Asset * nat) :
  assets_map_wf m -> assets_map_wf (assets_map_step m r).
Proof.
  intros [Hnd Hk]. unfold assets_map_step.
  destruct (existsb _ m) eqn:He; [now split|].
  split.
  - rewrite map_app. simpl.
    apply (Permutation_NoDup (Permutation_app_comm [name (fst r)] _)).
    simpl. constructor; [|exact Hnd].
    intros Hin. apply in_map_iff in Hin. destruct Hin as [kv [Heq Hkv]].
    assert (Ht : existsb (fun kv0 => (fst kv0 =? name (fst r))%string) m = true).
    { apply existsb_exists. exists kv. split; [exact Hkv|].
      now apply String.eqb_eq. }
    rewrite He in Ht. discriminate.
  - intros kv Hkv. apply in_app_or in Hkv.
    destruct Hkv as [Hkv|[<-|[]]]; [now apply Hk|reflexivity].
Qed.

Lemma assets_map_fold_wf (rows : list (Asset * nat)) :
  forall m, assets_map_wf m -> assets_map_wf (fold_left assets_map_step rows m).
Proof.
  induction rows as [|r rows IH]; intros m Hm; simpl; [exact Hm|].
  apply IH. now apply assets_map_step_wf.
Qed.

(** A value of [assets_map] comes from the first record of its name. *)
Lemma assets_map_first (rows : list (Asset * nat)) :
  forall (m : list (string * AffectedAsset)) (x : AffectedAsset),
    In x (map snd (fold_left assets_map_step rows m)) ->
    In x (map snd m) \/
    exists pre r post,
      rows = pre ++ r :: post /\ x = affected_of r /\
      (forall r', In r' pre -> name (fst r') <> name (fst r)) /\
      ~ In (name (fst r)) (map fst m).
Proof.
  induction rows as [|r0 rows IH]; intros m x Hx; simpl in Hx; [now left|].
  apply IH in Hx. destruct Hx as [Hx|[pre [r [post [-> [-> [Hpre Hm]]]]]]].
  - unfold assets_map_step in Hx.
    destruct (existsb _ m) eqn:He; [now left|].
    rewrite map_app in Hx. apply in_app_or in Hx.
    destruct Hx as [Hx|[<-|[]]]; [now left|right].
    exists [], r0, rows.
    split; [reflexivity|]. split; [reflexivity|]. split; [intros r' []|].
    intros Hin. apply in_map_iff in Hin. destruct Hin as [kv [Heq Hkv]].
    assert (Ht : existsb (fun kv0 => (fst kv0 =? name (fst r0))%string) m
                 = true).
    { apply existsb_exists. exists kv. split; [exact Hkv|].
      now apply String.eqb_eq. }
    rewrite He in Ht. discriminate.
  - right. exists (r0 :: pre), r, post.
    split; [reflexivity|]. split; [reflexivity|]. split.
    + intros r' [<-|Hr']; [|now apply Hpre].
      intros Heq. apply Hm. apply assets_map_step_keys. now right.
    + intros Hin. apply Hm. apply assets_map_step_keys. now left.
Qed.

Lemma StronglySorted_app_inv {A : Type} (R : A -> A -> Prop)
    (pre post : list A) (x : A) :
  StronglySorted R (pre ++ x :: post) -> Forall (R x) post.
Proof.
  induction pre as [|y pre IH]; simpl; intros H;
    inversion H; subst; auto.
Qed.

(** The rows of the downstream query: an asset and the length of a path
    of 1 to 5 distinct relationships of the five kinds that leaves an asset
    of the requested name and ends in it. *)
Lemma cascade_rows_iff (g : Graph) (n : option string) (a : Asset) (d : nat) :
  In (a, d) (cascade_rows g n) <->
  exists s p j,
    In s (nodes_named g n) /\
    is_trail 5 (indexed (edges g)) cascade_kinds [] p /\
    path_start p = Some (fst s) /\ path_end p = Some j /\
    get_node g j = Some a /\ d = length p.
Proof.
  unfold cascade_rows. rewrite in_flat_map. split.
  - intros [s [Hs Hr]]. apply in_flat_map in Hr. destruct Hr as [p [Hp Hr]].
    apply trails_from_iff in Hp. destruct Hp as [Ht Hst].
    destruct (path_end p) as [j|] eqn:He; [|contradiction].
    destruct (get_node g j) as [b|] eqn:Hb; [|contradiction].
    destruct Hr as [Hr|[]]. inversion Hr; subst.
    exists s, p, j. repeat (split; [assumption|]). reflexivity.
  - intros [s [p [j [Hs [Ht [Hst [He [Hj ->]]]]]]]].
    exists s. split; [exact Hs|]. apply in_flat_map. exists p. split.
    + apply trails_from_iff. auto.
    + rewrite He, Hj. now left.
Qed.

(** The parts of the cascade result that rest on the traversal alone:
    [totalDownstream] counts the distinct names of the assets reached,
    every such name is listed once, each at the least length of a path
    that reaches an asset of that name, and [impactRadius] is the greatest
    of these distances. *)
Lemma cascade_shortest_distance (E : Engine) (g : Graph) (n : string)
    (r : CascadeData) :
  analyze_cascade_impact E g (Some n) = Ok r ->
  totalDownstream r = length (allAffectedAssets r) /\
  impactRadius r = fold_right Nat.max 0 (map distance (allAffectedAssets r)) /\
  NoDup (map aff_name (allAffectedAssets r)) /\
  (forall nm, In nm (map aff_name (allAffectedAssets r)) <->
              exists a d, In (a, d) (cascade_rows g (Some n)) /\ name a = nm) /\
  (forall x, In x (allAffectedAssets r) ->
     (exists a, In (a, distance x) (cascade_rows g (Some n)) /\
                name a = aff_name x /\ status a = aff_status x) /\
     (forall a d, In (a, d) (cascade_rows g (Some n)) ->
                  name a = aff_name x -> distance x <= d)).
Proof.
  unfold analyze_cascade_impact.
  destruct (single (source_query E g (Some n))) as [src_info|]; [|discriminate].
  intros H. inversion H; subst r; clear H. simpl.
  set (rows := paths_query E g (Some n)).
  assert (Hrows : forall x, In x rows <-> In x (cascade_rows g (Some n))).
  { intros x. unfold rows, paths_query.
    rewrite order_by_In. apply row_order_In. }
  assert (Hsorted : StronglySorted (fun a b => name_then_length a b = true) rows).
  { apply order_by_sorted.
    - exact name_then_length_total.
    - exact name_then_length_trans. }
  assert (Hwf : assets_map_wf (fold_left assets_map_step rows [])).
  { apply assets_map_fold_wf. split; [constructor|intros kv []]. }
  assert (Hnames : map aff_name (map snd (fold_left assets_map_step rows []))
                   = map fst (fold_left assets_map_step rows [])).
  { destruct Hwf as [_ Hk]. rewrite map_map. apply map_ext_in.
    intros kv Hkv. symmetry. now apply Hk. }
  split; [reflexivity|]. split; [reflexivity|]. split; [|split].
  - rewrite Hnames. apply Hwf.
  - intros nm. rewrite Hnames, assets_map_keys. simpl. split.
    + intros [[]|Hin]. apply in_map_iff in Hin.
      destruct Hin as [[a d] [<- Hin]]. exists a, d. split; [|reflexivity].
      now apply Hrows.
    + intros [a [d [Hin <-]]]. right.
      apply (in_map (fun r => name (fst r)) rows (a, d)). now apply Hrows.
  - intros x Hx. apply assets_map_first in Hx.
    destruct Hx as [[]|[pre [r [post [Heq [-> [Hpre _]]]]]]].
    assert (Hr : In r rows) by (rewrite Heq; apply in_elt).
    split.
    + exists (fst r). simpl. split; [|split; reflexivity].
      apply Hrows. now destruct r.
    + intros a d Hin Hname. simpl in *.
      apply Hrows in Hin. rewrite Heq in Hin. apply in_app_or in Hin.
      destruct Hin as [Hin|[Hhd|Hin]].
      * exfalso. now apply (Hpre _ Hin).
      * rewrite Hhd. simpl. lia.
      * rewrite Heq in Hsorted. apply StronglySorted_app_inv in Hsorted.
        rewrite Forall_forall in Hsorted. specialize (Hsorted _ Hin).
        unfold name_then_length in Hsorted. simpl in Hsorted.
        rewrite <- Hname, string_compare_refl in Hsorted.
        now apply Nat.leb_le.
Qed.

(** On [failed_downstream_graph] the one asset downstream of [UPS-Main]
    has status [failed], one of the unhealthy statuses of the root-cause
    query, yet [analyze_cascade_impact] reports [totalDownstream = 1] and
    [currentlyAffected = 0]: its own status list is [offline], [error],
    [degraded], [warning]. *)
Lemma cascade_failed_status_not_counted (E : Engine) :
  exists r,
    analyze_cascade_impact E failed_downstream_graph (Some "UPS-Main") = Ok r /\
    totalDownstream r = 1 /\
    impactRadius r = 1 /\
    map aff_status (allAffectedAssets r) = [Some "failed"] /\
    opt_in (Some "failed") rca_statuses = true /\
    currentlyAffected r = 0.
Proof.
  unfold analyze_cascade_impact, source_query, paths_query.
  set (ns := nodes_named _ _). cbv in ns. subst ns.
  set (cr := cascade_rows _ _). cbv in cr. subst cr.
  rewrite !row_order_singleton. simpl.
  eexists. split; [reflexivity|]. simpl. repeat split.
Qed.

(** C3, as stated, fails.  In [twin_names_graph] two distinct assets are
    reached at one hop (the specification's traversal lists both) and
    [totalDownstream] is 1, because they share a name.  In
    [failed_downstream_graph] the reached asset has status [failed] and
    [currentlyAffected] is 0. *)
Lemma cascade_counts_names_and_skips_failed :
  (spec_traverse twin_names_graph true cascade_kinds 5 0 = [(1, 1); (2, 1)] /\
   forall E, exists r,
     analyze_cascade_impact E twin_names_graph (Some "Gateway-01") = Ok r /\
     totalDownstream r = 1) /\
  (forall E, exists r,
     analyze_cascade_impact E failed_downstream_graph (Some "UPS-Main") = Ok r /\
     map aff_status (allAffectedAssets r) = [Some "failed"] /\
     currentlyAffected r = 0).
Proof.
  split; [split; [reflexivity|]|].
  - intros E. unfold analyze_cascade_impact, source_query, paths_query.
    set (ns := nodes_named _ _). cbv in ns. subst ns.
    set (cr := cascade_rows _ _). cbv in cr. subst cr.
    rewrite row_order_singleton.
    match goal with
    | |- context [@row_order E ?q ?A ?l] =>
        destruct (Permutation_length_2_inv
                    (Permutation_sym (row_order_perm E q A l))) as [Hp|Hp];
        rewrite Hp
    end;
      (eexists; split; [reflexivity|]; reflexivity).
  - intros E. destruct (cascade_failed_status_not_counted E)
      as [r [H1 [_ [_ [H2 [_ H3]]]]]].
    exists r. auto.
Qed.

Lemma cascade_impact_defined (E : Engine) (g : Graph) (n : string) :
  In n (map name (nodes g)) ->
  exists r, analyze_cascade_impact E g (Some n) = Ok r.
Proof.
  intros Hn. apply nodes_named_present in Hn.
  unfold analyze_cascade_impact, source_query.
  destruct (row_order E SourceRow (nodes_named g (Some n))) as [|s rest] eqn:Hs.
  { apply row_order_nil_inv in Hs. contradiction. }
  simpl. eexists. reflexivity.
Qed.

Lemma opt_in_problem_unhealthy (s : option string) :
  opt_in s ["offline"; "error"; "degraded"; "warning"] = true ->
  opt_in s rca_statuses = true.
Proof.
  destruct s as [s|]; simpl; [|discriminate].
  repeat match goal with
         | |- context [String.eqb s ?x] => destruct (String.eqb s x)
         end; simpl; auto.
Qed.

(** The cascade result in terms of the rows of the downstream query:
    every name of a row is listed once, at the least distance among its
    rows, and the counts follow the list. *)
Lemma cascade_counts_of_rows (E : Engine) (g : Graph) (n : string) :
  In n (map name (nodes g)) ->
  exists r,
    analyze_cascade_impact E g (Some n) = Ok r /\
    totalDownstream r = length (allAffectedAssets r) /\
    NoDup (map aff_name (allAffectedAssets r)) /\
    (forall nm, In nm (map aff_name (allAffectedAssets r)) <->
                exists a d, In (a, d) (cascade_rows g (Some n)) /\ name a = nm) /\
    (forall x, In x (allAffectedAssets r) ->
       (exists a, In (a, distance x) (cascade_rows g (Some n)) /\
                  name a = aff_name x /\ status a = aff_status x) /\
       (forall a d, In (a, d) (cascade_rows g (Some n)) ->
                    name a = aff_name x -> distance x <= d)) /\
    impactRadius r = fold_right Nat.max 0 (map distance (allAffectedAssets r)) /\
    currentlyAffected r = length (filter isAffected (allAffectedAssets r)) /\
    (forall x, In x (allAffectedAssets r) ->
       (opt_in (aff_status x) ["offline"; "error"; "degraded"; "warning"] = true ->
        isAffected x = true) /\
       (isAffected x = true -> opt_in (aff_status x) rca_statuses = true)).
Proof.
  intros Hn. destruct (cascade_impact_defined E g n Hn) as [r Hr].
  exists r. split; [exact Hr|].
  destruct (cascade_shortest_distance E g n r Hr)
    as [Htot [Hrad [Hnd [Hnames Hdist]]]].
  repeat (split; [assumption|]).
  unfold analyze_cascade_impact in Hr.
  destruct (single (source_query E g (Some n))); [|discriminate].
  inversion Hr; subst r; clear Hr. simpl. split; [reflexivity|].
  intros x Hx. apply assets_map_values in Hx.
  destruct Hx as [[]|[row [_ [_ [_ [Hst Hflag]]]]]].
  rewrite Hflag, Hst. split; [auto|apply opt_in_problem_unhealthy].
Qed.

(** ** Root cause *)

(** The rows of the root-cause query carry a path exactly when it is one
    of the matches of their target. *)
Lemma rca_rows_In (g : Graph) (n : option string)
    (r : (nat * Asset) * option Path) :
  In r (rca_rows g n) <->
  In (fst r) (nodes_named g n) /\
  match snd r with
  | Some p => In p (rca_matches g (fst (fst r)))
  | None => rca_matches g (fst (fst r)) = []
  end.
Proof.
  unfold rca_rows. rewrite in_flat_map. split.
  - intros [t [Ht Hr]].
    destruct (rca_matches g (fst t)) as [|p ps] eqn:Hm.
    + destruct Hr as [<-|[]]. simpl. auto.
    + apply in_map_iff in Hr. destruct Hr as [q [<- Hq]]. simpl.
      rewrite Hm. auto.
  - destruct r as [t [p|]]; simpl; intros [Ht Hp]; exists t; split; auto.
    + destruct (rca_matches g (fst t)) as [|q qs]; [contradiction|].
      change (In (t, Some p) (map (fun p0 => (t, Some p0)) (q :: qs))).
      now apply (in_map (fun p0 => (t, Some p0))).
    + rewrite Hp. now left.
Qed.

Lemma single_query_head (E : Engine) (g : Graph) (n : option string) :
  single (root_cause_query E g n)
  = option_map (rca_of_row g)
      (hd_error (order_by depth_desc (row_order E RootCauseRows (rca_rows g n)))).
Proof.
  unfold single, root_cause_query, limit.
  now destruct (order_by depth_desc (row_order E RootCauseRows (rca_rows g n))).
Qed.

(** The isolated branch: when no asset bearing the name has an unhealthy
    ancestor and the asset handed over by the second query has a status,
    the target itself is returned at depth 0. *)
Lemma isolated_root_cause (E : Engine) (g : Graph) (n : string) :
  In n (map name (nodes g)) ->
  (forall t, In t (nodes_named g (Some n)) -> rca_matches g (fst t) = []) ->
  (forall t, In t (nodes_named g (Some n)) -> status (snd t) <> None) ->
  exists r,
    find_root_cause E g (Some n) = Ok r /\
    targetAsset r = n /\
    rootCause r = Some n /\
    failureDepth r = Some 0 /\
    failureChain r = Some [].
Proof.
  intros Hn Hnone Hst. apply nodes_named_present in Hn.
  unfold find_root_cause. rewrite single_query_head.
  assert (Hup : match option_map (rca_of_row g)
                        (hd_error (order_by depth_desc
                                     (row_order E RootCauseRows (rca_rows g (Some n))))) with
                | Some rca => if truthy (rootCause rca) then Some rca else None
                | None => None
                end = None).
  { destruct (order_by depth_desc (row_order E RootCauseRows (rca_rows g (Some n))))
      as [|r rs] eqn:Ho; [reflexivity|].
    assert (Hr : In r (rca_rows g (Some n))).
    { apply (row_order_In E RootCauseRows), (order_by_In depth_desc). rewrite Ho. now left. }
    apply rca_rows_In in Hr. destruct Hr as [Ht Hp].
    destruct r as [t [p|]]; simpl in *.
    - rewrite (Hnone t Ht) in Hp. contradiction.
    - reflexivity. }
  rewrite Hup. unfold asset_query.
  destruct (row_order E AssetRow (nodes_named g (Some n))) as [|t rest] eqn:Hs.
  { apply row_order_nil_inv in Hs. contradiction. }
  assert (Ht : In t (nodes_named g (Some n))).
  { apply (row_order_In E AssetRow). rewrite Hs. now left. }
  simpl. unfold isolated_result, generate_isolated_failure_analysis.
  destruct (status (snd t)) as [st|] eqn:Hstat.
  - eexists. split; [reflexivity|]. simpl. auto.
  - exfalso. now apply (Hst t Ht).
Qed.

(** C2.  [Pump-7] is in [no_status_graph] and has no ancestor at all,
    but it has no [status] property; [find_root_cause] then raises
    [AttributeError] inside the isolated-failure analysis instead of
    returning the target at depth 0. *)
Theorem isolated_failure_without_status_raises (E : Engine) :
  In "Pump-7" (map name (nodes no_status_graph)) /\
  rca_matches no_status_graph 0 = [] /\
  find_root_cause E no_status_graph (Some "Pump-7") = Raised "AttributeError".
Proof.
  split; [simpl; auto|]. split; [reflexivity|].
  unfold find_root_cause, root_cause_query, asset_query.
  set (ns := nodes_named _ _). cbv in ns. subst ns.
  set (rs := rca_rows _ _). cbv in rs. subst rs.
  rewrite !row_order_singleton. reflexivity.
Qed.

(** C6, as stated, fails: on [scenario_graph] the edge into [Robot1] is
    a [CONTROLS] edge, which the root-cause query does not follow, so the
    answer is [Robot1] itself at depth 0 with an empty chain, not [UPS] at
    depth 2. *)
Lemma scenario_controls_edge_not_followed :
  (exists r,
     find_root_cause first_match_engine scenario_graph (Some "Robot1") = Ok r /\
     rootCause r = Some "Robot1" /\
     failureDepth r = Some 0 /\
     failureChain r = Some []) /\
  ~ (exists r,
       find_root_cause first_match_engine scenario_graph (Some "Robot1") = Ok r /\
       rootCause r = Some "UPS" /\
       failureDepth r = Some 2 /\
       option_map (map node_name) (failureChain r)
       = Some ["UPS"; "PLC1"; "Robot1"]).
Proof.
  split.
  - eexists. split; [reflexivity|]. simpl. auto.
  - intros [r [Hr [Hroot _]]]. vm_compute in Hr.
    inversion Hr; subst r. discriminate Hroot.
Qed.

(** C6, amended.  Whatever the engine's row order: on [scenario_graph]
    [find_root_cause] for [Robot1] returns [Robot1] itself, depth 0, empty
    chain; when the edge from [PLC1] to [Robot1] is a [POWERS] edge it
    returns [UPS], depth 2, chain [UPS], [PLC1], [Robot1]. *)
Theorem scenario_root_cause (E : Engine) :
  (exists r,
     find_root_cause E scenario_graph (Some "Robot1") = Ok r /\
     rootCause r = Some "Robot1" /\
     failureDepth r = Some 0 /\
     failureChain r = Some []) /\
  (exists r,
     find_root_cause E scenario_graph_powers (Some "Robot1") = Ok r /\
     rootCause r = Some "UPS" /\
     failureDepth r = Some 2 /\
     option_map (map node_name) (failureChain r)
     = Some ["UPS"; "PLC1"; "Robot1"] /\
     relationshipTypes r = Some ["POWERS"; "POWERS"]).
Proof.
  split.
  - unfold find_root_cause, root_cause_query, asset_query.
    set (ns := nodes_named _ _). cbv in ns. subst ns.
    set (rs := rca_rows _ _). cbv in rs. subst rs.
    rewrite !row_order_singleton.
    eexists. split; [reflexivity|]. simpl. auto.
  - unfold find_root_cause, root_cause_query.
    set (rs := rca_rows _ _). cbv in rs. subst rs.
    match goal with
    | |- context [@row_order E ?q ?A ?l] =>
        destruct (Permutation_length_2_inv
                    (Permutation_sym (row_order_perm E q A l))) as [Hp|Hp];
        rewrite Hp
    end;
      (eexists; split; [reflexivity|]; simpl; auto).
Qed.

Lemma depth_desc_total (a b : (nat * Asset) * option Path) :
  depth_desc a b = false -> depth_desc b a = true.
Proof.
  unfold depth_desc.
  destruct (row_depth a) as [x|], (row_depth b) as [y|]; try discriminate; auto.
  rewrite Nat.leb_gt, Nat.leb_le. lia.
Qed.

Lemma depth_desc_trans (a b c : (nat * Asset) * option Path) :
  depth_desc a b = true -> depth_desc b c = true -> depth_desc a c = true.
Proof.
  unfold depth_desc.
  destruct (row_depth a) as [x|], (row_depth b) as [y|], (row_depth c) as [z|];
    try discriminate; auto.
  rewrite !Nat.leb_le. lia.
Qed.

(** The matches of the root-cause query are the paths of 1 to 5 distinct
    relationships of the four kinds that end in the target and start at an
    unhealthy asset. *)
Lemma rca_matches_iff (g : Graph) (t : nat) (p : Path) :
  In p (rca_matches g t) <->
  is_trail 5 (indexed (edges g)) rca_kinds [] p /\
  path_end p = Some t /\
  exists i a, path_start p = Some i /\ get_node g i = Some a /\
              opt_in (status a) rca_statuses = true.
Proof.
  unfold rca_matches, paths_into. rewrite filter_In, trails_to_iff.
  unfold root_unhealthy. split.
  - intros [[H1 H2] H3]. split; [exact H1|]. split; [exact H2|].
    destruct (path_start p) as [i|]; [|discriminate].
    destruct (get_node g i) as [a|] eqn:Ha; [|discriminate].
    exists i, a. auto.
  - intros [H1 [H2 [i [a [Hi [Ha Hs]]]]]]. rewrite Hi, Ha. auto.
Qed.

(** C1, as stated, fails on two counts.  On [diamond_graph] the only
    unhealthy ancestor of [T] is [A], one hop away, yet the reported depth
    is 2, the length of the longest path from [A]; the specification's
    traversal reports [A] at depth 1.  On [two_parents_graph] two
    unhealthy ancestors are tied at depth 1 and two row orders of the
    engine return different ones. *)
Lemma root_cause_depth_and_ties_differ :
  (spec_findRootCause diamond_graph 2 = Some (0, 1) /\
   forall E, exists r,
     find_root_cause E diamond_graph (Some "T") = Ok r /\
     rootCause r = Some "A" /\ failureDepth r = Some 2) /\
  (exists r1 r2,
     find_root_cause first_match_engine two_parents_graph (Some "T") = Ok r1 /\
     find_root_cause last_match_engine two_parents_graph (Some "T") = Ok r2 /\
     failureDepth r1 = Some 1 /\ failureDepth r2 = Some 1 /\
     rootCause r1 = Some "A" /\ rootCause r2 = Some "B").
Proof.
  split; [split; [reflexivity|]|].
  - intros E. unfold find_root_cause, root_cause_query.
    set (rs := rca_rows _ _). cbv in rs. subst rs.
    match goal with
    | |- context [@row_order E ?q ?A ?l] =>
        destruct (Permutation_length_2_inv
                    (Permutation_sym (row_order_perm E q A l))) as [Hp|Hp];
        rewrite Hp
    end;
      (eexists; split; [reflexivity|]; simpl; auto).
  - eexists. eexists. split; [reflexivity|]. split; [reflexivity|].
    simpl. auto.
Qed.

(** For a name borne by some asset, such that every asset bearing it has
    a match and no asset name is empty, [find_root_cause] returns the row
    of a longest match, whatever the engine's row order. *)
Lemma root_cause_head_of_matches (E : Engine) (g : Graph) (n : string) :
  In n (map name (nodes g)) ->
  (forall t, In t (nodes_named g (Some n)) -> rca_matches g (fst t) <> []) ->
  (forall a, In a (nodes g) -> name a <> "") ->
  exists t p i root r,
    In t (nodes_named g (Some n)) /\
    In p (rca_matches g (fst t)) /\
    path_start p = Some i /\ get_node g i = Some root /\
    opt_in (status root) rca_statuses = true /\
    (forall t' q, In t' (nodes_named g (Some n)) ->
                  In q (rca_matches g (fst t')) -> length q <= length p) /\
    find_root_cause E g (Some n) = Ok r /\
    targetAsset r = n /\
    rootCause r = Some (name root) /\
    failureDepth r = Some (length p) /\
    failureChain r = Some (map chain_entry (assets_of g (path_nodes p))) /\
    relationshipTypes r = Some (path_kinds p).
Proof.
  intros Hn Hall Hnames. apply nodes_named_present in Hn.
  unfold find_root_cause. rewrite single_query_head.
  destruct (order_by depth_desc (row_order E RootCauseRows (rca_rows g (Some n))))
    as [|r rs] eqn:Ho.
  { apply order_by_nil_inv, row_order_nil_inv in Ho.
    destruct (nodes_named g (Some n)) as [|t ts] eqn:Hns; [contradiction|].
    assert (Ht : In t (t :: ts)) by now left.
    specialize (Hall t Ht).
    unfold rca_rows in Ho. rewrite Hns in Ho. simpl in Ho.
    destruct (rca_matches g (fst t)); [contradiction|discriminate]. }
  destruct (order_by_head depth_desc depth_desc_total depth_desc_trans _ _ _ Ho)
    as [Hr Hmax].
  apply row_order_In, rca_rows_In in Hr. destruct Hr as [Ht Hp].
  destruct r as [t [p|]]; simpl in Ht, Hp;
    [|exfalso; now apply (Hall t Ht)].
  pose proof Hp as Hp'. apply rca_matches_iff in Hp'.
  destruct Hp' as [_ [_ [i [root [Hi [Hroot Hst]]]]]].
  assert (Hname : name root <> "").
  { apply Hnames. eapply nth_error_In. exact Hroot. }
  exists t, p, i, root.
  simpl. unfold rca_of_row at 1. simpl. rewrite Hi, Hroot. simpl.
  apply String.eqb_neq in Hname. rewrite Hname. simpl.
  eexists. repeat (split; [first [eassumption | reflexivity | idtac]|]).
  - intros t' q Ht' Hq.
    assert (Hin : In ((t', Some q) : (nat * Asset) * option Path)
                     (row_order E RootCauseRows (rca_rows g (Some n)))).
    { apply row_order_In, rca_rows_In. simpl. auto. }
    destruct (Hmax _ Hin) as [Heq|Hle].
    + inversion Heq; subst. lia.
    + unfold depth_desc in Hle. simpl in Hle. now apply Nat.leb_le.
  - apply nodes_named_name in Ht. apply Ht.
  - reflexivity.
Qed.

(** ** Drift *)

Lemma opt_eqb_refl (x : option string) : opt_eqb x x = true.
Proof. destruct x; simpl; [apply String.eqb_refl|reflexivity]. Qed.

(** C9.  When the observed state equals the intended configuration on
    the five compared fields, the comparison finds no mismatch and leaves
    severity and counter untouched, and the loop body adds no record for
    the asset: the drift list, the drifted count and the critical count
    stay as they were. *)
Theorem drift_of_equal_config_is_empty (a : ActualState) (i : GitopsConfig)
    (critical : nat) :
  act_status a = Some (cfg_status i) ->
  act_ipAddress a = Some (cfg_ipAddress i) ->
  act_version a = Some (cfg_version i) ->
  act_configChecksum a = Some (cfg_configChecksum i) ->
  act_securityZone a = Some (cfg_securityZone i) ->
  detect_drifts a i critical = Ok (mkDriftVars [] "none" critical) /\
  forall (st : DriftLoop) (w : World) (c c' : Counters),
    critical_total st = critical ->
    get_gitops_config_for_asset (act_name a) (act_type a) w c = Ok (i, c') ->
    drift_step st a w c = Ok (st, c').
Proof.
  intros Hs Hip Hv Hc Hz.
  assert (Hd : detect_drifts a i critical = Ok (mkDriftVars [] "none" critical)).
  { unfold detect_drifts, status_drift.
    rewrite Hs, String.eqb_refl. cbn [negb].
    unfold ip_drift. rewrite Hip, opt_eqb_refl. cbn [negb].
    unfold version_drift. rewrite Hv, opt_eqb_refl. cbn [negb].
    unfold checksum_drift. rewrite Hc, opt_eqb_refl. cbn [negb].
    unfold zone_drift. rewrite Hz, opt_eqb_refl. reflexivity. }
  split; [exact Hd|].
  intros st w c c' Hcrit Hcfg. unfold drift_step, bind, lift.
  rewrite Hcfg, Hcrit, Hd. simpl. unfold ret.
  destruct st as [recs total crit]. simpl in *. now subst.
Qed.

Lemma drift_of_equal_config_is_empty_witness :
  detect_drifts (actual_state plc_in_sync) plc_config 0
  = Ok (mkDriftVars [] "none" 0) /\
  forall (st : DriftLoop) (w : World) (c c' : Counters),
    critical_total st = 0 ->
    get_gitops_config_for_asset (act_name (actual_state plc_in_sync))
      (act_type (actual_state plc_in_sync)) w c = Ok (plc_config, c') ->
    drift_step st (actual_state plc_in_sync) w c = Ok (st, c').
Proof.
  apply (drift_of_equal_config_is_empty (actual_state plc_in_sync) plc_config 0);
    reflexivity.
Defined.

(** C4, as stated, fails: [PLC-001] observed in status [warning] has a
    single mismatch, of severity [high], and its record reads
    [driftStatus = critical]. *)
Lemma status_drift_high_reported_critical :
  exists report c,
    calculate_drift first_match_engine (mkGraph [plc_warning] []) zero_world
      (mkCounters 0 0) = Ok (report, c) /\
    map driftStatus (driftList report) = ["critical"] /\
    map (fun r => map field_severity (driftEntries r)) (driftList report)
    = [["high"]] /\
    max_severity ["high"] = "high".
Proof.
  eexists. eexists. split; [reflexivity|]. simpl. auto.
Qed.

Ltac split_drift_cases :=
  repeat match goal with
         | |- context [if negb ?c then _ else _] =>
             let E := fresh "Hc" in destruct c eqn:E; cbn [negb]
         | |- context [if opt_in ?x ?l then _ else _] =>
             let E := fresh "Ho" in destruct (opt_in x l) eqn:E
         end.

(** The severities of the listed mismatches and the overall severity
    they give. *)
Lemma drift_severity_of_entries (a : ActualState) (i : GitopsConfig)
    (critical : nat) (v : DriftVars) :
  detect_drifts a i critical = Ok v ->
  Forall (fun d => field_severity d = expected_field_severity d) (drifts v) /\
  (In "configChecksum" (map field (drifts v)) ->
   act_configChecksum a <> Some "unknown") /\
  drift_severity v = max_severity (map asset_level_severity (drifts v)) /\
  (~ In "status" (map field (drifts v)) ->
   drift_severity v = max_severity (map field_severity (drifts v))).
Proof.
  unfold detect_drifts, status_drift.
  destruct (act_status a) as [s|] eqn:Hs; [|discriminate].
  assert (Hunk : forall x, opt_eqb x (Some "unknown") = false ->
                           x <> Some "unknown").
  { intros x Hx ->. simpl in Hx. discriminate. }
  destruct (negb (lower s =? lower (cfg_status i))%string) eqn:Hst;
    intros Hv; inversion Hv; subst v; clear Hv;
    unfold zone_drift, checksum_drift, version_drift, ip_drift;
    cbn [drifts drift_severity critical_drift];
    split_drift_cases;
    cbn [drifts drift_severity critical_drift app map field field_severity];
    (split; [repeat constructor; cbn; rewrite ?Ho; reflexivity|]);
    (split; [cbn; intros Hin; try (apply Hunk; assumption);
             exfalso; intuition discriminate|]);
    (split; [reflexivity|]);
    (intros Hno; try reflexivity; exfalso; apply Hno; cbn; auto).
Qed.

(** The record the loop body adds carries the outcome of the comparison:
    [driftStatus] is its overall severity and the entries are its
    mismatches. *)
Lemma drift_step_record (st : DriftLoop) (a : ActualState) (w : World)
    (c c1 : Counters) (i : GitopsConfig) (v : DriftVars) :
  get_gitops_config_for_asset (act_name a) (act_type a) w c = Ok (i, c1) ->
  detect_drifts a i (critical_total st) = Ok v ->
  drifts v <> [] ->
  exists r c2,
    drift_step st a w c
    = Ok (mkDriftLoop (drift_records st ++ [r]) (total_drifted st + 1)
                      (critical_drift v), c2) /\
    assetName r = act_name a /\
    driftStatus r = drift_severity v /\
    driftEntries r = drifts v /\
    driftCount r = length (drifts v).
Proof.
  intros Hcfg Hd Hne. unfold drift_step, bind, lift.
  rewrite Hcfg, Hd. simpl.
  destruct (drifts v) as [|d ds] eqn:Hdr; [contradiction|].
  unfold now, ret. simpl. eexists. eexists. split; [reflexivity|].
  simpl. auto.
Qed.

Lemma predefined_config_fixed (n t : string) (w : World) (c : Counters) :
  dict_get gitops_configs n <> None ->
  exists cfg, dict_get gitops_configs n = Some cfg /\
              get_gitops_config_for_asset n t w c = Ok (cfg, c).
Proof.
  intros H. unfold get_gitops_config_for_asset.
  destruct (dict_get gitops_configs n) as [cfg|]; [|contradiction].
  exists cfg. split; reflexivity.
Qed.

Lemma drift_step_draw_independent (st : DriftLoop) (a : ActualState)
    (tape1 tape2 : nat -> N) (clk : nat -> Z) (c : Counters) :
  dict_get gitops_configs (act_name a) <> None ->
  drift_step st a (mkWorld tape1 clk) c = drift_step st a (mkWorld tape2 clk) c.
Proof.
  intros H. unfold drift_step, bind.
  destruct (predefined_config_fixed _ (act_type a) (mkWorld tape1 clk) c H)
    as [cfg [Hcfg H1]].
  destruct (predefined_config_fixed _ (act_type a) (mkWorld tape2 clk) c H)
    as [cfg' [Hcfg' H2]].
  rewrite Hcfg in Hcfg'. inversion Hcfg'; subst cfg'.
  rewrite H1, H2. unfold lift.
  destruct (detect_drifts a cfg (critical_total st)) as [v| |]; try reflexivity.
  destruct (drifts v); reflexivity.
Qed.

Lemma drift_loop_draw_independent (rows : list ActualState)
    (tape1 tape2 : nat -> N) (clk : nat -> Z) :
  (forall a, In a rows -> dict_get gitops_configs (act_name a) <> None) ->
  forall (st : DriftLoop) (c : Counters),
    drift_loop st rows (mkWorld tape1 clk) c
    = drift_loop st rows (mkWorld tape2 clk) c.
Proof.
  induction rows as [|a rest IH]; intros H st c; [reflexivity|].
  simpl. unfold bind.
  rewrite (drift_step_draw_independent st a tape1 tape2 clk c)
    by (apply H; now left).
  destruct (drift_step st a (mkWorld tape2 clk) c) as [[st' c']| |];
    try reflexivity.
  apply IH. intros b Hb. apply H. now right.
Qed.

(** When every asset the query hands over has a predefined
    configuration, [calculate_drift] gives the same answer for any two
    sequences of draws under one clock. *)
Lemma calculate_drift_draw_independent (E : Engine) (g : Graph)
    (tape1 tape2 : nat -> N) (clk : nat -> Z) (c : Counters) :
  (forall a, In a (actual_query E g) ->
             dict_get gitops_configs (act_name a) <> None) ->
  calculate_drift E g (mkWorld tape1 clk) c
  = calculate_drift E g (mkWorld tape2 clk) c.
Proof.
  intros H. unfold calculate_drift, bind.
  rewrite (drift_loop_draw_independent _ tape1 tape2 clk H).
  destruct (drift_loop _ _ (mkWorld tape2 clk) c) as [[st c']| |]; reflexivity.
Qed.

(** ** Critical paths *)

Lemma distinct_In (l : list nat) (x : nat) :
  In x (distinct Nat.eqb l) <-> In x l.
Proof.
  induction l as [|y l IH]; simpl; [tauto|].
  rewrite filter_In, IH, negb_true_iff, Nat.eqb_neq.
  destruct (Nat.eq_dec y x); [subst|]; tauto.
Qed.

Lemma distinct_NoDup (l : list nat) : NoDup (distinct Nat.eqb l).
Proof.
  induction l as [|y l IH]; simpl; constructor.
  - rewrite filter_In, negb_true_iff, Nat.eqb_neq. tauto.
  - now apply NoDup_filter.
Qed.

(** [dependentCount] counts, once each, the assets in which a path of 1 to
    3 distinct POWERS, CONNECTS_TO or FEEDS_DATA relationships out of the
    asset ends; the count does not depend on the row order. *)
Lemma dependent_count_spec (E : Engine) (g : Graph) (c : nat) :
  exists l,
    NoDup l /\ length l = dependent_count E g c /\
    forall j, In j l <->
              exists p, is_trail 3 (indexed (edges g)) spof_kinds [] p /\
                        path_start p = Some c /\ path_end p = Some j /\
                        get_node g j <> None.
Proof.
  exists (distinct Nat.eqb (dependents E g c)).
  split; [apply distinct_NoDup|]. split; [reflexivity|].
  intros j. rewrite distinct_In. unfold dependents. rewrite in_flat_map.
  split.
  - intros [p [Hp Hj]]. apply row_order_In, trails_from_iff in Hp.
    destruct Hp as [Ht Hs]. exists p.
    destruct (path_end p) as [k|]; [|contradiction].
    destruct (get_node g k) eqn:Hk; [|contradiction].
    destruct Hj as [<-|[]].
    split; [exact Ht|]. split; [exact Hs|]. split; [reflexivity|].
    rewrite Hk. discriminate.
  - intros [p [Ht [Hs [He Hn]]]]. exists p. split.
    + apply row_order_In, trails_from_iff. auto.
    + rewrite He. destruct (get_node g j); [now left|contradiction].
Qed.

Lemma score_desc_total (a b : CriticalPath) :
  score_desc a b = false -> score_desc b a = true.
Proof. unfold score_desc. rewrite Nat.leb_gt, Nat.leb_le. lia. Qed.

Lemma score_desc_trans (a b c : CriticalPath) :
  score_desc a b = true -> score_desc b c = true -> score_desc a c = true.
Proof. unfold score_desc. rewrite !Nat.leb_le. lia. Qed.

Lemma StronglySorted_firstn {A : Type} (R : A -> A -> Prop) (n : nat)
    (l : list A) :
  StronglySorted R l -> StronglySorted R (firstn n l).
Proof.
  revert l. induction n as [|n IH]; intros l Hs; simpl; [constructor|].
  destruct l as [|x l]; [constructor|].
  inversion Hs as [|? ? Hs' Hall]; subst. constructor; [now apply IH|].
  rewrite Forall_forall in *. intros y Hy. apply Hall.
  now apply firstn_incl with n.
Qed.

(** The rows that pass the filter are the rows of the assets with more
    than three dependents. *)
Lemma significant_rows_In (E : Engine) (g : Graph) (r : CriticalPath) :
  In r (significant_rows E g) <->
  exists i a, get_node g i = Some a /\ In (i, a) (indexed (nodes g)) /\
              r = critical_path_row E g (i, a) /\
              3 < dependent_count E g i.
Proof.
  unfold significant_rows. rewrite filter_In, in_map_iff. split.
  - intros [[[i a] [<- Hin]] Hc]. apply row_order_In in Hin.
    exists i, a. repeat split; auto.
    + now apply indexed_In in Hin.
    + simpl in Hc. now apply Nat.ltb_lt.
  - intros [i [a [_ [Hin [-> Hc]]]]]. split.
    + exists (i, a). split; [reflexivity|]. now apply row_order_In.
    + simpl. now apply Nat.ltb_lt.
Qed.

(** C5, as stated, fails on two counts.  In [eleven_hubs_graph] eleven
    assets have four dependents each and only ten are reported: [H10] is
    left out.  In [two_hubs_graph] two assets have the same score and two
    row orders of the engine list them in opposite orders. *)
Lemma critical_paths_capped_and_ties_differ :
  (length (significant_rows first_match_engine eleven_hubs_graph) = 11 /\
   dependent_count first_match_engine eleven_hubs_graph 10 = 4 /\
   option_map name (get_node eleven_hubs_graph 10) = Some "H10" /\
   length (analyze_critical_paths first_match_engine eleven_hubs_graph) = 10 /\
   ~ In "H10"
       (map asset (analyze_critical_paths first_match_engine eleven_hubs_graph)))
  /\
  (map (fun r => (asset r, criticalityScore r))
       (analyze_critical_paths first_match_engine two_hubs_graph)
   = [("H0", 4); ("H1", 4)] /\
   map (fun r => (asset r, criticalityScore r))
       (analyze_critical_paths last_match_engine two_hubs_graph)
   = [("H1", 4); ("H0", 4)]).
Proof.
  split.
  - repeat split; try (vm_compute; reflexivity).
    vm_compute. intuition discriminate.
  - split; vm_compute; reflexivity.
Qed.

(** The report of [analyze_critical_paths] in terms of the rows that
    pass the filter: it is the head of their list sorted by descending
    score. *)
Lemma critical_paths_head_of_rows (E : Engine) (g : Graph) :
  length (analyze_critical_paths E g) <= 10 /\
  (forall r, In r (analyze_critical_paths E g) ->
     exists i a,
       get_node g i = Some a /\
       asset r = name a /\
       dependentCount r = dependent_count E g i /\
       3 < dependentCount r /\
       criticalityScore r
       = dependentCount r
         + (if str_in (type a) ["UPS"; "Router"; "NetworkSwitch"]
            then 10 else 0)
         + (if opt_in (status a) ["warning"; "degraded"] then 5 else 0) /\
       spof_severity r
       = (if 20 <? criticalityScore r then "critical"
          else if 10 <? criticalityScore r then "high" else "medium")) /\
  StronglySorted (fun x y => criticalityScore y <= criticalityScore x)
                 (analyze_critical_paths E g) /\
  (exists rest,
     Permutation (analyze_critical_paths E g ++ rest) (significant_rows E g) /\
     (forall x y, In x (analyze_critical_paths E g) -> In y rest ->
                  criticalityScore y <= criticalityScore x) /\
     (length (significant_rows E g) <= 10 -> rest = [])).
Proof.
  unfold analyze_critical_paths. split; [|split; [|split]].
  - unfold limit. apply firstn_le_length.
  - intros r Hr. apply firstn_incl, order_by_In, significant_rows_In in Hr.
    destruct Hr as [i [a [Ha [_ [-> Hc]]]]].
    exists i, a. cbn [critical_path_row asset dependentCount criticalityScore
                        spof_severity fst snd].
    repeat split; auto.
  - unfold limit. apply StronglySorted_firstn.
    pose proof (order_by_sorted score_desc score_desc_total score_desc_trans
                  (significant_rows E g)) as Hs.
    eapply StronglySorted_ind with (P := fun l =>
      StronglySorted (fun x y => criticalityScore y <= criticalityScore x) l);
      [constructor | | exact Hs].
    intros x l _ IH Hall. constructor; [exact IH|].
    eapply Forall_impl; [|exact Hall].
    intros y Hy. now apply Nat.leb_le.
  - exists (skipn 10 (order_by score_desc (significant_rows E g))).
    unfold limit. split; [|split].
    + rewrite firstn_skipn. apply order_by_perm.
    + intros x y Hx Hy. apply Nat.leb_le.
      exact (limit_order_by_dropped score_desc score_desc_total
               score_desc_trans 10 (significant_rows E g) x y Hx Hy).
    + intros Hlen. apply skipn_all2. now rewrite order_by_length.
Qed.

(** * Further facts about the endpoints *)

(** ** Root cause: the shape of the answer *)

Lemma path_nodes_length (p : Path) :
  p <> [] -> length (path_nodes p) = S (length p).
Proof.
  destruct p as [|ie p]; [contradiction|]. intros _.
  simpl. now rewrite length_map.
Qed.

Lemma assets_of_app (g : Graph) (l1 l2 : list nat) :
  assets_of g (l1 ++ l2) = assets_of g l1 ++ assets_of g l2.
Proof. unfold assets_of. apply flat_map_app. Qed.

Lemma assets_of_length (g : Graph) (l : list nat) :
  (forall i, In i l -> i < length (nodes g)) ->
  length (assets_of g l) = length l.
Proof.
  induction l as [|i l IH]; intros H; [reflexivity|].
  change (assets_of g (i :: l)) with
    (match get_node g i with Some a => [a] | None => [] end ++ assets_of g l).
  rewrite length_app, IH by (intros j Hj; apply H; now right).
  destruct (get_node g i) eqn:Hi; [reflexivity|].
  apply nth_error_None in Hi. specialize (H i (or_introl eq_refl)). lia.
Qed.

Lemma path_nodes_snoc (q : Path) (ie : nat * Edge) :
  path_nodes (q ++ [ie])
  = match q with
    | [] => [src (snd ie)]
    | _ => path_nodes q
    end ++ [dst (snd ie)].
Proof.
  destruct q as [|je q]; [reflexivity|].
  simpl. rewrite map_app. reflexivity.
Qed.

Lemma path_nodes_end (p : Path) (t : nat) :
  path_end p = Some t -> exists l, path_nodes p = l ++ [t].
Proof.
  intros H. destruct (exists_last (l:=p)) as [q [ie Hp]].
  { intros ->. discriminate. }
  subst p. rewrite path_end_snoc in H. inversion H; subst.
  rewrite path_nodes_snoc. eexists. reflexivity.
Qed.

Lemma trail_nodes_in_range (g : Graph) (n : nat) (kinds : list string)
    (p : Path) :
  edges_in_range g ->
  is_trail n (indexed (edges g)) kinds [] p ->
  forall i, In i (path_nodes p) -> i < length (nodes g).
Proof.
  intros Hwf [_ [Hall _]] i Hi. rewrite Forall_forall in Hall.
  assert (Hedge : forall ie, In ie p -> In (snd ie) (edges g)).
  { intros ie Hie. destruct (Hall ie Hie) as [Hin _].
    now apply indexed_In_snd. }
  destruct p as [|ie p]; [contradiction|]. simpl in Hi.
  destruct Hi as [<-|[<-|Hi]].
  - apply (Hwf (snd ie)), Hedge. now left.
  - apply (Hwf (snd ie)), Hedge. now left.
  - apply in_map_iff in Hi. destruct Hi as [je [<- Hje]].
    apply (Hwf (snd je)), Hedge. now right.
Qed.

Lemma rca_of_row_match (g : Graph) (t : nat * Asset) (p : Path) (i : nat)
    (root : Asset) :
  path_start p = Some i -> get_node g i = Some root ->
  let rca := rca_of_row g (t, Some p) in
  targetAsset rca = name (snd t) /\
  rootCause rca = Some (name root) /\
  rootCauseStatus rca = status root /\
  failureDepth rca = Some (length p) /\
  failureChain rca = Some (map chain_entry (assets_of g (path_nodes p))) /\
  relationshipTypes rca = Some (path_kinds p).
Proof.
  intros Hi Hroot. unfold rca_of_row. simpl. rewrite Hi, Hroot. simpl.
  repeat split; reflexivity.
Qed.

Lemma isolated_branch_cases (E : Engine) (g : Graph) (n : option string)
    (r : RcaData) :
  match single (asset_query E g n), n with
  | Some a, Some asset_name => isolated_result asset_name a
  | _, _ => ErrorBody "Asset not found"
  end = Ok r ->
  exists nm a,
    n = Some nm /\ In a (map snd (nodes_named g n)) /\
    isolated_result nm a = Ok r.
Proof.
  unfold asset_query.
  destruct (row_order E AssetRow (nodes_named g n)) as [|t ts] eqn:Hs;
    simpl; [discriminate|].
  destruct n as [nm|]; [|discriminate]. intros H.
  exists nm, (snd t). split; [reflexivity|]. split; [|exact H].
  apply in_map. apply (row_order_In E AssetRow). rewrite Hs. now left.
Qed.

(** What [find_root_cause] returns is built either from one match of the
    query or from the asset's own record. *)
Lemma find_root_cause_cases (E : Engine) (g : Graph) (n : option string)
    (r : RcaData) :
  find_root_cause E g n = Ok r ->
  (exists t p i root,
     In t (nodes_named g n) /\ In p (rca_matches g (fst t)) /\
     path_start p = Some i /\ get_node g i = Some root /\
     opt_in (status root) rca_statuses = true /\
     targetAsset r = name (snd t) /\
     rootCause r = Some (name root) /\
     rootCauseStatus r = status root /\
     failureDepth r = Some (length p) /\
     failureChain r = Some (map chain_entry (assets_of g (path_nodes p))) /\
     relationshipTypes r = Some (path_kinds p)) \/
  (exists nm a,
     n = Some nm /\ In a (map snd (nodes_named g n)) /\
     isolated_result nm a = Ok r).
Proof.
  unfold find_root_cause. rewrite single_query_head.
  destruct (order_by depth_desc (row_order E RootCauseRows (rca_rows g n)))
    as [|row rows] eqn:Ho; cbn [hd_error option_map].
  - intros H. right. now apply (isolated_branch_cases E).
  - destruct (truthy (rootCause (rca_of_row g row))) eqn:Htr;
      [|intros H; right; now apply (isolated_branch_cases E)].
    assert (Hr : In row (rca_rows g n)).
    { apply (row_order_In E RootCauseRows), (order_by_In depth_desc).
      rewrite Ho. now left. }
    apply rca_rows_In in Hr. destruct Hr as [Ht Hp].
    destruct row as [t [p|]]; simpl in Ht, Hp; [|discriminate Htr].
    pose proof Hp as Hp'. apply rca_matches_iff in Hp'.
    destruct Hp' as [_ [_ [i [root [Hi [Hroot Hst]]]]]].
    destruct (rca_of_row_match g t p i root Hi Hroot)
      as [H1 [H2 [H3 [H4 [H5 H6]]]]].
    unfold generate_detailed_rca_analysis. rewrite H4, H5.
    intros H. inversion H; subst r; clear H. left.
    exists t, p, i, root. simpl. repeat (split; [assumption|]). assumption.
Qed.

Lemma str_in_In (s : string) (l : list string) :
  str_in s l = true -> In s l.
Proof.
  unfold str_in. rewrite existsb_exists. intros [x [Hx Heq]].
  apply String.eqb_eq in Heq. now subst.
Qed.

Lemma nodes_named_node (g : Graph) (n : option string) (t : nat * Asset) :
  In t (nodes_named g n) ->
  n = Some (name (snd t)) /\ get_node g (fst t) = Some (snd t).
Proof.
  destruct n as [nm|]; [|contradiction]. intros H.
  apply nodes_named_name in H. destruct H as [H1 H2]. now rewrite H1.
Qed.

Lemma isolated_result_fields (nm : string) (a : Asset) (r : RcaData) :
  isolated_result nm a = Ok r ->
  targetAsset r = nm /\ rootCause r = Some nm /\ failureDepth r = Some 0 /\
  failureChain r = Some [] /\ relationshipTypes r = None /\
  status a <> None.
Proof.
  unfold isolated_result, generate_isolated_failure_analysis.
  destruct (status a); [|discriminate].
  intros H. inversion H; subst r. simpl. repeat split; auto. discriminate.
Qed.

(** X1.  An answer of [find_root_cause] names the requested asset as its
    target and has one of two shapes.  Either the target is its own root
    cause, at depth 0, with an empty chain and no relationship list; or the
    depth lies between 1 and 5, there are as many relationship types as the
    depth, each one of POWERS, CONNECTS_TO, FEEDS_DATA, DEPENDS_ON, and, in
    a snapshot whose relationships join nodes of the snapshot, the chain
    has one asset more than the depth. *)
Theorem root_cause_answer_shape (E : Engine) (g : Graph) (n : option string)
    (r : RcaData) :
  edges_in_range g ->
  find_root_cause E g n = Ok r ->
  n = Some (targetAsset r) /\
  ((rootCause r = Some (targetAsset r) /\ failureDepth r = Some 0 /\
    failureChain r = Some [] /\ relationshipTypes r = None) \/
   (exists d chain kinds,
      failureDepth r = Some d /\ 1 <= d <= 5 /\
      failureChain r = Some chain /\ length chain = d + 1 /\
      relationshipTypes r = Some kinds /\ length kinds = d /\
      forall k, In k kinds -> In k rca_kinds)).
Proof.
  intros Hwf H. apply find_root_cause_cases in H.
  destruct H as [(t & p & i & root & Ht & Hp & Hi & Hroot & _ & H1 & H2 & _
                  & H4 & H5 & H6)
                |(nm & a & -> & _ & Hiso)].
  - destruct (nodes_named_node g n t Ht) as [Hn _].
    split; [now rewrite H1|]. right.
    apply rca_matches_iff in Hp. destruct Hp as [Htrail [_ _]].
    exists (length p), (map chain_entry (assets_of g (path_nodes p))),
      (path_kinds p).
    split; [exact H4|]. split; [apply Htrail|]. split; [exact H5|].
    split; [|split; [exact H6|split]].
    + rewrite length_map, assets_of_length.
      * rewrite path_nodes_length; [lia|].
        intros ->. discriminate.
      * now apply (trail_nodes_in_range g 5 rca_kinds).
    + unfold path_kinds. apply length_map.
    + intros k Hk. unfold path_kinds in Hk. apply in_map_iff in Hk.
      destruct Hk as [ie [<- Hie]].
      destruct Htrail as [_ [Hall _]]. rewrite Forall_forall in Hall.
      apply str_in_In. now apply (Hall ie Hie).
  - apply isolated_result_fields in Hiso.
    destruct Hiso as [-> [H2 [H3 [H4 [H5 _]]]]]. split; [reflexivity|].
    left. auto.
Qed.

Lemma root_cause_answer_shape_witness :
  exists r,
    find_root_cause first_match_engine scenario_graph_powers (Some "Robot1")
    = Ok r /\
    Some "Robot1" = Some (targetAsset r) /\
    ((rootCause r = Some (targetAsset r) /\ failureDepth r = Some 0 /\
      failureChain r = Some [] /\ relationshipTypes r = None) \/
     (exists d chain kinds,
        failureDepth r = Some d /\ 1 <= d <= 5 /\
        failureChain r = Some chain /\ length chain = d + 1 /\
        relationshipTypes r = Some kinds /\ length kinds = d /\
        forall k, In k kinds -> In k rca_kinds)).
Proof.
  eexists. split; [reflexivity|].
  apply (root_cause_answer_shape first_match_engine scenario_graph_powers
           (Some "Robot1")); [|reflexivity].
  intros e [<-|[<-|[]]]; simpl; lia.
Defined.

(** X2.  When [find_root_cause] reports an upstream root cause (a depth
    other than 0), the failure chain starts with the root cause, whose
    status is one of the six unhealthy ones, and ends with the target. *)
Theorem root_cause_chain_ends (E : Engine) (g : Graph) (n : option string)
    (r : RcaData) :
  find_root_cause E g n = Ok r ->
  failureDepth r <> Some 0 ->
  exists chain,
    failureChain r = Some chain /\
    option_map node_name (hd_error chain) = rootCause r /\
    option_map node_status (hd_error chain) = Some (rootCauseStatus r) /\
    opt_in (rootCauseStatus r) rca_statuses = true /\
    option_map node_name (hd_error (rev chain)) = Some (targetAsset r).
Proof.
  intros H Hd. apply find_root_cause_cases in H.
  destruct H as [(t & p & i & root & Ht & Hp & Hi & Hroot & Hst & H1 & H2 & H3
                  & H4 & H5 & H6)
                |(nm & a & -> & _ & Hiso)].
  - exists (map chain_entry (assets_of g (path_nodes p))).
    split; [exact H5|].
    apply rca_matches_iff in Hp. destruct Hp as [_ [Hend _]].
    destruct (nodes_named_node g n t Ht) as [_ Hnode].
    rewrite H2, H3, H1. split; [|split; [|split; [exact Hst|]]].
    + destruct p as [|ie p]; [discriminate|].
      unfold path_start in Hi. simpl in Hi. inversion Hi; subst i.
      simpl. unfold assets_of. simpl. rewrite Hroot. reflexivity.
    + destruct p as [|ie p]; [discriminate|].
      unfold path_start in Hi. simpl in Hi. inversion Hi; subst i.
      simpl. unfold assets_of. simpl. rewrite Hroot. reflexivity.
    + destruct (path_nodes_end p (fst t) Hend) as [l Hl].
      rewrite Hl, assets_of_app. unfold assets_of at 2. simpl.
      rewrite Hnode. simpl. rewrite map_app, rev_app_distr. reflexivity.
  - apply isolated_result_fields in Hiso.
    destruct Hiso as [_ [_ [H3 _]]]. contradiction.
Qed.

Lemma root_cause_chain_ends_witness :
  exists r chain,
    find_root_cause first_match_engine scenario_graph_powers (Some "Robot1")
    = Ok r /\
    failureChain r = Some chain /\
    option_map node_name (hd_error chain) = rootCause r /\
    option_map node_status (hd_error chain) = Some (rootCauseStatus r) /\
    opt_in (rootCauseStatus r) rca_statuses = true /\
    option_map node_name (hd_error (rev chain)) = Some (targetAsset r).
Proof.
  eexists.
  destruct (root_cause_chain_ends first_match_engine scenario_graph_powers
              (Some "Robot1") _ eq_refl) as [chain H].
  - simpl. discriminate.
  - exists chain. split; [reflexivity|exact H].
Defined.

(** X3.  The only exception [find_root_cause] lets through is the
    [AttributeError] of the isolated-failure analysis, and it does so only
    when an asset of the requested name has no status. *)
Theorem root_cause_only_exception (E : Engine) (g : Graph) (n : option string)
    (e : string) :
  find_root_cause E g n = Raised e ->
  e = "AttributeError" /\
  exists a, In a (map snd (nodes_named g n)) /\ status a = None.
Proof.
  unfold find_root_cause. rewrite single_query_head.
  assert (Hiso :
    match single (asset_query E g n), n with
    | Some a, Some asset_name => isolated_result asset_name a
    | _, _ => ErrorBody "Asset not found"
    end = Raised e ->
    e = "AttributeError" /\
    exists a, In a (map snd (nodes_named g n)) /\ status a = None).
  { unfold asset_query.
    destruct (row_order E AssetRow (nodes_named g n)) as [|t ts] eqn:Hs;
      simpl; [discriminate|].
    destruct n as [nm|]; [|discriminate].
    unfold isolated_result, generate_isolated_failure_analysis.
    destruct (status (snd t)) eqn:Hst; [discriminate|].
    intros H. inversion H. split; [reflexivity|].
    exists (snd t). split; [|exact Hst].
    apply in_map. apply (row_order_In E AssetRow). rewrite Hs. now left. }
  destruct (order_by depth_desc (row_order E RootCauseRows (rca_rows g n)))
    as [|row rows] eqn:Ho; cbn [hd_error option_map]; [exact Hiso|].
  destruct (truthy (rootCause (rca_of_row g row))) eqn:Htr; [|exact Hiso].
  destruct row as [t [p|]]; [|discriminate Htr].
  unfold generate_detailed_rca_analysis, rca_of_row. simpl. discriminate.
Qed.

Lemma root_cause_only_exception_witness :
  "AttributeError" = "AttributeError" /\
  exists a, In a (map snd (nodes_named no_status_graph (Some "Pump-7"))) /\
            status a = None.
Proof.
  apply (root_cause_only_exception first_match_engine no_status_graph
           (Some "Pump-7") "AttributeError").
  reflexivity.
Defined.

(** ** Cascade impact: growth, severity, distances *)

Lemma In_indexed_nth {A : Type} (l : list A) (i : nat) (x : A) :
  nth_error l i = Some x -> In (i, x) (indexed l).
Proof.
  unfold indexed.
  assert (H : forall k, nth_error l i = Some x ->
                        In (k + i, x) (combine (seq k (length l)) l)).
  { revert i. induction l as [|y l IH]; intros i k Hi.
    - destruct i; discriminate.
    - destruct i as [|i]; simpl in *.
      + inversion Hi; subst. left. f_equal. lia.
      + right. replace (k + S i) with (S k + i) by lia. now apply IH. }
  intros Hi. exact (H 0 Hi).
Qed.

Lemma indexed_snoc_incl {A : Type} (l : list A) (x : A) (ia : nat * A) :
  In ia (indexed l) -> In ia (indexed (l ++ [x])).
Proof.
  intros H. apply indexed_In in H. destruct ia as [i a]. simpl in H.
  apply In_indexed_nth. rewrite nth_error_app1; [exact H|].
  apply nth_error_Some. now rewrite H.
Qed.

Lemma is_trail_more_edges (n : nat) (es es' : list (nat * Edge))
    (kinds : list string) (used : list nat) (p : Path) :
  (forall ie, In ie es -> In ie es') ->
  is_trail n es kinds used p -> is_trail n es' kinds used p.
Proof.
  intros Hincl [H1 [H2 [H3 H4]]]. repeat split; try assumption; try apply H1.
  eapply Forall_impl; [|exact H2]. simpl. intros ie [Ha Hb]. auto.
Qed.

Lemma cascade_rows_add_edge (g : Graph) (e : Edge) (n : option string)
    (row : Asset * nat) :
  In row (cascade_rows g n) -> In row (cascade_rows (add_edge g e) n).
Proof.
  destruct row as [a d]. rewrite !cascade_rows_iff.
  intros (s & p & j & Hs & Ht & Hst & He & Hj & Hd).
  exists s, p, j. repeat (split; [assumption|]).
  split; [|auto].
  apply (is_trail_more_edges 5 (indexed (edges g))); [|exact Ht].
  intros ie. apply indexed_snoc_incl.
Qed.

(** X4.  A further relationship never lowers [totalDownstream]: the count
    reported for an asset in the snapshot with one more edge is at least
    the count reported before, whatever the row orders. *)
Theorem cascade_total_grows_with_edges (E E' : Engine) (g : Graph) (e : Edge)
    (n : string) (r r' : CascadeData) :
  analyze_cascade_impact E g (Some n) = Ok r ->
  analyze_cascade_impact E' (add_edge g e) (Some n) = Ok r' ->
  totalDownstream r <= totalDownstream r'.
Proof.
  intros H H'.
  destruct (cascade_shortest_distance E g n r H)
    as [Htot [_ [Hnd [Hnames _]]]].
  destruct (cascade_shortest_distance E' (add_edge g e) n r' H')
    as [Htot' [_ [_ [Hnames' _]]]].
  rewrite Htot, Htot'.
  rewrite <- (length_map aff_name (allAffectedAssets r)).
  rewrite <- (length_map aff_name (allAffectedAssets r')).
  apply NoDup_incl_length; [exact Hnd|].
  intros nm Hnm. apply Hnames in Hnm. destruct Hnm as [a [d [Hin Hname]]].
  apply Hnames'. exists a, d. split; [|exact Hname].
  now apply cascade_rows_add_edge.
Qed.

Lemma cascade_total_grows_with_edges_witness :
  exists r r',
    analyze_cascade_impact first_match_engine scenario_graph (Some "PLC1")
    = Ok r /\
    analyze_cascade_impact last_match_engine
      (add_edge scenario_graph (mkEdge 1 "FEEDS_DATA" 0)) (Some "PLC1")
    = Ok r' /\
    totalDownstream r <= totalDownstream r'.
Proof.
  eexists. eexists. split; [reflexivity|]. split; [reflexivity|].
  apply (cascade_total_grows_with_edges first_match_engine last_match_engine
           scenario_graph (mkEdge 1 "FEEDS_DATA" 0) "PLC1"); reflexivity.
Defined.

Lemma cascade_result_fields (E : Engine) (g : Graph) (n : option string)
    (r : CascadeData) :
  analyze_cascade_impact E g n = Ok r ->
  severity r = cascade_severity (totalDownstream r) /\
  potentialImpact r = totalDownstream r /\
  totalDownstream r = length (allAffectedAssets r) /\
  impactRadius r = fold_right Nat.max 0 (map distance (allAffectedAssets r)) /\
  forall x, In x (allAffectedAssets r) -> 1 <= distance x <= 5.
Proof.
  unfold analyze_cascade_impact.
  destruct (single (source_query E g n)); [|discriminate].
  intros H. inversion H; subst r; clear H. simpl.
  repeat (split; [reflexivity|]).
  intros x Hx. apply assets_map_values in Hx.
  destruct Hx as [[]|[row [Hrow [-> _]]]].
  unfold paths_query in Hrow. apply order_by_In, row_order_In in Hrow.
  now apply cascade_rows_distance in Hrow.
Qed.

(** X5.  The severity of a cascade result is one of low, medium, high,
    critical and grows with [totalDownstream]: of two results, the one with
    no fewer downstream assets has no lower severity.  [potentialImpact]
    repeats [totalDownstream]. *)
Theorem cascade_severity_monotone (E1 E2 : Engine) (g1 g2 : Graph)
    (n1 n2 : option string) (r1 r2 : CascadeData) :
  analyze_cascade_impact E1 g1 n1 = Ok r1 ->
  analyze_cascade_impact E2 g2 n2 = Ok r2 ->
  potentialImpact r1 = totalDownstream r1 /\
  In (severity r1) ["low"; "medium"; "high"; "critical"] /\
  (totalDownstream r1 <= totalDownstream r2 ->
   severity_rank (severity r1) <= severity_rank (severity r2)).
Proof.
  intros H1 H2.
  destruct (cascade_result_fields _ _ _ _ H1) as [Hs1 [Hp1 _]].
  destruct (cascade_result_fields _ _ _ _ H2) as [Hs2 _].
  rewrite Hs1, Hs2. split; [exact Hp1|].
  unfold cascade_severity. split.
  - destruct (10 <? totalDownstream r1); [simpl; auto|].
    destruct (5 <? totalDownstream r1); [simpl; auto|].
    destruct (2 <? totalDownstream r1); simpl; auto.
  - intros Hle.
    destruct (10 <? totalDownstream r1) eqn:A1;
      destruct (5 <? totalDownstream r1) eqn:B1;
      destruct (2 <? totalDownstream r1) eqn:C1;
      destruct (10 <? totalDownstream r2) eqn:A2;
      destruct (5 <? totalDownstream r2) eqn:B2;
      destruct (2 <? totalDownstream r2) eqn:C2;
      repeat match goal with
             | H : (_ <? _) = true |- _ => apply Nat.ltb_lt in H
             | H : (_ <? _) = false |- _ => apply Nat.ltb_ge in H
             end;
      vm_compute; lia.
Qed.

Lemma cascade_severity_monotone_witness :
  exists r1 r2,
    analyze_cascade_impact first_match_engine scenario_graph (Some "PLC1")
    = Ok r1 /\
    analyze_cascade_impact first_match_engine scenario_graph (Some "UPS")
    = Ok r2 /\
    potentialImpact r1 = totalDownstream r1 /\
    In (severity r1) ["low"; "medium"; "high"; "critical"] /\
    (totalDownstream r1 <= totalDownstream r2 ->
     severity_rank (severity r1) <= severity_rank (severity r2)).
Proof.
  eexists. eexists. split; [reflexivity|]. split; [reflexivity|].
  apply (cascade_severity_monotone first_match_engine first_match_engine
           scenario_graph scenario_graph (Some "PLC1") (Some "UPS"));
    reflexivity.
Defined.

Lemma fold_max_ge (l : list nat) (x : nat) :
  In x l -> x <= fold_right Nat.max 0 l.
Proof.
  induction l as [|y l IH]; simpl; [contradiction|].
  intros [->|H]; [lia|]. specialize (IH H). lia.
Qed.

(** X6.  No asset is listed at distance 0: every listed distance lies
    between 1 and 5, so [impactRadius] is 0 exactly when nothing is
    downstream, and at least 1 otherwise. *)
Theorem cascade_radius_zero_iff_empty (E : Engine) (g : Graph)
    (n : option string) (r : CascadeData) :
  analyze_cascade_impact E g n = Ok r ->
  (forall x, In x (allAffectedAssets r) -> 1 <= distance x <= 5) /\
  (impactRadius r = 0 <-> totalDownstream r = 0) /\
  (forall x, In x (allAffectedAssets r) -> distance x <= impactRadius r).
Proof.
  intros H.
  destruct (cascade_result_fields _ _ _ _ H) as [_ [_ [Htot [Hrad Hdist]]]].
  split; [exact Hdist|]. rewrite Hrad, Htot. split.
  - destruct (allAffectedAssets r) as [|x l] eqn:Hl; [simpl; tauto|].
    split; [|discriminate]. intros Hz. exfalso.
    assert (Hx : In x (x :: l)) by now left.
    pose proof (Hdist x Hx) as Hd.
    pose proof (fold_max_ge (map distance (x :: l)) (distance x)
                  (in_map distance _ _ Hx)) as Hge.
    lia.
  - intros x Hx. apply fold_max_ge. now apply in_map.
Qed.

Lemma cascade_radius_zero_iff_empty_witness :
  exists r,
    analyze_cascade_impact first_match_engine scenario_graph (Some "UPS")
    = Ok r /\
    (forall x, In x (allAffectedAssets r) -> 1 <= distance x <= 5) /\
    (impactRadius r = 0 <-> totalDownstream r = 0) /\
    (forall x, In x (allAffectedAssets r) -> distance x <= impactRadius r).
Proof.
  eexists. split; [reflexivity|].
  apply (cascade_radius_zero_iff_empty first_match_engine scenario_graph
           (Some "UPS")).
  reflexivity.
Defined.

(** ** Drift: the comparison of one asset *)

(** The outcome of the comparison, field by field. *)
Lemma detect_drifts_shape (a : ActualState) (i : GitopsConfig) (c : nat)
    (v : DriftVars) :
  detect_drifts a i c = Ok v ->
  exists s b1 b2 b3 b4 b5,
    act_status a = Some s /\
    b1 = negb (lower s =? lower (cfg_status i))%string /\
    b2 = negb (opt_eqb (act_ipAddress a) (Some (cfg_ipAddress i))) /\
    b3 = negb (opt_eqb (act_version a) (Some (cfg_version i))) /\
    b4 = negb (opt_eqb (act_configChecksum a) (Some (cfg_configChecksum i)))
         && negb (opt_eqb (act_configChecksum a) (Some "unknown")) /\
    b5 = negb (opt_eqb (act_securityZone a) (Some (cfg_securityZone i))) /\
    drifts v
    = (if b1 then [mkFieldDrift "status" (Some (cfg_status i)) (act_status a)
                     (if opt_in (act_status a) ["offline"; "error"; "failed"]
                      then "critical" else "high")] else [])
      ++ (if b2 then [mkFieldDrift "ipAddress" (Some (cfg_ipAddress i))
                        (act_ipAddress a) "medium"] else [])
      ++ (if b3 then [mkFieldDrift "version" (Some (cfg_version i))
                        (act_version a) "high"] else [])
      ++ (if b4 then [mkFieldDrift "configChecksum"
                        (Some (cfg_configChecksum i)) (act_configChecksum a)
                        "high"] else [])
      ++ (if b5 then [mkFieldDrift "securityZone" (Some (cfg_securityZone i))
                        (act_securityZone a) "critical"] else []) /\
    critical_drift v = c + (if b1 then 1 else 0) + (if b5 then 1 else 0) /\
    drift_severity v
    = (if b1 || b5 then "critical"
       else if b3 || b4 then "high"
       else if b2 then "medium" else "none").
Proof.
  unfold detect_drifts, status_drift.
  destruct (act_status a) as [s|] eqn:Hs; [|discriminate].
  intros H. exists s.
  do 5 eexists. split; [reflexivity|]. do 5 (split; [reflexivity|]).
  revert H.
  destruct (negb (lower s =? lower (cfg_status i))%string);
    intros H; inversion H; subst v; clear H;
    unfold zone_drift, checksum_drift, version_drift, ip_drift;
    destruct (negb (opt_eqb (act_ipAddress a) (Some (cfg_ipAddress i))));
    destruct (negb (opt_eqb (act_version a) (Some (cfg_version i))));
    destruct (negb (opt_eqb (act_configChecksum a)
                      (Some (cfg_configChecksum i))));
    destruct (negb (opt_eqb (act_configChecksum a) (Some "unknown")));
    destruct (negb (opt_eqb (act_securityZone a) (Some (cfg_securityZone i))));
    simpl; (split; [reflexivity|]); (split; [lia|reflexivity]).
Qed.

Lemma opt_eqb_false (x y : option string) : opt_eqb x y = false -> x <> y.
Proof.
  intros H ->. now rewrite opt_eqb_refl in H.
Qed.

Ltac drift_shape H :=
  apply detect_drifts_shape in H;
  destruct H as (sts & b1 & b2 & b3 & b4 & b5 & Hs & Hb1 & Hb2 & Hb3 & Hb4
                 & Hb5 & Hdr & Hcrit & Hsev).

(** X7.  The mismatches of an asset are listed in the order status,
    ipAddress, version, configChecksum, securityZone, each field at most
    once, so there are at most five; and every listed mismatch is a real
    difference: its intended and its observed value are not equal. *)
Theorem drift_entries_ordered_and_real (a : ActualState) (i : GitopsConfig)
    (c : nat) (v : DriftVars) :
  detect_drifts a i c = Ok v ->
  map field (drifts v)
  = filter (fun f => str_in f (map field (drifts v))) drift_fields /\
  NoDup (map field (drifts v)) /\
  length (drifts v) <= 5 /\
  forall d, In d (drifts v) -> intended d <> actual d.
Proof.
  intros H. drift_shape H. rewrite Hdr.
  split; [destruct b1, b2, b3, b4, b5; reflexivity|].
  split; [destruct b1, b2, b3, b4, b5; simpl;
          repeat (constructor; [simpl; intuition discriminate|]);
          constructor|].
  split; [destruct b1, b2, b3, b4, b5; simpl; lia|].
  intros d Hd. rewrite !in_app_iff in Hd.
  destruct Hd as [Hd|[Hd|[Hd|[Hd|Hd]]]].
  - destruct b1; [|contradiction]. destruct Hd as [<-|[]]. simpl.
    rewrite Hs. intros Heq. inversion Heq as [Heq']. rewrite Heq' in Hb1.
    rewrite String.eqb_refl in Hb1. discriminate.
  - destruct b2; [|contradiction]. destruct Hd as [<-|[]]. simpl.
    symmetry in Hb2. apply negb_true_iff, opt_eqb_false in Hb2. congruence.
  - destruct b3; [|contradiction]. destruct Hd as [<-|[]]. simpl.
    symmetry in Hb3. apply negb_true_iff, opt_eqb_false in Hb3. congruence.
  - destruct b4; [|contradiction]. destruct Hd as [<-|[]]. simpl.
    symmetry in Hb4. apply andb_true_iff in Hb4. destruct Hb4 as [Hb4 _].
    apply negb_true_iff, opt_eqb_false in Hb4. congruence.
  - destruct b5; [|contradiction]. destruct Hd as [<-|[]]. simpl.
    symmetry in Hb5. apply negb_true_iff, opt_eqb_false in Hb5. congruence.
Qed.

Lemma drift_entries_ordered_and_real_witness :
  let v := mkDriftVars
             [mkFieldDrift "status" (Some "running") (Some "warning") "high"]
             "critical" 1 in
  map field (drifts v)
  = filter (fun f => str_in f (map field (drifts v))) drift_fields /\
  NoDup (map field (drifts v)) /\
  length (drifts v) <= 5 /\
  forall d, In d (drifts v) -> intended d <> actual d.
Proof.
  intros v.
  apply (drift_entries_ordered_and_real (actual_state plc_warning) plc_config
           0 v).
  reflexivity.
Defined.

(** X8.  The status comparison ignores case: a status mismatch is listed
    exactly when the observed and the intended status differ after
    lower-casing, and it is then the first mismatch of the asset. *)
Theorem status_drift_ignores_case (a : ActualState) (i : GitopsConfig)
    (c : nat) (v : DriftVars) (s : string) :
  detect_drifts a i c = Ok v ->
  act_status a = Some s ->
  (In "status" (map field (drifts v)) <-> lower s <> lower (cfg_status i)) /\
  (In "status" (map field (drifts v)) ->
   option_map field (hd_error (drifts v)) = Some "status").
Proof.
  intros H Hst. drift_shape H. rewrite Hst in Hs. inversion Hs; subst sts.
  rewrite Hdr. split.
  - rewrite <- String.eqb_neq.
    destruct (lower s =? lower (cfg_status i))%string; simpl in Hb1; subst b1;
      destruct b2, b3, b4, b5; simpl; intuition discriminate.
  - destruct b1; [reflexivity|].
    destruct b2, b3, b4, b5; simpl; intuition discriminate.
Qed.

Lemma status_drift_ignores_case_witness :
  let a := actual_state
             (mkAsset "PLC-001" "PLC" (Some "RUNNING") (Some "192.168.1.10")
                (Some "2.5.0") (Some "a1b2c3d4") (Some "Level 1 - Control")
                None None None) in
  let v := mkDriftVars [] "none" 0 in
  (In "status" (map field (drifts v)) <->
   lower "RUNNING" <> lower (cfg_status plc_config)) /\
  (In "status" (map field (drifts v)) ->
   option_map field (hd_error (drifts v)) = Some "status").
Proof.
  intros a v.
  apply (status_drift_ignores_case a plc_config 0 v "RUNNING"); reflexivity.
Defined.

(** X9.  An asset that has no [configChecksum] property never gets a
    configChecksum mismatch: the query reports its checksum as [unknown],
    and an [unknown] checksum is not compared. *)
Theorem no_checksum_drift_without_checksum (x : Asset) (i : GitopsConfig)
    (c : nat) (v : DriftVars) :
  configChecksum x = None ->
  detect_drifts (actual_state x) i c = Ok v ->
  ~ In "configChecksum" (map field (drifts v)).
Proof.
  intros Hx H. drift_shape H.
  assert (Hb : b4 = false).
  { rewrite Hb4. unfold actual_state. simpl. rewrite Hx. simpl.
    apply andb_false_r. }
  rewrite Hdr, Hb. clear.
  destruct b1, b2, b3, b5; simpl; intuition discriminate.
Qed.

Lemma no_checksum_drift_without_checksum_witness :
  let v := mkDriftVars
             [mkFieldDrift "status" (Some "running") (Some "failed") "critical";
              mkFieldDrift "ipAddress" (Some "192.168.1.10") None "medium";
              mkFieldDrift "version" (Some "2.5.0") None "high";
              mkFieldDrift "securityZone" (Some "Level 1 - Control") None
                "critical"]
             "critical" 2 in
  ~ In "configChecksum" (map field (drifts v)).
Proof.
  intros v.
  apply (no_checksum_drift_without_checksum
           (plain_asset "PLC-001" "PLC" (Some "failed")) plc_config 0 v);
    reflexivity.
Defined.

(** X10.  Each mismatch gets exactly one recommended action, in the same
    order.  The priority of the action is the severity of the mismatch,
    except that a status mismatch always gets priority critical; the
    highest priority is the overall severity of the asset; and only the
    actions for status and securityZone are not automated. *)
Theorem drift_actions_follow_entries (a : ActualState) (i : GitopsConfig)
    (c : nat) (v : DriftVars) :
  detect_drifts a i c = Ok v ->
  length (generate_drift_actions (drifts v)) = length (drifts v) /\
  map priority (generate_drift_actions (drifts v))
  = map asset_level_severity (drifts v) /\
  drift_severity v
  = max_severity (map priority (generate_drift_actions (drifts v))) /\
  map automated (generate_drift_actions (drifts v))
  = map (fun d => negb (str_in (field d) ["status"; "securityZone"]))
        (drifts v).
Proof.
  intros H. drift_shape H. rewrite Hdr, Hsev.
  destruct b1, b2, b3, b4, b5; repeat split; reflexivity.
Qed.

Lemma drift_actions_follow_entries_witness :
  let v := mkDriftVars
             [mkFieldDrift "status" (Some "running") (Some "warning") "high"]
             "critical" 1 in
  length (generate_drift_actions (drifts v)) = length (drifts v) /\
  map priority (generate_drift_actions (drifts v))
  = map asset_level_severity (drifts v) /\
  drift_severity v
  = max_severity (map priority (generate_drift_actions (drifts v))) /\
  map automated (generate_drift_actions (drifts v))
  = map (fun d => negb (str_in (field d) ["status"; "securityZone"]))
        (drifts v).
Proof.
  intros v.
  apply (drift_actions_follow_entries (actual_state plc_warning) plc_config
           0 v).
  reflexivity.
Defined.

(** ** Drift: the loop over the assets *)

Lemma randint_run (a b : N) (w : World) (c : Counters) :
  randint a b w c
  = Ok ((a + N.modulo (tape w (draws c)) (b - a + 1))%N,
        mkCounters (S (draws c)) (reads c)).
Proof. reflexivity. Qed.

Lemma dict_get_In {V : Type} (d : list (string * V)) (k : string) (v : V) :
  dict_get d k = Some v -> In (k, v) d.
Proof.
  induction d as [|[k' v'] d IH]; simpl; [discriminate|].
  destruct (String.eqb k' k) eqn:E.
  - apply String.eqb_eq in E. intros H. inversion H; subst. now left.
  - intros H. right. now apply IH.
Qed.

(** [get_gitops_config_for_asset] always answers; what it costs in draws
    and clock readings depends on whether the name is predefined. *)
Lemma gitops_config_run (n t : string) (w : World) (c : Counters) :
  exists cfg c',
    get_gitops_config_for_asset n t w c = Ok (cfg, c') /\
    cfg_name cfg = n /\
    cfg_status cfg = "running" /\
    ((dict_get gitops_configs n = Some cfg /\ c' = c) \/
     (dict_get gitops_configs n = None /\
      draws c' = draws c + 8 /\ reads c' = reads c + 1 /\
      cfg_type cfg = t /\ cfg_securityZone cfg = "Level 1 - Control")).
Proof.
  unfold get_gitops_config_for_asset.
  destruct (dict_get gitops_configs n) as [cfg|] eqn:Hd.
  - exists cfg, c. split; [reflexivity|].
    assert (Hk : cfg_name cfg = n /\ cfg_status cfg = "running").
    { apply dict_get_In in Hd. unfold gitops_configs in Hd. simpl in Hd.
      repeat (destruct Hd as [Hd|Hd];
              [inversion Hd; subst; split; reflexivity|]).
      contradiction. }
    destruct Hk as [Hk1 Hk2]. repeat split; auto.
  - unfold bind, ret, now. rewrite !randint_run. simpl.
    eexists. eexists. split; [reflexivity|]. simpl.
    repeat split; auto. right. repeat split; auto; lia.
Qed.

Lemma detect_drifts_run (a : ActualState) (i : GitopsConfig) (c : nat) :
  (act_status a = None /\ detect_drifts a i c = Raised "AttributeError") \/
  (act_status a <> None /\ exists v, detect_drifts a i c = Ok v).
Proof.
  unfold detect_drifts, status_drift.
  destruct (act_status a) as [s|]; [right|left; auto].
  split; [discriminate|].
  destruct (negb (lower s =? lower (cfg_status i))%string); eexists;
    reflexivity.
Qed.

(** One turn of the loop: it raises when the asset has no status, leaves
    the list alone when there is no mismatch, and adds one record
    otherwise. *)
Lemma drift_step_run (st : DriftLoop) (a : ActualState) (w : World)
    (c : Counters) :
  (act_status a = None /\ drift_step st a w c = Raised "AttributeError") \/
  (act_status a <> None /\
   exists i c0 v c',
     get_gitops_config_for_asset (act_name a) (act_type a) w c = Ok (i, c0) /\
     detect_drifts a i (critical_total st) = Ok v /\
     ((drifts v = [] /\
       drift_step st a w c
       = Ok (mkDriftLoop (drift_records st) (total_drifted st)
                         (critical_drift v), c')) \/
      (drifts v <> [] /\
       exists t,
         drift_step st a w c
         = Ok (mkDriftLoop
                 (drift_records st ++
                  [mkDriftRecord (act_name a) (act_type a) (drift_severity v)
                     (length (drifts v)) (drifts v) (cfg_gitRepo i)
                     (cfg_gitPath i) (cfg_lastCommit i) (Instant t)
                     (generate_drift_actions (drifts v))])
                 (total_drifted st + 1) (critical_drift v), c')))).
Proof.
  unfold drift_step, bind, lift.
  destruct (gitops_config_run (act_name a) (act_type a) w c)
    as (cfg & c1 & Hcfg & _). rewrite Hcfg.
  destruct (detect_drifts_run a cfg (critical_total st))
    as [[Hn Hd]|[Hn [v Hd]]]; rewrite Hd.
  - left. auto.
  - right. split; [exact Hn|]. exists cfg, c1, v.
    destruct (drifts v) as [|d ds] eqn:Hdr.
    + exists c1. split; [reflexivity|]. split; [exact Hd|]. left.
      unfold lift. split; reflexivity.
    + unfold now, ret, lift. eexists. split; [reflexivity|].
      split; [exact Hd|]. right.
      split; [discriminate|]. eexists. reflexivity.
Qed.

Lemma new_record_ok (a : ActualState) (i : GitopsConfig) (c : nat)
    (v : DriftVars) (t : Z) :
  detect_drifts a i c = Ok v ->
  drifts v <> [] ->
  let r := mkDriftRecord (act_name a) (act_type a) (drift_severity v)
             (length (drifts v)) (drifts v) (cfg_gitRepo i) (cfg_gitPath i)
             (cfg_lastCommit i) (Instant t)
             (generate_drift_actions (drifts v)) in
  record_ok r /\ critical_drift v = c + critical_entries r.
Proof.
  intros H Hne r. unfold record_ok, critical_entries. subst r. simpl.
  drift_shape H. rewrite Hdr in *. rewrite Hsev, Hcrit. clear - Hne.
  destruct b1, b2, b3, b4, b5; simpl in *;
    try (exfalso; apply Hne; reflexivity);
    repeat split; auto; lia.
Qed.

Lemma no_drift_keeps_counter (a : ActualState) (i : GitopsConfig) (c : nat)
    (v : DriftVars) :
  detect_drifts a i c = Ok v -> drifts v = [] -> critical_drift v = c.
Proof.
  intros H He. drift_shape H. rewrite Hdr in He. rewrite Hcrit. clear - He.
  destruct b1, b2, b3, b4, b5; simpl in *; try discriminate; lia.
Qed.

Lemma list_sum_snoc (l : list nat) (x : nat) :
  list_sum (l ++ [x]) = list_sum l + x.
Proof. rewrite list_sum_app. simpl. lia. Qed.

Lemma drift_step_inv (st st' : DriftLoop) (a : ActualState) (w : World)
    (c c' : Counters) :
  drift_step st a w c = Ok (st', c') ->
  drift_loop_inv st ->
  drift_loop_inv st' /\
  act_status a <> None /\
  (drift_records st' = drift_records st \/
   exists r, drift_records st' = drift_records st ++ [r] /\
             assetName r = act_name a).
Proof.
  intros H [I1 [I2 I3]].
  destruct (drift_step_run st a w c)
    as [[_ Hr]|[Hn (i & c0 & v & c1 & _ & Hd & [[He Hr]|[Hne [t Hr]]])]];
    rewrite Hr in H; [discriminate| |]; inversion H; subst st' c'; clear H.
  - split; [|split; [exact Hn|now left]].
    unfold drift_loop_inv. simpl.
    rewrite (no_drift_keeps_counter a i _ v Hd He). auto.
  - destruct (new_record_ok a i _ v t Hd Hne) as [Hok Hc].
    split; [|split; [exact Hn|]].
    + unfold drift_loop_inv. simpl.
      rewrite length_app, map_app, list_sum_app. simpl.
      split; [lia|]. split; [lia|].
      apply Forall_app. split; [exact I3|]. constructor; [exact Hok|constructor].
    + right. eexists. split; [reflexivity|]. reflexivity.
Qed.

Lemma drift_loop_inv_kept (rows : list ActualState) :
  forall (st st' : DriftLoop) (w : World) (c c' : Counters),
    drift_loop st rows w c = Ok (st', c') ->
    drift_loop_inv st ->
    drift_loop_inv st' /\
    (forall a, In a rows -> act_status a <> None) /\
    length (drift_records st') <= length (drift_records st) + length rows /\
    (forall r, In r (drift_records st') ->
               In r (drift_records st) \/ In (assetName r) (map act_name rows)).
Proof.
  induction rows as [|a rows IH]; intros st st' w c c' H Hinv.
  - inversion H; subst. simpl.
    split; [exact Hinv|]. split; [intros a []|]. split; [lia|]. now left.
  - simpl in H. unfold bind in H.
    destruct (drift_step st a w c) as [[st1 c1]| |] eqn:Hstep;
      try discriminate.
    destruct (drift_step_inv _ _ _ _ _ _ Hstep Hinv) as [Hinv1 [Hn Hrec]].
    destruct (IH _ _ _ _ _ H Hinv1) as [Hinv' [Hall [Hlen Hnames]]].
    split; [exact Hinv'|]. split; [|split].
    + intros b [<-|Hb]; auto.
    + simpl. destruct Hrec as [Heq|[r [Heq _]]]; rewrite Heq in Hlen;
        [lia|]. rewrite length_app in Hlen. simpl in Hlen. lia.
    + intros r Hr. destruct (Hnames r Hr) as [Hin|Hin].
      * destruct Hrec as [Heq|[r1 [Heq Hname]]]; rewrite Heq in Hin;
          [now left|].
        apply in_app_or in Hin. destruct Hin as [Hin|[<-|[]]]; [now left|].
        right. simpl. now left.
      * right. simpl. now right.
Qed.

Lemma drift_loop_raises (rows : list ActualState) :
  forall (st : DriftLoop) (w : World) (c : Counters),
    (exists a, In a rows /\ act_status a = None) ->
    drift_loop st rows w c = Raised "AttributeError".
Proof.
  induction rows as [|a rows IH]; intros st w c [b [Hb Hn]]; [contradiction|].
  simpl. unfold bind.
  destruct (drift_step_run st a w c) as [[_ Hr]|[Hs (i & c0 & v & c1 & _ & _ & Hr)]].
  - now rewrite Hr.
  - destruct Hb as [->|Hb]; [contradiction|].
    destruct Hr as [[_ Hr]|[_ [t Hr]]]; rewrite Hr; apply IH; eauto.
Qed.

Lemma drift_loop_returns (rows : list ActualState) :
  forall (st : DriftLoop) (w : World) (c : Counters),
    (forall a, In a rows -> act_status a <> None) ->
    exists st' c', drift_loop st rows w c = Ok (st', c').
Proof.
  induction rows as [|a rows IH]; intros st w c H.
  - eexists. eexists. reflexivity.
  - simpl. unfold bind.
    destruct (drift_step_run st a w c) as [[Hn _]|[_ (i & c0 & v & c1 & _ & _ & Hr)]].
    + exfalso. apply (H a); [now left|exact Hn].
    + destruct Hr as [[_ Hr]|[_ [t Hr]]]; rewrite Hr; apply IH;
        intros b Hb; apply H; now right.
Qed.

Lemma actual_query_rows (E : Engine) (g : Graph) :
  length (actual_query E g) <= 50 /\
  length (actual_query E g) <= length (nodes g) /\
  forall a, In a (actual_query E g) ->
            exists x, In x (nodes g) /\ a = actual_state x.
Proof.
  unfold actual_query, limit. rewrite length_map. split; [|split].
  - apply firstn_le_length.
  - rewrite length_firstn, order_by_length.
    rewrite (Permutation_length (row_order_perm E ActualStates _ _)).
    unfold indexed. rewrite length_combine, length_seq. lia.
  - intros a Ha. apply in_map_iff in Ha. destruct Ha as [ia [<- Hia]].
    apply firstn_incl, order_by_In, row_order_In, indexed_In_snd in Hia.
    exists (snd ia). auto.
Qed.

Lemma calculate_drift_loop (E : Engine) (g : Graph) (w : World) (c c' : Counters)
    (rep : DriftReport) :
  calculate_drift E g w c = Ok (rep, c') ->
  exists st c1,
    drift_loop (mkDriftLoop [] 0 0) (actual_query E g) w c = Ok (st, c1) /\
    totalAssets rep = length (drift_records st) + (50 - total_drifted st) /\
    driftedAssets rep = total_drifted st /\
    inSyncAssets rep = 50 - total_drifted st /\
    criticalDrifts rep = critical_total st /\
    driftList rep = drift_records st.
Proof.
  unfold calculate_drift, bind.
  destruct (drift_loop _ _ w c) as [[st c1]| |]; try discriminate.
  unfold now, ret. intros H. inversion H; subst. exists st, c1.
  simpl. repeat split; reflexivity.
Qed.

Lemma empty_loop_inv : drift_loop_inv (mkDriftLoop [] 0 0).
Proof. unfold drift_loop_inv. simpl. repeat split; auto. Qed.

(** X11.  The summary of a drift report: [driftedAssets] is the number of
    records of the drift list and never exceeds the number of assets of the
    snapshot nor 50; [inSyncAssets] is 50 minus that number; and
    [totalAssets] is 50 whatever the number of assets of the snapshot. *)
Theorem drift_summary_counts (E : Engine) (g : Graph) (w : World)
    (c c' : Counters) (rep : DriftReport) :
  calculate_drift E g w c = Ok (rep, c') ->
  driftedAssets rep = length (driftList rep) /\
  driftedAssets rep <= length (nodes g) /\
  driftedAssets rep <= 50 /\
  driftedAssets rep + inSyncAssets rep = 50 /\
  totalAssets rep = 50.
Proof.
  intros H. apply calculate_drift_loop in H.
  destruct H as (st & c1 & Hloop & Ht & Hd & Hi & _ & Hl).
  destruct (drift_loop_inv_kept _ _ _ _ _ _ Hloop empty_loop_inv)
    as [[I1 _] [_ [Hlen _]]].
  destruct (actual_query_rows E g) as [H50 [Hn _]].
  simpl in Hlen. rewrite Ht, Hd, Hi, Hl. lia.
Qed.

Lemma drift_summary_counts_witness :
  exists rep c',
    calculate_drift first_match_engine (mkGraph [plc_warning] []) zero_world
      (mkCounters 0 0) = Ok (rep, c') /\
    driftedAssets rep = length (driftList rep) /\
    driftedAssets rep <= length (nodes (mkGraph [plc_warning] [])) /\
    driftedAssets rep <= 50 /\
    driftedAssets rep + inSyncAssets rep = 50 /\
    totalAssets rep = 50.
Proof.
  eexists. eexists. split; [reflexivity|].
  apply (drift_summary_counts first_match_engine (mkGraph [plc_warning] [])
           zero_world (mkCounters 0 0) _ _ eq_refl).
Defined.

(** X12.  Every record of the drift list belongs to an asset of the
    snapshot and has between one and five mismatches, counted by
    [driftCount] and listed in the order of the compared fields; its
    [driftStatus] is medium, high or critical, and its actions are those
    recommended for its mismatches. *)
Theorem drift_records_well_formed (E : Engine) (g : Graph) (w : World)
    (c c' : Counters) (rep : DriftReport) (r : DriftRecord) :
  calculate_drift E g w c = Ok (rep, c') ->
  In r (driftList rep) ->
  In (assetName r) (map name (nodes g)) /\
  driftCount r = length (driftEntries r) /\
  1 <= driftCount r <= 5 /\
  In (driftStatus r) ["medium"; "high"; "critical"] /\
  actions r = generate_drift_actions (driftEntries r) /\
  map field (driftEntries r)
  = filter (fun f => str_in f (map field (driftEntries r))) drift_fields.
Proof.
  intros H Hr. apply calculate_drift_loop in H.
  destruct H as (st & c1 & Hloop & _ & _ & _ & _ & Hl).
  destruct (drift_loop_inv_kept _ _ _ _ _ _ Hloop empty_loop_inv)
    as [[_ [_ Hok]] [_ [_ Hnames]]].
  rewrite Hl in Hr. split.
  - destruct (Hnames r Hr) as [[]|Hin].
    apply in_map_iff in Hin. destruct Hin as [a [Heq Ha]].
    destruct (actual_query_rows E g) as [_ [_ Hrows]].
    destruct (Hrows a Ha) as [x [Hx ->]]. rewrite <- Heq. simpl.
    now apply in_map.
  - rewrite Forall_forall in Hok. exact (Hok r Hr).
Qed.

Lemma drift_records_well_formed_witness :
  exists rep c' r,
    calculate_drift first_match_engine (mkGraph [plc_warning] []) zero_world
      (mkCounters 0 0) = Ok (rep, c') /\
    In r (driftList rep) /\
    In (assetName r) (map name (nodes (mkGraph [plc_warning] []))) /\
    driftCount r = length (driftEntries r) /\
    1 <= driftCount r <= 5 /\
    In (driftStatus r) ["medium"; "high"; "critical"] /\
    actions r = generate_drift_actions (driftEntries r) /\
    map field (driftEntries r)
    = filter (fun f => str_in f (map field (driftEntries r))) drift_fields.
Proof.
  eexists. eexists. eexists. split; [reflexivity|].
  assert (Hin : forall A (x : A), In x [x]) by (intros; now left).
  split; [apply Hin|].
  apply (drift_records_well_formed first_match_engine
           (mkGraph [plc_warning] []) zero_world (mkCounters 0 0) _ _ _
           eq_refl).
  apply Hin.
Defined.

(** X13.  [criticalDrifts] counts mismatches, not assets: it is the number
    of status and securityZone mismatches over all records of the drift
    list, so an asset with both adds two. *)
Theorem critical_drifts_count_entries (E : Engine) (g : Graph) (w : World)
    (c c' : Counters) (rep : DriftReport) :
  calculate_drift E g w c = Ok (rep, c') ->
  criticalDrifts rep = list_sum (map critical_entries (driftList rep)).
Proof.
  intros H. apply calculate_drift_loop in H.
  destruct H as (st & c1 & Hloop & _ & _ & _ & Hc & Hl).
  destruct (drift_loop_inv_kept _ _ _ _ _ _ Hloop empty_loop_inv)
    as [[_ [I2 _]] _].
  now rewrite Hc, Hl.
Qed.

Lemma critical_drifts_count_entries_witness :
  exists rep c',
    calculate_drift first_match_engine
      (mkGraph [plain_asset "PLC-001" "PLC" (Some "failed")] []) zero_world
      (mkCounters 0 0) = Ok (rep, c') /\
    length (driftList rep) = 1 /\
    criticalDrifts rep = 2 /\
    criticalDrifts rep = list_sum (map critical_entries (driftList rep)).
Proof.
  eexists. eexists. split; [reflexivity|]. split; [reflexivity|].
  split; [reflexivity|].
  apply (critical_drifts_count_entries first_match_engine
           (mkGraph [plain_asset "PLC-001" "PLC" (Some "failed")] [])
           zero_world (mkCounters 0 0) _ _ eq_refl).
Defined.

(** ** Drift: assets that are always reported *)

Ltac mod_bound :=
  match goal with
  | |- context [N.modulo ?x ?k] =>
      let H := fresh "H" in
      let m := fresh "m" in
      assert (H : (N.modulo x k < k)%N) by (apply N.mod_lt; discriminate);
      set (m := N.modulo x k) in *; clearbody m; lia
  end.

(** X15.  [get_gitops_config_for_asset] never fails and always describes
    the asset it was asked about as running.  For a predefined name it
    uses no random draw and no clock reading; for any other name it makes
    eight draws and one clock reading, puts the asset in
    [Level 1 - Control] with an address in 192.168.1-5.10-250, and dates the
    configuration one to thirty days before the reading. *)
Theorem intended_config_shape (n t : string) (w : World) (c : Counters) :
  exists cfg c',
    get_gitops_config_for_asset n t w c = Ok (cfg, c') /\
    cfg_name cfg = n /\
    cfg_status cfg = "running" /\
    ((dict_get gitops_configs n = Some cfg /\ c' = c) \/
     (dict_get gitops_configs n = None /\
      draws c' = draws c + 8 /\ reads c' = reads c + 1 /\
      cfg_type cfg = t /\ cfg_securityZone cfg = "Level 1 - Control" /\
      exists a b d,
        cfg_ipAddress cfg
        = ("192.168." ++ str_of_N a ++ "." ++ str_of_N b)%string /\
        (1 <= a <= 5)%N /\ (10 <= b <= 250)%N /\
        cfg_lastUpdated cfg
        = Instant (clock w (reads c) - 86400 * Z.of_N d)%Z /\
        (1 <= d <= 30)%N)).
Proof.
  unfold get_gitops_config_for_asset.
  destruct (dict_get gitops_configs n) as [cfg|] eqn:Hd.
  - exists cfg, c. split; [reflexivity|].
    assert (Hk : cfg_name cfg = n /\ cfg_status cfg = "running").
    { apply dict_get_In in Hd. unfold gitops_configs in Hd. simpl in Hd.
      repeat (destruct Hd as [Hd|Hd];
              [inversion Hd; subst; split; reflexivity|]).
      contradiction. }
    destruct Hk as [Hk1 Hk2]. split; [exact Hk1|]. split; [exact Hk2|].
    left. split; reflexivity.
  - unfold bind, ret, now.
    repeat (rewrite randint_run; cbv beta iota).
    cbn [draws reads].
    eexists. eexists. split; [reflexivity|].
    cbn [cfg_name cfg_status cfg_type cfg_securityZone cfg_ipAddress
         cfg_lastUpdated draws reads].
    split; [reflexivity|]. split; [reflexivity|]. right.
    split; [reflexivity|]. split; [lia|]. split; [lia|].
    split; [reflexivity|]. split; [reflexivity|].
    eexists. eexists. eexists. split; [reflexivity|].
    split; [|split; [|split; [reflexivity|]]].
    + change (5 - 1 + 1)%N with 5%N. mod_bound.
    + change (250 - 10 + 1)%N with 241%N. mod_bound.
    + change (30 - 1 + 1)%N with 30%N. mod_bound.
Qed.

Lemma drift_step_grows (st st' : DriftLoop) (a : ActualState) (w : World)
    (c c' : Counters) :
  drift_step st a w c = Ok (st', c') ->
  incl (drift_records st) (drift_records st').
Proof.
  intros H.
  destruct (drift_step_run st a w c)
    as [[_ Hr]|[_ (i & c0 & v & c1 & _ & _ & [[_ Hr]|[_ [t Hr]]])]];
    rewrite Hr in H; [discriminate| |]; inversion H; subst; simpl.
  - apply incl_refl.
  - apply incl_appl, incl_refl.
Qed.

Lemma drift_loop_grows (rows : list ActualState) :
  forall (st st' : DriftLoop) (w : World) (c c' : Counters),
    drift_loop st rows w c = Ok (st', c') ->
    incl (drift_records st) (drift_records st').
Proof.
  induction rows as [|a rows IH]; intros st st' w c c' H.
  - inversion H; subst. apply incl_refl.
  - simpl in H. unfold bind in H.
    destruct (drift_step st a w c) as [[st1 c1]| |] eqn:Hstep;
      try discriminate.
    eapply incl_tran; [eapply drift_step_grows; eassumption|].
    eapply IH; eassumption.
Qed.

(** One turn of the loop on an asset whose status is not [running], or
    that is not predefined and sits outside [Level 1 - Control], adds a
    critical record for it. *)
Lemma drift_step_flags (st st' : DriftLoop) (a : ActualState) (w : World)
    (c c' : Counters) :
  drift_step st a w c = Ok (st', c') ->
  (exists s, act_status a = Some s /\ lower s <> "running") \/
  (dict_get gitops_configs (act_name a) = None /\
   act_securityZone a <> Some "Level 1 - Control") ->
  exists r, In r (drift_records st') /\
            assetName r = act_name a /\ driftStatus r = "critical".
Proof.
  intros H Hflag.
  destruct (drift_step_run st a w c)
    as [[_ Hr]|[_ (i & c0 & v & c1 & Hcfg & Hd & Hr)]];
    [rewrite Hr in H; discriminate|].
  destruct (gitops_config_run (act_name a) (act_type a) w c)
    as (cfg & c2 & Hrun & _ & Hst & Hcase).
  rewrite Hrun in Hcfg. inversion Hcfg; subst cfg c2; clear Hcfg.
  assert (Hv : drifts v <> [] /\ drift_severity v = "critical").
  { drift_shape Hd. rewrite Hdr, Hsev.
    assert (Hb : b1 || b5 = true).
    { destruct Hflag as [[s [Hs' Hne]]|[Hnone Hz]].
      - rewrite Hs in Hs'. inversion Hs'; subst s.
        rewrite Hb1, Hst. change (lower "running") with "running".
        destruct (String.eqb_spec (lower sts) "running"); [contradiction|].
        reflexivity.
      - destruct Hcase as [[Hp _]|(_ & _ & _ & _ & Hzone)];
          [rewrite Hp in Hnone; discriminate|].
        rewrite Hb5, Hzone.
        destruct (act_securityZone a) as [z|]; simpl;
          [|apply orb_true_r].
        destruct (String.eqb_spec z "Level 1 - Control");
          [subst z; exfalso; apply Hz; reflexivity|].
        apply orb_true_r. }
    rewrite Hb. split; [|reflexivity].
    clear - Hb. destruct b1, b2, b3, b4, b5; simpl in *;
      discriminate. }
  destruct Hv as [Hne Hsev].
  destruct Hr as [[He _]|[_ [t Hr]]]; [contradiction|].
  rewrite Hr in H. inversion H; subst st' c'; clear H. simpl.
  eexists. split; [apply in_or_app; right; left; reflexivity|].
  simpl. split; [reflexivity|exact Hsev].
Qed.

Lemma drift_loop_flags (rows : list ActualState) :
  forall (st st' : DriftLoop) (w : World) (c c' : Counters) (a : ActualState),
    drift_loop st rows w c = Ok (st', c') ->
    In a rows ->
    (exists s, act_status a = Some s /\ lower s <> "running") \/
    (dict_get gitops_configs (act_name a) = None /\
     act_securityZone a <> Some "Level 1 - Control") ->
    exists r, In r (drift_records st') /\
              assetName r = act_name a /\ driftStatus r = "critical".
Proof.
  induction rows as [|b rows IH]; intros st st' w c c' a H Hin Hflag;
    [contradiction|].
  simpl in H. unfold bind in H.
  destruct (drift_step st b w c) as [[st1 c1]| |] eqn:Hstep; try discriminate.
  destruct Hin as [->|Hin].
  - destruct (drift_step_flags _ _ _ _ _ _ Hstep Hflag) as [r [Hr Hrest]].
    exists r. split; [|exact Hrest].
    eapply drift_loop_grows; eassumption.
  - eapply IH; eassumption.
Qed.

Lemma calculate_drift_records (E : Engine) (g : Graph) (w : World)
    (c c' : Counters) (rep : DriftReport) :
  calculate_drift E g w c = Ok (rep, c') ->
  exists st c1,
    drift_loop (mkDriftLoop [] 0 0) (actual_query E g) w c = Ok (st, c1) /\
    driftList rep = drift_records st.
Proof.
  intros H. apply calculate_drift_loop in H.
  destruct H as (st & c1 & Hl & _ & _ & _ & _ & Hd). eauto.
Qed.

(** X16.  Every intended configuration says [running], so an asset the
    query hands over whose status is anything else (compared without
    regard to case) is in the drift list of every report, with drift status
    critical, whatever the random draws. *)
Theorem not_running_always_critical (E : Engine) (g : Graph) (w : World)
    (c c' : Counters) (rep : DriftReport) (a : ActualState) (s : string) :
  calculate_drift E g w c = Ok (rep, c') ->
  In a (actual_query E g) ->
  act_status a = Some s ->
  lower s <> "running" ->
  exists r, In r (driftList rep) /\
            assetName r = act_name a /\ driftStatus r = "critical".
Proof.
  intros H Hin Hs Hne. apply calculate_drift_records in H.
  destruct H as (st & c1 & Hl & ->).
  eapply drift_loop_flags; [exact Hl|exact Hin|].
  left. exists s. auto.
Qed.

Lemma not_running_always_critical_witness :
  exists r,
    In r (driftList
            (mkDriftReport 50 1 49 1
               [mkDriftRecord "PLC-001" "PLC" "critical" 1
                  [mkFieldDrift "status" (Some "running") (Some "warning")
                     "high"]
                  "github.com/factory/plc-configs"
                  "plcs/assembly-line-1/plc-001.yaml" "abc123" (Instant 0)
                  [mkDriftAction "investigate_failure"
                     "Investigate Asset Failure"
                     "Asset status drifted to warning. Run RCA to identify root cause."
                     "critical" false]]
               (Instant 1))) /\
    assetName r = "PLC-001" /\ driftStatus r = "critical".
Proof.
  apply (not_running_always_critical first_match_engine
           (mkGraph [plc_warning] []) zero_world (mkCounters 0 0)
           (mkCounters 0 2) _ (actual_state plc_warning) "warning").
  - reflexivity.
  - left. reflexivity.
  - reflexivity.
  - vm_compute. discriminate.
Defined.

(** X17.  An asset without a predefined configuration is compared with a
    generated one that always says [Level 1 - Control]; if the asset is in
    another zone, or has none, it is in the drift list of every report as
    critical, whatever the random draws. *)
Theorem unlisted_outside_level1_always_critical (E : Engine) (g : Graph)
    (w : World) (c c' : Counters) (rep : DriftReport) (a : ActualState) :
  calculate_drift E g w c = Ok (rep, c') ->
  In a (actual_query E g) ->
  dict_get gitops_configs (act_name a) = None ->
  act_securityZone a <> Some "Level 1 - Control" ->
  exists r, In r (driftList rep) /\
            assetName r = act_name a /\ driftStatus r = "critical".
Proof.
  intros H Hin Hd Hz. apply calculate_drift_records in H.
  destruct H as (st & c1 & Hl & ->).
  eapply drift_loop_flags; [exact Hl|exact Hin|].
  right. auto.
Qed.

Lemma unlisted_outside_level1_always_critical_witness :
  exists rep c',
    calculate_drift first_match_engine
      (mkGraph [plain_asset "Pump-7" "Pump" (Some "running")] []) zero_world
      (mkCounters 0 0) = Ok (rep, c') /\
    exists r, In r (driftList rep) /\
              assetName r = "Pump-7" /\ driftStatus r = "critical".
Proof.
  eexists. eexists. split; [reflexivity|].
  apply (unlisted_outside_level1_always_critical first_match_engine
           (mkGraph [plain_asset "Pump-7" "Pump" (Some "running")] [])
           zero_world (mkCounters 0 0) _ _
           (actual_state (plain_asset "Pump-7" "Pump" (Some "running")))
           eq_refl).
  - left. reflexivity.
  - reflexivity.
  - discriminate.
Defined.

(** ** Critical paths: what a reported asset looks like *)

Lemma distinct_incl {A : Type} (eqb : A -> A -> bool) (l : list A) (x : A) :
  In x (distinct eqb l) -> In x l.
Proof.
  induction l as [|y l IH]; simpl; [tauto|].
  intros [H|H]; [now left|]. apply filter_In in H. right. tauto.
Qed.

Lemma distinct_NoDup_refl {A : Type} (eqb : A -> A -> bool) (l : list A) :
  (forall x, eqb x x = true) -> NoDup (distinct eqb l).
Proof.
  intros Hrefl. induction l as [|y l IH]; simpl; constructor.
  - rewrite filter_In, Hrefl. simpl. intros [_ H]. discriminate.
  - now apply NoDup_filter.
Qed.

Lemma dep_eqb_refl (x : string * string * option string) : dep_eqb x x = true.
Proof.
  unfold dep_eqb. now rewrite !String.eqb_refl, opt_eqb_refl.
Qed.

Lemma dependents_nodes (E : Engine) (g : Graph) (c j : nat) :
  In j (dependents E g c) -> j < length (nodes g).
Proof.
  unfold dependents. rewrite in_flat_map. intros [p [_ Hj]].
  destruct (path_end p) as [k|]; [|contradiction].
  destruct (get_node g k) eqn:Hk; [|contradiction].
  destruct Hj as [<-|[]]. apply nth_error_Some. unfold get_node in Hk.
  rewrite Hk. discriminate.
Qed.

Lemma dependent_count_le_nodes (E : Engine) (g : Graph) (c : nat) :
  dependent_count E g c <= length (nodes g).
Proof.
  unfold dependent_count.
  rewrite <- (length_seq (length (nodes g)) 0).
  apply NoDup_incl_length; [apply distinct_NoDup|].
  intros j Hj. apply distinct_In, dependents_nodes in Hj.
  apply in_seq. lia.
Qed.

Lemma assets_of_In (g : Graph) (ids : list nat) (a : Asset) :
  In a (assets_of g ids) <-> exists j, In j ids /\ get_node g j = Some a.
Proof.
  unfold assets_of. rewrite in_flat_map. split.
  - intros [j [Hj Ha]]. exists j. split; [exact Hj|].
    destruct (get_node g j); [|contradiction].
    destruct Ha as [->|[]]. reflexivity.
  - intros [j [Hj Ha]]. exists j. split; [exact Hj|]. rewrite Ha. now left.
Qed.

(** The listed dependencies are distinct triples, at least one when there
    is a dependent, and no more than there are dependents. *)
Lemma dependencies_bounded (E : Engine) (g : Graph) (c : nat * Asset) :
  let r := critical_path_row E g c in
  NoDup (dependencies r) /\
  length (dependencies r) <= dependentCount r /\
  (0 < dependentCount r -> 0 < length (dependencies r)).
Proof.
  simpl. split; [apply distinct_NoDup_refl, dep_eqb_refl|]. split.
  - set (f := fun j => match get_node g j with
                       | Some d => (name d, type d, status d)
                       | None => ("", "", None)
                       end).
    unfold dependent_count.
    rewrite <- (length_map f (distinct Nat.eqb (dependents E g (fst c)))).
    apply NoDup_incl_length; [apply distinct_NoDup_refl, dep_eqb_refl|].
    intros x Hx. apply distinct_incl, in_map_iff in Hx.
    destruct Hx as [d [<- Hd]]. apply assets_of_In in Hd.
    destruct Hd as [j [Hj Hn]]. apply in_map_iff. exists j. split.
    + unfold f. now rewrite Hn.
    + now apply distinct_In.
  - unfold dependent_count.
    destruct (dependents E g (fst c)) as [|j l] eqn:Hdeps; simpl; [lia|].
    intros _.
    assert (Hj : j < length (nodes g)).
    { apply (dependents_nodes E g (fst c)). rewrite Hdeps. now left. }
    apply nth_error_Some in Hj. unfold get_node.
    destruct (nth_error (nodes g) j); [|contradiction]. simpl. lia.
Qed.

(** X18.  Every asset [analyze_critical_paths] reports is flagged as a
    single point of failure; its [dependentCount] cannot exceed the number
    of assets of the snapshot; its listed dependencies are distinct
    (name, type, status) triples, at least one and at most [dependentCount]
    of them; and its score lies between [dependentCount] and
    [dependentCount + 15]. *)
Theorem critical_path_entry_bounds (E : Engine) (g : Graph) (r : CriticalPath) :
  In r (analyze_critical_paths E g) ->
  isSPOF r = true /\
  dependentCount r <= length (nodes g) /\
  NoDup (dependencies r) /\
  1 <= length (dependencies r) <= dependentCount r /\
  dependentCount r <= criticalityScore r <= dependentCount r + 15.
Proof.
  intros H. unfold analyze_critical_paths, limit in H.
  apply firstn_incl, order_by_In, significant_rows_In in H.
  destruct H as (i & a & _ & _ & -> & Hc).
  destruct (dependencies_bounded E g (i, a)) as [Hnd [Hle Hpos]].
  split; [reflexivity|]. split; [apply dependent_count_le_nodes|].
  split; [exact Hnd|]. split.
  - split; [apply Hpos; simpl; lia|exact Hle].
  - simpl. unfold criticality_score.
    destruct (str_in (type a) _), (opt_in (status a) _); lia.
Qed.

Lemma critical_path_entry_bounds_witness :
  exists r,
    In r (analyze_critical_paths first_match_engine two_hubs_graph) /\
    isSPOF r = true /\
    dependentCount r <= length (nodes two_hubs_graph) /\
    NoDup (dependencies r) /\
    1 <= length (dependencies r) <= dependentCount r /\
    dependentCount r <= criticalityScore r <= dependentCount r + 15.
Proof.
  assert (H : exists r, In r (analyze_critical_paths first_match_engine
                                two_hubs_graph)).
  { eexists. left. reflexivity. }
  destruct H as [r Hr]. exists r. split; [exact Hr|].
  apply (critical_path_entry_bounds first_match_engine two_hubs_graph r Hr).
Defined.

(** X19.  A snapshot of at most three assets has no critical path: no
    asset can have more than three dependents there. *)
Theorem small_snapshot_has_no_critical_path (E : Engine) (g : Graph) :
  length (nodes g) <= 3 -> analyze_critical_paths E g = [].
Proof.
  intros Hn. unfold analyze_critical_paths.
  assert (Hs : significant_rows E g = []).
  { destruct (significant_rows E g) as [|r l] eqn:Hr; [reflexivity|].
    assert (Hin : In r (significant_rows E g)) by (rewrite Hr; now left).
    apply significant_rows_In in Hin. destruct Hin as (i & a & _ & _ & _ & Hc).
    pose proof (dependent_count_le_nodes E g i). lia. }
  rewrite Hs. reflexivity.
Qed.

Lemma small_snapshot_has_no_critical_path_witness :
  length (nodes scenario_graph) <= 3 /\
  analyze_critical_paths first_match_engine scenario_graph = [].
Proof.
  assert (H : length (nodes scenario_graph) <= 3) by (simpl; lia).
  split; [exact H|].
  exact (small_snapshot_has_no_critical_path first_match_engine scenario_graph
           H).
Defined.

(** ** Zones and teams *)

Ltac by_type t :=
  repeat match goal with
         | |- context [String.eqb t ?s] =>
             destruct (String.eqb_spec t s);
             [subst t; vm_compute;
              repeat split; intros; try reflexivity; try discriminate;
              auto 10|]
         end.

(** X20.  The zone assigned to an asset type is one of six; the zone
    argument of [get_team_ownership] plays no part in its answer; types of
    Level 0 are exactly those of the IoT team, types of Level 3 exactly
    those of the data platform team, the automation team only has types of
    Level 1, and a type without a zone goes to general maintenance unless it
    is SCADA. *)
Theorem zone_and_team_by_type (t z : string) :
  In (get_default_zone t)
     ["Level 0 - Process"; "Level 1 - Control"; "Level 2 - Supervisory";
      "Level 3 - Operations"; "Level 4 - Enterprise"; "Unassigned"] /\
  get_team_ownership t z = get_team_ownership t "" /\
  (get_default_zone t = "Level 0 - Process" <->
   team (get_team_ownership t z) = "IoT & Sensor Operations") /\
  (get_default_zone t = "Level 3 - Operations" <->
   team (get_team_ownership t z) = "Data Platform Engineering") /\
  (team (get_team_ownership t z) = "Automation & Robotics" ->
   get_default_zone t = "Level 1 - Control") /\
  (team (get_team_ownership t z) = "General Maintenance & Operations" ->
   get_default_zone t = "Unassigned") /\
  (get_default_zone t = "Unassigned" ->
   team (get_team_ownership t z) = "General Maintenance & Operations" \/
   t = "SCADA").
Proof.
  unfold get_default_zone, get_team_ownership, str_in, existsb.
  by_type t.
  vm_compute. repeat split; intros; try reflexivity; try discriminate;
    auto 10.
Qed.

(** ** Zone health *)

Lemma count_snoc {A : Type} (p : A -> bool) (l : list A) (a : A) :
  length (filter p (l ++ [a]))
  = length (filter p l) + (if p a then 1 else 0).
Proof.
  rewrite filter_app, length_app. simpl. destruct (p a); reflexivity.
Qed.

Lemma filter_perm_length {A : Type} (p : A -> bool) (l l' : list A) :
  Permutation l l' -> length (filter p l) = length (filter p l').
Proof.
  induction 1 as [|x l l' _ IH|x y l|l l' l'' _ IH1 _ IH2]; simpl.
  - reflexivity.
  - destruct (p x); simpl; congruence.
  - destruct (p x), (p y); reflexivity.
  - congruence.
Qed.

Lemma list_sum_perm (l l' : list nat) :
  Permutation l l' -> list_sum l = list_sum l'.
Proof.
  induction 1 as [|x l l' _ IH|x y l|l l' l'' _ IH1 _ IH2]; simpl; lia.
Qed.

Ltac by_status s :=
  repeat match goal with
         | |- context [String.eqb s ?c] =>
             destruct (String.eqb_spec s c); [subst s; cbn; f_equal; lia|]
         end.

Lemma count_asset_summary (k : string) (l : list Asset) (a : Asset) :
  in_zone k a = true ->
  count_asset (status a) (zone_summary k l) = zone_summary k (l ++ [a]).
Proof.
  intros H. unfold zone_summary, count_asset. rewrite !count_snoc, H.
  cbn [zone_id zone_name zone_level zone_security zone_total zone_online
       zone_warning zone_offline zone_color andb].
  destruct (status a) as [s|]; cbn [opt_in str_in existsb].
  - by_status s. cbn. f_equal; lia.
  - f_equal; lia.
Qed.

Lemma zone_summary_unchanged (k : string) (l : list Asset) (a : Asset) :
  in_zone k a = false -> zone_summary k (l ++ [a]) = zone_summary k l.
Proof.
  intros H. unfold zone_summary. rewrite !count_snoc, H. cbn [andb].
  f_equal; lia.
Qed.

Lemma zone_summary_empty (k : string) (l : list Asset) :
  (forall a, In a l -> in_zone k a = false) -> zone_summary k l = new_zone k.
Proof.
  intros H. unfold zone_summary, new_zone.
  rewrite !filter_nil; [reflexivity| | | |]; intros a Ha;
    rewrite (H a Ha); reflexivity.
Qed.

Lemma zone_summary_perm (k : string) (l l' : list Asset) :
  Permutation l l' -> zone_summary k l = zone_summary k l'.
Proof.
  intros H. unfold zone_summary.
  now rewrite !(filter_perm_length _ l l' H).
Qed.

Lemma zone_summary_classes (k : string) (l : list Asset) :
  zone_online (zone_summary k l) + zone_warning (zone_summary k l)
  + zone_offline (zone_summary k l) <= zone_total (zone_summary k l).
Proof.
  unfold zone_summary. simpl.
  induction l as [|a l IH]; simpl; [lia|].
  destruct (in_zone k a); cbn [andb]; [|exact IH].
  destruct (status a) as [s|]; cbn [opt_in str_in existsb].
  - repeat match goal with
           | |- context [String.eqb s ?c] =>
               destruct (String.eqb_spec s c); [subst s; cbn; lia|]
           end.
    cbn. lia.
  - simpl. lia.
Qed.

Lemma dict_get_None {V : Type} (d : list (string * V)) (k : string) :
  dict_get d k = None <-> ~ In k (map fst d).
Proof.
  induction d as [|[k' v] d IH]; simpl; [tauto|].
  destruct (String.eqb_spec k' k) as [->|Hne].
  - split; [discriminate|]. intros H. exfalso. apply H. now left.
  - rewrite IH. tauto.
Qed.

Lemma dict_update_keys {V : Type} (d : list (string * V)) (k : string)
    (f : V -> V) :
  map fst (dict_update d k f) = map fst d.
Proof.
  induction d as [|[k' v] d IH]; simpl; [reflexivity|].
  destruct (String.eqb k' k); simpl; [reflexivity|]. now rewrite IH.
Qed.

Lemma dict_update_app_absent {V : Type} (d : list (string * V)) (k : string)
    (v : V) (f : V -> V) :
  dict_get d k = None ->
  dict_update (d ++ [(k, v)]) k f = d ++ [(k, f v)].
Proof.
  induction d as [|[k' v'] d IH]; simpl.
  - intros _. now rewrite String.eqb_refl.
  - destruct (String.eqb k' k); [discriminate|]. intros H. now rewrite IH.
Qed.

Lemma dict_update_In {V : Type} (d : list (string * V)) (k k' : string)
    (f : V -> V) (s : V) :
  NoDup (map fst d) ->
  In (k', s) (dict_update d k f) ->
  (k' <> k /\ In (k', s) d) \/
  (k' = k /\ exists v, In (k, v) d /\ s = f v).
Proof.
  induction d as [|[k1 v1] d IH]; simpl; [tauto|].
  intros Hnd Hin. inversion Hnd as [|? ? Hk1 Hnd']; subst.
  destruct (String.eqb_spec k1 k) as [->|Hne].
  - destruct Hin as [Heq|Hin].
    + inversion Heq; subst. right. split; [reflexivity|]. exists v1. auto.
    + left. split; [|now right]. intros ->. apply Hk1.
      change k with (fst (k, s)). now apply in_map.
  - destruct Hin as [Heq|Hin].
    + inversion Heq; subst. left. auto.
    + destruct (IH Hnd' Hin) as [[H1 H2]|[H1 [v [H2 H3]]]].
      * left. auto.
      * right. split; [exact H1|]. exists v. auto.
Qed.

Lemma zone_step_wf (d : list (string * ZoneStats)) (l : list Asset)
    (a : Asset) :
  zones_wf d l -> zones_wf (zone_step d a) (l ++ [a]).
Proof.
  intros (Hnd & Hkeys & Hent). unfold zone_step.
  set (k0 := get_default_zone (type a)).
  assert (Hin0 : in_zone k0 a = true) by apply String.eqb_refl.
  assert (Hother : forall k, k <> k0 -> in_zone k a = false).
  { intros k Hk. unfold in_zone. apply String.eqb_neq. fold k0. congruence. }
  destruct (dict_get d k0) as [v0|] eqn:Hget.
  - assert (Hk0 : In k0 (map fst d)).
    { apply dict_get_In in Hget. change k0 with (fst (k0, v0)).
      now apply in_map. }
    split; [now rewrite dict_update_keys|]. split.
    + intros k. rewrite dict_update_keys, Hkeys. split.
      * intros [b [Hb Hz]]. exists b. split; [|exact Hz].
        apply in_or_app. now left.
      * intros [b [Hb Hz]]. apply in_app_or in Hb.
        destruct Hb as [Hb|[<-|[]]]; [eauto|].
        apply Hkeys. now rewrite <- Hz.
    + intros k s Hin. apply dict_update_In in Hin; [|exact Hnd].
      destruct Hin as [[Hne Hin]|[-> [v [Hin ->]]]].
      * rewrite zone_summary_unchanged by now apply Hother. now apply Hent.
      * rewrite (Hent _ _ Hin). now apply count_asset_summary.
  - assert (Hk0 : ~ In k0 (map fst d)) by now apply dict_get_None.
    rewrite dict_update_app_absent by exact Hget.
    split; [|split].
    + rewrite map_app. simpl. apply NoDup_app; [exact Hnd|repeat constructor; auto|].
      intros x Hx [<-|[]]. contradiction.
    + intros k. rewrite map_app, in_app_iff, Hkeys. simpl. split.
      * intros [[b [Hb Hz]]|[<-|[]]].
        -- exists b. split; [apply in_or_app; now left|exact Hz].
        -- exists a. split; [apply in_or_app; right; now left|reflexivity].
      * intros [b [Hb Hz]]. apply in_app_or in Hb.
        destruct Hb as [Hb|[<-|[]]]; [left; eauto|right; left; exact Hz].
    + intros k s Hin. apply in_app_or in Hin.
      destruct Hin as [Hin|[Heq|[]]].
      * assert (Hne : k <> k0).
        { intros ->. apply Hk0. change k0 with (fst (k0, s)).
          now apply in_map. }
        rewrite zone_summary_unchanged by now apply Hother. now apply Hent.
      * inversion Heq; subst k s.
        rewrite <- (zone_summary_empty k0 l).
        -- now apply count_asset_summary.
        -- intros b Hb. unfold in_zone. apply String.eqb_neq. intros Hz.
           apply Hk0, Hkeys. eauto.
Qed.

Lemma zone_fold_wf (l : list Asset) :
  forall (d : list (string * ZoneStats)) (l0 : list Asset),
    zones_wf d l0 -> zones_wf (fold_left zone_step l d) (l0 ++ l).
Proof.
  induction l as [|a l IH]; intros d l0 H; simpl.
  - now rewrite app_nil_r.
  - change (a :: l) with ([a] ++ l). rewrite app_assoc.
    apply IH. now apply zone_step_wf.
Qed.

Lemma zones_wf_scan (P : Planner) (g : Graph) :
  zones_wf (fold_left zone_step (scan P (nodes g)) []) (scan P (nodes g)).
Proof.
  apply (zone_fold_wf _ [] []). split; [constructor|]. split.
  - intros k. simpl. split; [tauto|]. intros [a [[] _]].
  - intros k s [].
Qed.

Lemma get_default_zone_range (t : string) :
  In (get_default_zone t)
     ["Level 0 - Process"; "Level 1 - Control"; "Level 2 - Supervisory";
      "Level 3 - Operations"; "Level 4 - Enterprise"; "Unassigned"].
Proof.
  unfold get_default_zone.
  repeat match goal with
         | |- context [str_in t ?l] => destruct (str_in t l)
         end; simpl; auto 10.
Qed.

Lemma paint_zone_name (kv : string * ZoneStats) :
  zone_name (snd (paint_zone kv)) = zone_name (snd kv).
Proof. unfold paint_zone. destruct (dict_get zone_colors (fst kv)); reflexivity. Qed.

Lemma paint_zone_total (kv : string * ZoneStats) :
  zone_total (snd (paint_zone kv)) = zone_total (snd kv).
Proof. unfold paint_zone. destruct (dict_get zone_colors (fst kv)); reflexivity. Qed.

Lemma zones_names (d : list (string * ZoneStats)) (l : list Asset) :
  zones_wf d l -> map zone_name (map snd (map paint_zone d)) = map fst d.
Proof.
  intros (_ & _ & Hent). rewrite !map_map. apply map_ext_in.
  intros [k s] Hin. rewrite paint_zone_name. simpl.
  now rewrite (Hent k s Hin).
Qed.

(** The entries of the report: one for each zone that has an asset, with
    the counts taken over the whole snapshot. *)
Lemma get_zones_In (P : Planner) (g : Graph) (z : ZoneStats) :
  In z (get_zones P g) <->
  exists k, (exists a, In a (nodes g) /\ get_default_zone (type a) = k) /\
            z = snd (paint_zone (k, zone_summary k (nodes g))).
Proof.
  unfold get_zones. rewrite order_by_In, map_map, in_map_iff.
  destruct (zones_wf_scan P g) as (Hnd & Hkeys & Hent).
  pose proof (scan_perm P _ (nodes g)) as Hperm.
  split.
  - intros [[k s] [<- Hin]]. exists k. split.
    + assert (Hk : In k (map fst (fold_left zone_step (scan P (nodes g)) []))).
      { change k with (fst (k, s)). now apply in_map. }
      apply Hkeys in Hk. destruct Hk as [a [Ha Hz]]. exists a.
      split; [|exact Hz]. eapply Permutation_in; eassumption.
    + rewrite (Hent k s Hin).
      now rewrite (zone_summary_perm k _ _ Hperm).
  - intros [k [[a [Ha Hz]] ->]].
    assert (Hk : In k (map fst (fold_left zone_step (scan P (nodes g)) []))).
    { apply Hkeys. exists a. split; [|exact Hz].
      eapply Permutation_in; [apply Permutation_sym|]; eassumption. }
    apply in_map_iff in Hk. destruct Hk as [[k' s] [Hfst Hin]].
    simpl in Hfst. subst k'. exists (k, s). split; [|exact Hin].
    rewrite (Hent k s Hin). now rewrite (zone_summary_perm k _ _ Hperm).
Qed.

Lemma filter_length_pos {A : Type} (p : A -> bool) (l : list A) (a : A) :
  In a l -> p a = true -> 1 <= length (filter p l).
Proof.
  intros Hin Hp.
  assert (H : In a (filter p l)) by (apply filter_In; auto).
  destruct (filter p l); [contradiction|simpl; lia].
Qed.

(** X21.  Every entry of the zone report is for one of the six zones and
    carries that zone's colour and security level; its total is the number
    of assets of the snapshot whose type belongs to the zone, at least one,
    and its online, warning and offline counts are the numbers of those in
    status running or online, warning or degraded, offline or error, so
    that together they never exceed the total. *)
Theorem zone_entry_counts (P : Planner) (g : Graph) (z : ZoneStats) :
  In z (get_zones P g) ->
  zone_id z = None /\
  zone_level z = zone_name z /\
  In (zone_name z)
     ["Level 0 - Process"; "Level 1 - Control"; "Level 2 - Supervisory";
      "Level 3 - Operations"; "Level 4 - Enterprise"; "Unassigned"] /\
  dict_get zone_colors (zone_name z) = Some (zone_color z, zone_security z) /\
  zone_total z = length (filter (in_zone (zone_name z)) (nodes g)) /\
  zone_online z
  = length (filter (fun a => in_zone (zone_name z) a
                             && opt_in (status a) ["running"; "online"])
                   (nodes g)) /\
  zone_warning z
  = length (filter (fun a => in_zone (zone_name z) a
                             && opt_in (status a) ["warning"; "degraded"])
                   (nodes g)) /\
  zone_offline z
  = length (filter (fun a => in_zone (zone_name z) a
                             && opt_in (status a) ["offline"; "error"])
                   (nodes g)) /\
  1 <= zone_total z /\
  zone_online z + zone_warning z + zone_offline z <= zone_total z.
Proof.
  intros H. apply get_zones_In in H. destruct H as [k [[a [Ha Hz]] ->]].
  pose proof (zone_summary_classes k (nodes g)) as Hcl.
  assert (Hpos : 1 <= zone_total (zone_summary k (nodes g))).
  { simpl. apply filter_length_pos with a; [exact Ha|].
    unfold in_zone. rewrite Hz. apply String.eqb_refl. }
  pose proof (get_default_zone_range (type a)) as Hr. rewrite Hz in Hr.
  simpl in Hr.
  repeat (destruct Hr as [<-|Hr];
          [repeat split; solve [reflexivity | simpl; auto 10
                                | exact Hpos | exact Hcl]|]).
  contradiction.
Qed.

Lemma zone_entry_counts_witness :
  exists z,
    In z (get_zones forward_planner scenario_graph) /\
    zone_name z = "Level 1 - Control" /\ zone_total z = 2 /\
    zone_offline z = 2 /\
    zone_online z + zone_warning z + zone_offline z <= zone_total z.
Proof.
  assert (H : exists z, In z (get_zones forward_planner scenario_graph) /\
                        zone_name z = "Level 1 - Control").
  { eexists. split; [left; reflexivity|reflexivity]. }
  destruct H as [z [Hin Hname]]. exists z. split; [exact Hin|].
  split; [exact Hname|].
  destruct (zone_entry_counts forward_planner scenario_graph z Hin)
    as (_ & _ & _ & _ & Ht & _ & _ & Ho & _ & Hle).
  rewrite Hname in Ht, Ho. split; [exact Ht|]. split; [exact Ho|exact Hle].
Defined.

Lemma zone_asc_total (a b : ZoneStats) :
  zone_asc a b = false -> zone_asc b a = true.
Proof.
  unfold zone_asc. rewrite (String.compare_antisym (zone_name b)).
  destruct (String.compare (zone_name a) (zone_name b)); simpl;
    try discriminate; auto.
Qed.

Lemma zone_asc_trans (a b c : ZoneStats) :
  zone_asc a b = true -> zone_asc b c = true -> zone_asc a c = true.
Proof.
  unfold zone_asc.
  destruct (String.compare (zone_name a) (zone_name b)) eqn:Hab;
    try discriminate;
    destruct (String.compare (zone_name b) (zone_name c)) eqn:Hbc;
    try discriminate; intros _ _.
  - apply string_compare_eq in Hab, Hbc. rewrite Hab, Hbc.
    now rewrite string_compare_refl.
  - apply string_compare_eq in Hab. now rewrite Hab, Hbc.
  - apply string_compare_eq in Hbc. now rewrite <- Hbc, Hab.
  - now rewrite (string_compare_lt_trans _ _ _ Hab Hbc).
Qed.

(** Two sorted arrangements of the same rows are the same list when no two
    rows tie. *)
Lemma sorted_perm_unique {A : Type} (R : A -> A -> Prop) (l1 : list A) :
  forall l2,
    StronglySorted R l1 -> StronglySorted R l2 -> Permutation l1 l2 ->
    (forall x y, In x l1 -> In y l1 -> R x y -> R y x -> x = y) ->
    l1 = l2.
Proof.
  induction l1 as [|x l1 IH]; intros l2 H1 H2 Hp Hanti.
  - apply Permutation_nil in Hp. now subst.
  - destruct l2 as [|y l2];
      [apply Permutation_sym, Permutation_nil in Hp; discriminate|].
    inversion H1 as [|? ? H1' Hx]; subst.
    inversion H2 as [|? ? H2' Hy]; subst.
    rewrite Forall_forall in Hx, Hy.
    assert (Hxy : x = y).
    { assert (Hx2 : In x (y :: l2))
        by (eapply Permutation_in; [exact Hp|now left]).
      assert (Hy1 : In y (x :: l1))
        by (eapply Permutation_in; [apply Permutation_sym, Hp|now left]).
      destruct Hx2 as [Heq|Hx2]; [now symmetry|].
      destruct Hy1 as [Heq|Hy1]; [exact Heq|].
      apply Hanti; [now left|now right|now apply Hx|now apply Hy]. }
    subst y. f_equal. apply IH; auto.
    + now apply Permutation_cons_inv with x.
    + intros a b Ha Hb. apply Hanti; now right.
Qed.

Lemma sorted_strict (l : list ZoneStats) :
  StronglySorted (fun a b => zone_asc a b = true) l ->
  NoDup (map zone_name l) ->
  StronglySorted
    (fun a b => String.compare (zone_name a) (zone_name b) = Lt) l.
Proof.
  induction 1 as [|x l Hl IH Hx]; intros Hnd; constructor.
  - apply IH. now inversion Hnd.
  - rewrite Forall_forall in *. intros y Hy. specialize (Hx y Hy).
    unfold zone_asc in Hx.
    destruct (String.compare (zone_name x) (zone_name y)) eqn:Hc;
      [|reflexivity|discriminate].
    apply string_compare_eq in Hc. inversion Hnd as [|? ? Hnx _]; subst.
    exfalso. apply Hnx. rewrite Hc. now apply in_map.
Qed.

Lemma list_sum_map_add {A : Type} (f h : A -> nat) (l : list A) :
  list_sum (map (fun k => f k + h k) l)
  = list_sum (map f l) + list_sum (map h l).
Proof. induction l as [|x l IH]; simpl; lia. Qed.

Lemma list_sum_all_zero (l : list nat) :
  (forall n, In n l -> n = 0) -> list_sum l = 0.
Proof.
  induction l as [|x l IH]; simpl; intros H; [reflexivity|].
  rewrite (H x) by now left. apply IH. intros n Hn. apply H. now right.
Qed.

Lemma one_zone_per_asset (keys : list string) (a : Asset) :
  NoDup keys -> In (get_default_zone (type a)) keys ->
  list_sum (map (fun k => if in_zone k a then 1 else 0) keys) = 1.
Proof.
  induction keys as [|k keys IH]; intros Hnd Hin; [contradiction|].
  inversion Hnd as [|? ? Hk Hnd']; subst. simpl. unfold in_zone at 1.
  destruct (String.eqb_spec (get_default_zone (type a)) k) as [<-|Hne].
  - rewrite list_sum_all_zero; [reflexivity|].
    intros n Hn. apply in_map_iff in Hn. destruct Hn as [k [<- Hk']].
    unfold in_zone.
    destruct (String.eqb_spec (get_default_zone (type a)) k) as [<-|_];
      [contradiction|reflexivity].
  - destruct Hin as [Heq|Hin]; [symmetry in Heq; contradiction|].
    now apply IH.
Qed.

Lemma zone_totals_partition (keys : list string) (l : list Asset) :
  NoDup keys ->
  (forall a, In a l -> In (get_default_zone (type a)) keys) ->
  list_sum (map (fun k => length (filter (in_zone k) l)) keys) = length l.
Proof.
  intros Hnd. induction l as [|a l IH]; intros Hcov; simpl.
  - apply list_sum_all_zero. intros n Hn. apply in_map_iff in Hn.
    now destruct Hn as [k [<- _]].
  - rewrite (map_ext
               (fun k => length (if in_zone k a then a :: filter (in_zone k) l
                                 else filter (in_zone k) l))
               (fun k => (if in_zone k a then 1 else 0)
                         + length (filter (in_zone k) l)))
      by (intros k; destruct (in_zone k a); reflexivity).
    rewrite list_sum_map_add, one_zone_per_asset, IH; auto.
    + intros b Hb. apply Hcov. now right.
    + apply Hcov. now left.
Qed.

(** X22.  The zone report is sorted by zone name without repetition, so
    it has at most six entries; the totals of its entries add up to the
    number of assets of the snapshot; and the whole report is the same
    whatever the order in which the query hands the assets over. *)
Theorem zone_report_sorted_and_order_free (P : Planner) (g : Graph) :
  StronglySorted
    (fun a b => String.compare (zone_name a) (zone_name b) = Lt)
    (get_zones P g) /\
  length (get_zones P g) <= 6 /\
  list_sum (map zone_total (get_zones P g)) = length (nodes g) /\
  forall P' : Planner, get_zones P' g = get_zones P g.
Proof.
  assert (Hnames : forall Q : Planner, NoDup (map zone_name (get_zones Q g))).
  { intros Q. unfold get_zones.
    eapply Permutation_NoDup;
      [apply Permutation_map, Permutation_sym, order_by_perm|].
    rewrite (zones_names _ _ (zones_wf_scan Q g)).
    apply (zones_wf_scan Q g). }
  assert (Hsorted : forall Q : Planner,
             StronglySorted (fun a b => zone_asc a b = true) (get_zones Q g)).
  { intros Q. unfold get_zones.
    apply order_by_sorted; [apply zone_asc_total|apply zone_asc_trans]. }
  split; [apply sorted_strict; auto|]. split; [|split].
  - rewrite <- (length_map zone_name).
    change 6 with (length ["Level 0 - Process"; "Level 1 - Control";
                           "Level 2 - Supervisory"; "Level 3 - Operations";
                           "Level 4 - Enterprise"; "Unassigned"]).
    apply NoDup_incl_length; [apply Hnames|].
    intros k Hk. apply in_map_iff in Hk. destruct Hk as [z [<- Hz]].
    apply get_zones_In in Hz. destruct Hz as [k [[a [_ Hz]] ->]].
    rewrite paint_zone_name. simpl. rewrite <- Hz.
    apply get_default_zone_range.
  - unfold get_zones.
    rewrite (list_sum_perm _ _
               (Permutation_map zone_total (order_by_perm zone_asc _))).
    destruct (zones_wf_scan P g) as (Hnd & Hkeys & Hent).
    rewrite !map_map.
    rewrite (map_ext_in _
               (fun kv => length (filter (in_zone (fst kv))
                                         (scan P (nodes g))))).
    + rewrite <- (map_map fst
                    (fun k => length (filter (in_zone k) (scan P (nodes g))))).
      rewrite zone_totals_partition; [|exact Hnd|].
      * apply Permutation_length, scan_perm.
      * intros a Ha. apply Hkeys. eauto.
    + intros [k s] Hin. rewrite paint_zone_total. simpl.
      now rewrite (Hent k s Hin).
  - intros P'. apply sorted_perm_unique
      with (R := fun a b => zone_asc a b = true); auto.
    + apply NoDup_Permutation.
      * eapply NoDup_map_inv, Hnames.
      * eapply NoDup_map_inv, Hnames.
      * intros z. now rewrite !get_zones_In.
    + intros x y Hx Hy Hxy Hyx.
      assert (Hn : zone_name x = zone_name y).
      { unfold zone_asc in Hxy, Hyx.
        rewrite (String.compare_antisym (zone_name y)) in Hyx.
        destruct (String.compare (zone_name x) (zone_name y)) eqn:Hc;
          try discriminate.
        now apply string_compare_eq. }
      apply get_zones_In in Hx, Hy.
      destruct Hx as [kx [_ ->]]. destruct Hy as [ky [_ ->]].
      rewrite !paint_zone_name in Hn. simpl in Hn. now subst.
Qed.

(** ** Network path failures *)

Lemma expand_In (P : Planner) (c : nat) {A : Type} (l : list A) (x : A) :
  In x (expand P c l) <-> In x l.
Proof.
  split; apply Permutation_in;
    [apply expand_perm | apply Permutation_sym, expand_perm].
Qed.

Lemma scan_In (P : Planner) {A : Type} (l : list A) (x : A) :
  In x (scan P l) <-> In x l.
Proof.
  split; apply Permutation_in;
    [apply scan_perm | apply Permutation_sym, scan_perm].
Qed.

Lemma StronglySorted_weaken {A : Type} (R R' : A -> A -> Prop) (l : list A) :
  (forall x y, R x y -> R' x y) -> StronglySorted R l -> StronglySorted R' l.
Proof.
  intros H. induction 1 as [|x l _ IH Hx]; constructor; [exact IH|].
  eapply Forall_impl; [|exact Hx]. intros y. apply H.
Qed.

Lemma distinct_head {A : Type} (eqb : A -> A -> bool) (l : list A) :
  l <> [] -> 1 <= length (distinct eqb l).
Proof. destruct l; [congruence|]. simpl. lia. Qed.

Lemma optional_rows_not_nil {A : Type} (null_row : A) (l : list A) :
  optional_rows null_row l <> [].
Proof. destruct l; discriminate. Qed.

Lemma optional_rows_In {A : Type} (null_row : A) (l : list A) (x : A) :
  In x (optional_rows null_row l) <-> (l = [] /\ x = null_row) \/ In x l.
Proof.
  destruct l as [|y l]; simpl.
  - split; [intros [<-|[]]; auto|intros [[_ ->]|[]]; auto].
  - split; [auto|]. intros [[H _]|H]; [discriminate|exact H].
Qed.

Lemma iso_eqb_refl (x : IsolatedDevice) : iso_eqb x x = true.
Proof. unfold iso_eqb. now rewrite !opt_eqb_refl. Qed.

(** The devices matched out of [c]: the assets in status offline,
    unreachable or error in which a path of one to three CONNECTS_TO
    relationships out of [c] ends. *)
Lemma isolated_matches_In (P : Planner) (g : Graph) (c : nat)
    (x : IsolatedDevice) :
  In x (isolated_matches P g c) <->
  exists p j a,
    is_trail 3 (indexed (edges g)) ["CONNECTS_TO"] [] p /\
    path_start p = Some c /\ path_end p = Some j /\
    get_node g j = Some a /\
    opt_in (status a) ["offline"; "unreachable"; "error"] = true /\
    x = mkIsolatedDevice (Some (name a)) (Some (type a)) (status a).
Proof.
  unfold isolated_matches. rewrite in_flat_map. split.
  - intros [p [Hp Hx]]. apply expand_In, trails_from_iff in Hp.
    destruct Hp as [Ht Hs]. unfold end_asset in Hx.
    destruct (path_end p) as [j|] eqn:He; [|contradiction].
    destruct (get_node g j) as [a|] eqn:Hn; [|contradiction].
    simpl in Hx.
    destruct (opt_in (status a) _) eqn:Hst; [|contradiction].
    destruct Hx as [<-|[]]. exists p, j, a. auto 10.
  - intros (p & j & a & Ht & Hs & He & Hn & Hst & ->). exists p. split.
    + apply expand_In, trails_from_iff. auto.
    + unfold end_asset. rewrite He, Hn. simpl. rewrite Hst. now left.
Qed.

Lemma network_rows_In (P : Planner) (g : Graph) (r : NetworkFailure) :
  In r (analyze_network_path_failures P g) ->
  exists i a, get_node g i = Some a /\ network_failed a = true /\
              r = network_failure_row P g (i, a).
Proof.
  unfold analyze_network_path_failures, limit, failed_network_devices.
  intros H. apply firstn_incl, order_by_In, in_map_iff in H.
  destruct H as [[i a] [<- Hin]].
  apply scan_In, filter_In in Hin. destruct Hin as [Hin Hf].
  apply indexed_In in Hin. exists i, a. auto.
Qed.

Lemma isolated_desc_total (a b : NetworkFailure) :
  isolated_desc a b = false -> isolated_desc b a = true.
Proof.
  unfold isolated_desc. rewrite Nat.leb_gt, Nat.leb_le. lia.
Qed.

Lemma isolated_desc_trans (a b c : NetworkFailure) :
  isolated_desc a b = true -> isolated_desc b c = true ->
  isolated_desc a c = true.
Proof. unfold isolated_desc. rewrite !Nat.leb_le. lia. Qed.

(** ** Blast radius *)

Lemma distinct_complete {A : Type} (eqb : A -> A -> bool) (l : list A)
    (x : A) :
  (forall a b, eqb a b = true -> a = b) ->
  In x l -> In x (distinct eqb l).
Proof.
  intros Heq. induction l as [|y l IH]; simpl; [tauto|].
  intros [->|Hin]; [now left|].
  destruct (eqb y x) eqn:Hyx.
  - left. now apply Heq.
  - right. apply filter_In. split; [now apply IH|]. now rewrite Hyx.
Qed.

Lemma opt_eqb_eq (x y : option string) : opt_eqb x y = true -> x = y.
Proof.
  destruct x, y; simpl; try discriminate; auto.
  intros H. apply String.eqb_eq in H. now subst.
Qed.











(** ** Dependencies and downstream impact *)

Lemma flat_map_length_le {A B : Type} (f : A -> list B) (l : list A) :
  (forall x, length (f x) <= 1) -> length (flat_map f l) <= length l.
Proof.
  intros H. induction l as [|x l IH]; simpl; [lia|].
  rewrite length_app. specialize (H x). lia.
Qed.

Lemma dependency_of_length (g : Graph) (e : Edge) :
  length (dependency_of g e) <= 1.
Proof.
  unfold dependency_of.
  destruct (get_node g (src e)), (get_node g (dst e));
    try (simpl; lia).
  destruct (str_in (kind e) dependency_kinds); simpl; lia.
Qed.

Lemma dependency_rows_In (g : Graph) (d : Dependency) :
  In d (dependency_rows g) <->
  exists e s t,
    In e (edges g) /\ get_node g (src e) = Some s /\
    get_node g (dst e) = Some t /\ str_in (kind e) dependency_kinds = true /\
    d = mkDependency (name s) (type s) (kind e) (name t) (type t)
          (status s) (status t).
Proof.
  unfold dependency_rows. rewrite in_flat_map. split.
  - intros [e [He Hd]]. unfold dependency_of in Hd.
    destruct (get_node g (src e)) as [s|] eqn:Hs; [|contradiction].
    destruct (get_node g (dst e)) as [t|] eqn:Ht; [|contradiction].
    destruct (str_in (kind e) dependency_kinds) eqn:Hk; [|contradiction].
    destruct Hd as [<-|[]]. exists e, s, t. auto 10.
  - intros (e & s & t & He & Hs & Ht & Hk & ->). exists e.
    split; [exact He|]. unfold dependency_of. rewrite Hs, Ht, Hk. now left.
Qed.

Lemma spof_kind_is_dependency_kind (k : string) :
  str_in k spof_kinds = true -> str_in k dependency_kinds = true.
Proof.
  intros H. apply str_in_In in H. simpl in H.
  destruct H as [<-|[<-|[<-|[]]]]; reflexivity.
Qed.

Lemma is_trail_more_kinds (n : nat) (es : list (nat * Edge))
    (kinds kinds' : list string) (used : list nat) (p : Path) :
  (forall k, str_in k kinds = true -> str_in k kinds' = true) ->
  is_trail n es kinds used p -> is_trail n es kinds' used p.
Proof.
  intros Hk [H1 [H2 [H3 H4]]]. repeat split; try assumption; try apply H1.
  eapply Forall_impl; [|exact H2]. simpl. intros ie [Ha [Hb Hc]]. auto.
Qed.

Lemma downstream_In (P : Planner) (g : Graph) (c j : nat) :
  In j (downstream P g c) <->
  exists p, is_trail 3 (indexed (edges g)) dependency_kinds [] p /\
            path_start p = Some c /\ path_end p = Some j /\
            get_node g j <> None.
Proof.
  unfold downstream. rewrite in_flat_map. split.
  - intros [p [Hp Hj]]. apply expand_In, trails_from_iff in Hp.
    destruct Hp as [Ht Hs]. unfold end_asset in Hj.
    destruct (path_end p) as [k|] eqn:He; [|contradiction].
    destruct (get_node g k) as [a|] eqn:Hn; [|contradiction].
    destruct Hj as [<-|[]]. exists p. split; [exact Ht|].
    split; [exact Hs|]. split; [exact He|]. simpl. rewrite Hn. discriminate.
  - intros [p [Ht [Hs [He Hn]]]]. exists p. split.
    + apply expand_In, trails_from_iff. auto.
    + unfold end_asset. rewrite He.
      destruct (get_node g j); [now left|contradiction].
Qed.

Lemma downstream_count_le_nodes (P : Planner) (g : Graph) (c : nat) :
  downstream_count P g c <= length (nodes g).
Proof.
  unfold downstream_count.
  rewrite <- (length_seq (length (nodes g)) 0).
  apply NoDup_incl_length; [apply distinct_NoDup|].
  intros j Hj. apply (proj1 (distinct_In _ _)), downstream_In in Hj.
  destruct Hj as [p [_ [_ [_ Hn]]]]. apply in_seq.
  unfold get_node in Hn. apply nth_error_Some in Hn. lia.
Qed.

Lemma dependent_le_downstream (E : Engine) (P : Planner) (g : Graph)
    (c : nat) :
  dependent_count E g c <= downstream_count P g c.
Proof.
  unfold dependent_count, downstream_count.
  apply NoDup_incl_length; [apply distinct_NoDup|].
  intros j Hj. apply (proj2 (distinct_In _ _)).
  apply (proj1 (distinct_In _ _)) in Hj.
  apply downstream_In. unfold dependents in Hj.
  apply in_flat_map in Hj. destruct Hj as [p [Hp Hj]].
  apply row_order_In, trails_from_iff in Hp. destruct Hp as [Ht Hs].
  destruct (path_end p) as [k|] eqn:He; [|contradiction].
  destruct (get_node g k) eqn:Hn; [|contradiction].
  destruct Hj as [<-|[]]. exists p. split.
  - eapply is_trail_more_kinds; [apply spof_kind_is_dependency_kind|exact Ht].
  - split; [exact Hs|]. split; [exact He|]. rewrite Hn. discriminate.
Qed.

Lemma downstream_desc_total (a b : CriticalAsset) :
  downstream_desc a b = false -> downstream_desc b a = true.
Proof. unfold downstream_desc. rewrite Nat.leb_gt, Nat.leb_le. lia. Qed.

Lemma downstream_desc_trans (a b c : CriticalAsset) :
  downstream_desc a b = true -> downstream_desc b c = true ->
  downstream_desc a c = true.
Proof. unfold downstream_desc. rewrite !Nat.leb_le. lia. Qed.

Lemma critical_asset_rows_In (P : Planner) (g : Graph) (r : CriticalAsset) :
  In r (critical_asset_rows P g) <->
  exists i a, get_node g i = Some a /\ In (i, a) (indexed (nodes g)) /\
              r = critical_asset_row P g (i, a) /\
              0 < downstream_count P g i.
Proof.
  unfold critical_asset_rows. rewrite filter_In, in_map_iff. split.
  - intros [[[i a] [<- Hin]] Hc]. apply scan_In in Hin.
    exists i, a. repeat split; auto.
    + now apply indexed_In in Hin.
    + simpl in Hc. now apply Nat.ltb_lt.
  - intros [i [a [_ [Hin [-> Hc]]]]]. split.
    + exists (i, a). split; [reflexivity|]. now apply scan_In.
    + simpl. now apply Nat.ltb_lt.
Qed.

(** X26.  [get_critical_paths] reports at most twenty assets, by
    descending [downstreamCount]; [totalCriticalAssets] is their number.
    Every reported asset has at least one downstream asset and no more
    than the snapshot has assets, and its criticality is CRITICAL above
    10, HIGH above 5, MEDIUM above 2 and LOW otherwise. *)
Theorem critical_assets_report (P : Planner) (g : Graph) :
  totalCriticalAssets (get_critical_paths P g)
  = length (criticalAssets (get_critical_paths P g)) /\
  totalCriticalAssets (get_critical_paths P g) <= 20 /\
  StronglySorted (fun x y => downstreamCount y <= downstreamCount x)
                 (criticalAssets (get_critical_paths P g)) /\
  forall r, In r (criticalAssets (get_critical_paths P g)) ->
    1 <= downstreamCount r <= length (nodes g) /\
    criticality r
    = (if 10 <? downstreamCount r then "CRITICAL"
       else if 5 <? downstreamCount r then "HIGH"
       else if 2 <? downstreamCount r then "MEDIUM" else "LOW") /\
    exists i a, get_node g i = Some a /\ ca_asset r = name a /\
                ca_type r = type a /\ ca_status r = status a /\
                downstreamCount r = downstream_count P g i.
Proof.
  unfold get_critical_paths. cbn [totalCriticalAssets criticalAssets].
  unfold limit. split; [reflexivity|].
  split; [apply firstn_le_length|]. split.
  - apply StronglySorted_firstn.
    apply StronglySorted_weaken
      with (R := fun x y => downstream_desc x y = true).
    + intros x y Hxy. now apply Nat.leb_le.
    + apply order_by_sorted;
        [apply downstream_desc_total|apply downstream_desc_trans].
  - intros r Hr. apply firstn_incl, order_by_In, critical_asset_rows_In in Hr.
    destruct Hr as (i & a & Hn & _ & -> & Hpos). simpl.
    pose proof (downstream_count_le_nodes P g i).
    split; [lia|]. split; [reflexivity|]. exists i, a. auto.
Qed.

(** X27.  The two reports on critical assets agree in one direction:
    every asset [analyze_critical_paths] reports as a single point of
    failure also has a row in the query of [get_critical_paths], with at
    least as many downstream assets as it has dependents, hence more than
    three and a criticality other than LOW; and that row is reported when
    no more than twenty assets have downstream assets. *)
Theorem spof_is_critical_asset (E : Engine) (P : Planner) (g : Graph)
    (r : CriticalPath) :
  In r (analyze_critical_paths E g) ->
  exists r',
    In r' (critical_asset_rows P g) /\
    ca_asset r' = asset r /\ ca_type r' = spof_type r /\
    ca_status r' = spof_status r /\
    dependentCount r <= downstreamCount r' /\
    3 < downstreamCount r' /\
    criticality r' <> "LOW" /\
    (length (critical_asset_rows P g) <= 20 ->
     In r' (criticalAssets (get_critical_paths P g))).
Proof.
  intros H. unfold analyze_critical_paths, limit in H.
  apply firstn_incl, order_by_In, significant_rows_In in H.
  destruct H as (i & a & Hn & Hin & -> & Hc).
  pose proof (dependent_le_downstream E P g i) as Hle.
  assert (Hrow : In (critical_asset_row P g (i, a)) (critical_asset_rows P g)).
  { apply critical_asset_rows_In. exists i, a. repeat split; auto. lia. }
  exists (critical_asset_row P g (i, a)). split; [exact Hrow|].
  cbn [ca_asset ca_type ca_status downstreamCount criticality
       critical_asset_row critical_path_row asset spof_type spof_status
       dependentCount fst snd].
  repeat split; auto; try lia.
  - unfold criticality_of.
    destruct (10 <? downstream_count P g i); [discriminate|].
    destruct (5 <? downstream_count P g i); [discriminate|].
    destruct (2 <? downstream_count P g i) eqn:H2; [discriminate|].
    apply Nat.ltb_ge in H2. lia.
  - intros Hlen. unfold get_critical_paths. cbn [criticalAssets].
    unfold limit. rewrite firstn_all2
      by (rewrite order_by_length; exact Hlen).
    now apply order_by_In.
Qed.

Lemma spof_is_critical_asset_witness :
  exists r r',
    In r (analyze_critical_paths first_match_engine two_hubs_graph) /\
    In r' (critical_asset_rows forward_planner two_hubs_graph) /\
    ca_asset r' = asset r /\
    dependentCount r <= downstreamCount r' /\
    criticality r' <> "LOW".
Proof.
  assert (H : exists r, In r (analyze_critical_paths first_match_engine
                                two_hubs_graph)).
  { eexists. left. reflexivity. }
  destruct H as [r Hr]. exists r.
  destruct (spof_is_critical_asset first_match_engine forward_planner
              two_hubs_graph r Hr)
    as (r' & Hin & Hname & _ & _ & Hle & _ & Hcrit & _).
  exists r'. repeat split; assumption.
Defined.

(** ** All intended configurations *)

Lemma configs_loop_run (rows : list (string * string)) :
  forall (acc : list GitopsConfig) (w : World) (c : Counters),
  exists new c',
    configs_loop acc rows w c = Ok (acc ++ new, c') /\
    map cfg_name new = map fst rows /\
    Forall (fun cfg => cfg_status cfg = "running") new /\
    draws c' = draws c + 8 * generated_rows rows /\
    reads c' = reads c + generated_rows rows.
Proof.
  induction rows as [|[n t] rows IH]; intros acc w c.
  - exists [], c. rewrite app_nil_r. unfold generated_rows. simpl.
    repeat split; auto; lia.
  - simpl. unfold bind.
    destruct (gitops_config_run n t w c)
      as (cfg & c1 & Hrun & Hname & Hst & Hcase).
    rewrite Hrun.
    destruct (IH (acc ++ [cfg]) w c1) as (new & c' & Hloop & Hn & Hall & Hd & Hr).
    exists (cfg :: new), c'. rewrite Hloop, <- app_assoc. simpl.
    split; [reflexivity|]. split; [now rewrite Hname, Hn|].
    split; [constructor; assumption|].
    unfold generated_rows in *. cbn [filter fst].
    destruct Hcase as [[Hp ->]|(Hnone & Hd1 & Hr1 & _)].
    + rewrite Hp. auto.
    + rewrite Hnone. cbn [length]. lia.
Qed.

Lemma name_asc_total (a b : nat * Asset) :
  name_asc a b = false -> name_asc b a = true.
Proof.
  unfold name_asc. rewrite (String.compare_antisym (name (snd b))).
  destruct (String.compare (name (snd a)) (name (snd b))); simpl;
    try discriminate; auto.
Qed.

Lemma name_asc_trans (a b c : nat * Asset) :
  name_asc a b = true -> name_asc b c = true -> name_asc a c = true.
Proof.
  unfold name_asc.
  destruct (String.compare (name (snd a)) (name (snd b))) eqn:Hab;
    try discriminate;
    destruct (String.compare (name (snd b)) (name (snd c))) eqn:Hbc;
    try discriminate; intros _ _.
  - apply string_compare_eq in Hab, Hbc. rewrite Hab, Hbc.
    now rewrite string_compare_refl.
  - apply string_compare_eq in Hab. now rewrite Hab, Hbc.
  - apply string_compare_eq in Hbc. now rewrite <- Hbc, Hab.
  - now rewrite (string_compare_lt_trans _ _ _ Hab Hbc).
Qed.

Lemma StronglySorted_map {A B : Type} (R : B -> B -> Prop) (f : A -> B)
    (l : list A) :
  StronglySorted (fun x y => R (f x) (f y)) l -> StronglySorted R (map f l).
Proof.
  induction 1 as [|x l _ IH Hx]; simpl; constructor; [exact IH|].
  rewrite Forall_forall in *. intros y Hy. apply in_map_iff in Hy.
  destruct Hy as [z [<- Hz]]. now apply Hx.
Qed.

Lemma config_query_rows (P : Planner) (g : Graph) :
  length (config_query P g) = Nat.min 50 (length (nodes g)) /\
  StronglySorted (fun a b => String.compare a b <> Gt)
                 (map fst (config_query P g)) /\
  forall r, In r (config_query P g) ->
            exists a, In a (nodes g) /\ r = (name a, type a).
Proof.
  unfold config_query, limit. split; [|split].
  - rewrite length_map, length_firstn, order_by_length.
    rewrite (Permutation_length (scan_perm P _ _)).
    unfold indexed. rewrite length_combine, length_seq. lia.
  - rewrite map_map. apply StronglySorted_map, StronglySorted_firstn.
    apply StronglySorted_weaken with (R := fun x y => name_asc x y = true).
    + intros x y. unfold name_asc. simpl.
      destruct (String.compare (name (snd x)) (name (snd y)));
        discriminate.
    + apply order_by_sorted; [apply name_asc_total|apply name_asc_trans].
  - intros r Hr. apply in_map_iff in Hr. destruct Hr as [ia [<- Hia]].
    apply firstn_incl, order_by_In, scan_In, indexed_In_snd in Hia.
    exists (snd ia). auto.
Qed.

(** One run of [get_all_gitops_configs] on assets that all carry a name
    and a type: the configurations, their order and the draws made. *)
Lemma all_configs_run (P : Planner) (g : Graph) (w : World)
    (c : Counters) :
  exists rep c',
    get_all_gitops_configs P g w c = Ok (rep, c') /\
    cfgs_totalAssets rep = length (configs rep) /\
    cfgs_totalAssets rep = Nat.min 50 (length (nodes g)) /\
    map cfg_name (configs rep) = map fst (config_query P g) /\
    StronglySorted (fun a b => String.compare a b <> Gt)
                   (map cfg_name (configs rep)) /\
    (forall n, In n (map cfg_name (configs rep)) ->
               In n (map name (nodes g))) /\
    Forall (fun cfg => cfg_status cfg = "running") (configs rep) /\
    draws c' = draws c + 8 * generated_rows (config_query P g) /\
    reads c' = reads c + generated_rows (config_query P g) + 1.
Proof.
  unfold get_all_gitops_configs, bind.
  destruct (configs_loop_run (config_query P g) [] w c)
    as (new & c1 & Hloop & Hn & Hall & Hd & Hr).
  rewrite Hloop. unfold now, ret. simpl app.
  destruct (config_query_rows P g) as (Hlen & Hsorted & Hrows).
  eexists. eexists. split; [reflexivity|].
  cbn [cfgs_totalAssets configs draws reads].
  split; [reflexivity|]. split.
  { rewrite <- Hlen, <- (length_map fst (config_query P g)), <- Hn.
    now rewrite length_map. }
  split; [exact Hn|]. split; [now rewrite Hn|]. split.
  { intros n Hin. rewrite Hn in Hin. apply in_map_iff in Hin.
    destruct Hin as [r [<- Hr']]. destruct (Hrows r Hr') as [a [Ha ->]].
    simpl. now apply in_map. }
  split; [exact Hall|]. split; [exact Hd|]. lia.
Qed.

(** ** Drift history *)

Lemma history_step_run (h : list HistoryEntry) (day : nat) (w : World)
    (c : Counters) :
  (Z.of_nat day <= 999999999)%Z ->
  (datetime_min <= clock w (reads c) - 86400 * Z.of_nat day)%Z ->
  exists e c',
    history_step h day w c = Ok (h ++ [e], c') /\
    entry_in_range e /\
    h_timestamp e = Instant (clock w (reads c) - 86400 * Z.of_nat day)%Z /\
    (day = 0 -> h_driftedAssets e = 12%N /\ h_criticalDrifts e = 3%N) /\
    draws c' = draws c + (if 0 <? day then 2 else 0) /\
    reads c' = reads c + 1.
Proof.
  intros Hday Hmin. unfold history_step, bind, now, lift, days_before.
  cbv beta iota.
  destruct (Z.ltb_spec 999999999 (Z.of_nat day)) as [Hbig|_]; [lia|].
  destruct (Z.ltb_spec (clock w (reads c) - 86400 * Z.of_nat day)
                       datetime_min) as [Hlow|_]; [lia|].
  cbv beta iota. destruct (0 <? day) eqn:Hpos.
  - repeat (rewrite randint_run; cbv beta iota). unfold ret.
    cbn [draws reads]. eexists. eexists. split; [reflexivity|].
    unfold entry_in_range.
    cbn [h_totalAssets h_driftedAssets h_criticalDrifts h_timestamp
         draws reads].
    split; [|split; [reflexivity|split; [|split; lia]]].
    + split; [reflexivity|]. split.
      * change (15 - 5 + 1)%N with 11%N. mod_bound.
      * change (5 - 1 + 1)%N with 5%N. mod_bound.
    + intros ->. discriminate.
  - unfold ret. eexists. eexists. split; [reflexivity|].
    unfold entry_in_range.
    cbn [h_totalAssets h_driftedAssets h_criticalDrifts h_timestamp
         draws reads].
    split; [repeat split; lia|]. split; [reflexivity|].
    split; [intros _; split; reflexivity|]. split; lia.
Qed.

Lemma history_step_overflow (h : list HistoryEntry) (day : nat) (w : World)
    (c : Counters) :
  (999999999 < Z.of_nat day)%Z \/
  (clock w (reads c) - 86400 * Z.of_nat day < datetime_min)%Z ->
  history_step h day w c = Raised "OverflowError".
Proof.
  intros H. unfold history_step, bind, now, lift, days_before.
  cbv beta iota.
  destruct (Z.ltb_spec 999999999 (Z.of_nat day)) as [Hbig|Hsmall];
    [reflexivity|].
  destruct (Z.ltb_spec (clock w (reads c) - 86400 * Z.of_nat day)
                       datetime_min) as [Hlow|Hok]; [reflexivity|lia].
Qed.

Lemma history_loop_run (ds : list nat) :
  forall (acc : list HistoryEntry) (w : World) (c : Counters),
    (forall d, In d ds -> (Z.of_nat d <= 999999999)%Z) ->
    (forall d k, In d ds ->
                 (datetime_min <= clock w k - 86400 * Z.of_nat d)%Z) ->
    exists new c',
      history_loop acc ds w c = Ok (acc ++ new, c') /\
      length new = length ds /\
      Forall entry_in_range new /\
      (forall pre, ds = pre ++ [0] ->
         exists pre' e, new = pre' ++ [e] /\
                        h_driftedAssets e = 12%N /\
                        h_criticalDrifts e = 3%N) /\
      draws c' = draws c + 2 * length (filter (fun d => 0 <? d) ds) /\
      reads c' = reads c + length ds.
Proof.
  induction ds as [|d ds IH]; intros acc w c Hbig Hmin.
  - exists [], c. rewrite app_nil_r. simpl. split; [reflexivity|].
    split; [reflexivity|]. split; [constructor|]. split; [|split; lia].
    intros pre Hpre. destruct pre; discriminate.
  - simpl history_loop. unfold bind.
    destruct (history_step_run acc d w c) as (e & c1 & Hstep & He & _ & Hz & Hd & Hr).
    { apply Hbig. now left. }
    { apply Hmin. now left. }
    rewrite Hstep.
    destruct (IH (acc ++ [e]) w c1) as (new & c' & Hloop & Hlen & Hall & Hlast & Hd' & Hr').
    { intros x Hx. apply Hbig. now right. }
    { intros x k Hx. apply Hmin. now right. }
    exists (e :: new), c'. rewrite Hloop, <- app_assoc.
    split; [reflexivity|]. split; [simpl; now rewrite Hlen|].
    split; [now constructor|]. split; [|split].
    + intros pre Hpre. destruct pre as [|x pre]; simpl in Hpre.
      * inversion Hpre; subst. destruct new; [|discriminate].
        exists [], e. split; [reflexivity|]. now apply Hz.
      * inversion Hpre; subst.
        destruct (Hlast pre eq_refl) as (pre' & e' & -> & H12 & H3).
        exists (e :: pre'), e'. auto.
    + cbn [filter]. destruct (0 <? d); cbn [length] in *; lia.
    + cbn [length]. lia.
Qed.

Lemma day_range_shape (days : Z) :
  (0 <= days)%Z ->
  day_range days = rev (seq 1 (Z.to_nat days)) ++ [0].
Proof.
  intros H. unfold day_range.
  destruct (Z.ltb_spec days 0) as [Hneg|_]; [lia|].
  change (seq 0 (S (Z.to_nat days))) with (0 :: seq 1 (Z.to_nat days)).
  reflexivity.
Qed.

Lemma filter_all {A : Type} (p : A -> bool) (l : list A) :
  (forall x, In x l -> p x = true) -> filter p l = l.
Proof.
  induction l as [|x l IH]; simpl; intros H; [reflexivity|].
  rewrite (H x) by now left. f_equal. apply IH. intros y Hy. apply H.
  now right.
Qed.

Lemma positive_days (n : nat) :
  length (filter (fun d => 0 <? d) (rev (seq 1 n) ++ [0])) = n.
Proof.
  rewrite filter_app, length_app. simpl. rewrite filter_all.
  - rewrite length_rev, length_seq. lia.
  - intros d Hd. apply in_rev, in_seq in Hd. apply Nat.ltb_lt. lia.
Qed.

(** X29.  For a number of days from 0 to 999999999 that does not lead
    before the first representable date, [get_drift_history] returns one
    entry for each day from [days] ago to today, that many plus one.  Every
    entry reports 50 assets, 5 to 15 of them drifted and 1 to 5 critical
    drifts; the last entry, for today, always reports 12 and 3.  Two random
    draws are made for each day but today, and one clock reading for each
    entry. *)
Theorem drift_history_entries (days : Z) (w : World) (c : Counters) :
  (0 <= days <= 999999999)%Z ->
  (forall k, (datetime_min + 86400 * days <= clock w k)%Z) ->
  exists r c',
    get_drift_history days w c = Ok (r, c') /\
    timeRange r = ("Last " ++ str_of_Z days ++ " days")%string /\
    length (history r) = Z.to_nat days + 1 /\
    Forall entry_in_range (history r) /\
    (exists pre e, history r = pre ++ [e] /\
                   h_driftedAssets e = 12%N /\ h_criticalDrifts e = 3%N) /\
    draws c' = draws c + 2 * Z.to_nat days /\
    reads c' = reads c + Z.to_nat days + 1.
Proof.
  intros Hdays Hclock. unfold get_drift_history, bind.
  rewrite day_range_shape by lia.
  assert (Hin : forall d, In d (rev (seq 1 (Z.to_nat days)) ++ [0]) ->
                          (Z.of_nat d <= days)%Z).
  { intros d Hd. apply in_app_or in Hd. destruct Hd as [Hd|[<-|[]]]; [|lia].
    apply in_rev, in_seq in Hd. lia. }
  destruct (history_loop_run (rev (seq 1 (Z.to_nat days)) ++ [0]) [] w c)
    as (new & c' & Hloop & Hlen & Hall & Hlast & Hd & Hr).
  { intros d Hd. specialize (Hin d Hd). lia. }
  { intros d k Hd. specialize (Hin d Hd). specialize (Hclock k). lia. }
  rewrite Hloop. unfold ret. simpl app. eexists. eexists.
  split; [reflexivity|]. cbn [timeRange history].
  rewrite positive_days in Hd.
  rewrite length_app, length_rev, length_seq in Hlen, Hr. simpl in Hlen, Hr.
  split; [reflexivity|]. split; [exact Hlen|]. split; [exact Hall|].
  split; [exact (Hlast _ eq_refl)|]. split; [exact Hd|lia].
Qed.

Lemma drift_history_entries_witness :
  exists r c',
    get_drift_history 7 zero_world (mkCounters 0 0) = Ok (r, c') /\
    length (history r) = 8 /\
    Forall entry_in_range (history r) /\
    draws c' = 14 /\ reads c' = 8.
Proof.
  assert (H1 : (0 <= 7 <= 999999999)%Z) by lia.
  assert (H2 : forall k, (datetime_min + 86400 * 7 <= clock zero_world k)%Z).
  { intros k. unfold datetime_min. simpl. lia. }
  destruct (drift_history_entries 7 zero_world (mkCounters 0 0) H1 H2)
    as (r & c' & Hrun & _ & Hlen & Hall & _ & Hd & Hr).
  exists r, c'. repeat split; assumption.
Defined.

(** X30.  The edges of [get_drift_history]: a negative number of days
    gives an empty history, without any draw or clock reading; a number of
    days above 999999999, or one that leads before the first representable
    date, ends the request in [OverflowError] at the first entry. *)
Theorem drift_history_edges (days : Z) (w : World) (c : Counters) :
  ((days < 0)%Z ->
   get_drift_history days w c
   = Ok (mkDriftHistory ("Last " ++ str_of_Z days ++ " days")%string [], c)) /\
  ((0 <= days)%Z ->
   (999999999 < days)%Z \/
   (clock w (reads c) - 86400 * days < datetime_min)%Z ->
   get_drift_history days w c = Raised "OverflowError").
Proof.
  split.
  - intros Hneg. unfold get_drift_history, day_range, bind.
    destruct (Z.ltb_spec days 0) as [_|Hpos]; [reflexivity|lia].
  - intros Hpos Hover. unfold get_drift_history, bind, day_range.
    destruct (Z.ltb_spec days 0) as [Hneg|_]; [lia|].
    rewrite <- Nat.add_1_r, seq_app, rev_app_distr. simpl rev. simpl app.
    simpl history_loop. unfold bind.
    rewrite history_step_overflow; [reflexivity|].
    rewrite Z2Nat.id by lia. exact Hover.
Qed.

Lemma drift_history_edges_witness :
  get_drift_history (-1) zero_world (mkCounters 0 0)
  = Ok (mkDriftHistory "Last -1 days" [], mkCounters 0 0) /\
  get_drift_history 1000000000 zero_world (mkCounters 0 0)
  = Raised "OverflowError".
Proof.
  split.
  - apply (proj1 (drift_history_edges (-1) zero_world (mkCounters 0 0))).
    lia.
  - apply (proj2 (drift_history_edges 1000000000 zero_world
                    (mkCounters 0 0))); [lia|left; lia].
Defined.

(** * The claims, stated on the paths of the snapshot *)

Lemma nodes_named_iff (g : Graph) (n : string) (t : nat) (a : Asset) :
  In (t, a) (nodes_named g (Some n)) <-> get_node g t = Some a /\ name a = n.
Proof.
  split.
  - intros H. apply nodes_named_name in H. simpl in H. tauto.
  - intros [Hn Ha]. simpl. apply filter_In. split.
    + now apply In_indexed_nth.
    + simpl. now apply String.eqb_eq.
Qed.

(** ** Root cause *)

(** C1, amended.  Take a name borne by some asset, such that every asset
    bearing it has an unhealthy ancestor, in a snapshot without empty
    names.  Whatever the engine's row order, [find_root_cause] returns the
    start of a longest matching path: [failureDepth] is the maximum length
    over all paths of 1 to 5 distinct POWERS, CONNECTS_TO, FEEDS_DATA or
    DEPENDS_ON relationships that end in an asset of that name and start at
    an asset whose status is offline, error, failed, unreachable, degraded
    or warning; [rootCause], [failureChain] and [relationshipTypes] are
    read off that path.  Which of several longest paths is taken is left to
    the row order. *)
Theorem root_cause_longest_match (E : Engine) (g : Graph) (n : string) :
  In n (map name (nodes g)) ->
  (forall t a, get_node g t = Some a -> name a = n ->
     exists p i b,
       is_trail 5 (indexed (edges g))
         ["POWERS"; "CONNECTS_TO"; "FEEDS_DATA"; "DEPENDS_ON"] [] p /\
       path_end p = Some t /\ path_start p = Some i /\
       get_node g i = Some b /\
       opt_in (status b)
         ["offline"; "error"; "failed"; "unreachable"; "degraded"; "warning"]
       = true) ->
  (forall a, In a (nodes g) -> name a <> "") ->
  exists t target p i root r,
    get_node g t = Some target /\ name target = n /\
    is_trail 5 (indexed (edges g))
      ["POWERS"; "CONNECTS_TO"; "FEEDS_DATA"; "DEPENDS_ON"] [] p /\
    path_end p = Some t /\ path_start p = Some i /\
    get_node g i = Some root /\
    opt_in (status root)
      ["offline"; "error"; "failed"; "unreachable"; "degraded"; "warning"]
    = true /\
    (forall t' a' q j b,
       get_node g t' = Some a' -> name a' = n ->
       is_trail 5 (indexed (edges g))
         ["POWERS"; "CONNECTS_TO"; "FEEDS_DATA"; "DEPENDS_ON"] [] q ->
       path_end q = Some t' -> path_start q = Some j ->
       get_node g j = Some b ->
       opt_in (status b)
         ["offline"; "error"; "failed"; "unreachable"; "degraded"; "warning"]
       = true ->
       length q <= length p) /\
    find_root_cause E g (Some n) = Ok r /\
    targetAsset r = n /\
    rootCause r = Some (name root) /\
    failureDepth r = Some (length p) /\
    failureChain r = Some (map chain_entry (assets_of g (path_nodes p))) /\
    relationshipTypes r = Some (path_kinds p).
Proof.
  intros Hn Hall Hnames.
  destruct (root_cause_head_of_matches E g n Hn) as
    (t & p & i & root & r & Ht & Hp & Hi & Hroot & Hst & Hmax & Hr & Hrest).
  - intros [t a] Ht. apply nodes_named_iff in Ht. destruct Ht as [Hg Ha].
    destruct (Hall t a Hg Ha) as (p & i & b & Htr & He & Hs & Hb & Hu).
    assert (Hin : In p (rca_matches g t)).
    { apply rca_matches_iff. split; [exact Htr|]. split; [exact He|].
      exists i, b. auto. }
    simpl. intros Hnil. rewrite Hnil in Hin. contradiction.
  - exact Hnames.
  - destruct t as [t target]. apply nodes_named_iff in Ht.
    destruct Ht as [Hg Ha]. simpl in Hp.
    pose proof Hp as Hp'. apply rca_matches_iff in Hp'.
    destruct Hp' as [Htr [He _]].
    exists t, target, p, i, root, r.
    split; [exact Hg|]. split; [exact Ha|]. split; [exact Htr|].
    split; [exact He|]. split; [exact Hi|]. split; [exact Hroot|].
    split; [exact Hst|]. split; [|split; [exact Hr|exact Hrest]].
    intros t' a' q j b Hg' Ha' Hq He' Hs' Hb' Hu'.
    apply (Hmax (t', a') q).
    + now apply nodes_named_iff.
    + apply rca_matches_iff. split; [exact Hq|]. split; [exact He'|].
      exists j, b. auto.
Qed.

Lemma root_cause_longest_match_witness :
  In "Robot1" (map name (nodes scenario_graph_powers)) /\
  exists t target p i root r,
    get_node scenario_graph_powers t = Some target /\
    name target = "Robot1" /\
    path_end p = Some t /\ path_start p = Some i /\
    get_node scenario_graph_powers i = Some root /\
    find_root_cause first_match_engine scenario_graph_powers (Some "Robot1")
    = Ok r /\
    rootCause r = Some (name root) /\
    failureDepth r = Some (length p).
Proof.
  assert (H1 : In "Robot1" (map name (nodes scenario_graph_powers)))
    by (simpl; auto).
  split; [exact H1|].
  destruct (root_cause_longest_match first_match_engine scenario_graph_powers
              "Robot1" H1)
    as (t & target & p & i & root & r & Hg & Ha & _ & He & Hs & Hroot & _ & _
        & Hr & _ & Hrc & Hd & _).
  - intros t a Hg Ha.
    destruct t as [|[|[|t]]]; simpl in Hg;
      [injection Hg as <-; discriminate Ha
      |injection Hg as <-; discriminate Ha
      |injection Hg as <-
      |destruct t; discriminate Hg].
    exists [(1, mkEdge 1 "POWERS" 2)], 1,
      (plain_asset "PLC1" "PLC" (Some "offline")).
    split; [|repeat split].
    unfold is_trail. split; [simpl; lia|]. split; [|split].
    + constructor; [|constructor].
      split; [right; left; reflexivity|]. split; [reflexivity|intros []].
    + simpl. repeat constructor. intros [].
    + simpl. auto.
  - intros a [<-|[<-|[<-|[]]]]; discriminate.
  - exists t, target, p, i, root, r. repeat split; assumption.
Defined.

(** ** Cascade impact *)

(** C3, amended.  For a name borne by some asset, the result of
    [analyze_cascade_impact] lists each name of an asset in which a path of
    1 to 5 distinct POWERS, CONNECTS_TO, FEEDS_DATA, DEPENDS_ON or CONTROLS
    relationships out of an asset of that name ends, exactly once, at the
    least length of such a path; [totalDownstream] is the number of these
    names, [impactRadius] the greatest of their distances, and
    [currentlyAffected] the number of listed assets flagged as affected.
    Every listed asset whose status is offline, error, degraded or warning
    is flagged, and every flagged asset has one of the six unhealthy
    statuses. *)
Theorem cascade_counts_by_name (E : Engine) (g : Graph) (n : string) :
  In n (map name (nodes g)) ->
  exists r,
    analyze_cascade_impact E g (Some n) = Ok r /\
    totalDownstream r = length (allAffectedAssets r) /\
    NoDup (map aff_name (allAffectedAssets r)) /\
    (forall nm,
       In nm (map aff_name (allAffectedAssets r)) <->
       exists s source p j a,
         get_node g s = Some source /\ name source = n /\
         is_trail 5 (indexed (edges g))
           ["POWERS"; "CONNECTS_TO"; "FEEDS_DATA"; "DEPENDS_ON"; "CONTROLS"]
           [] p /\
         path_start p = Some s /\ path_end p = Some j /\
         get_node g j = Some a /\ name a = nm) /\
    (forall x, In x (allAffectedAssets r) ->
       (exists s source p j a,
          get_node g s = Some source /\ name source = n /\
          is_trail 5 (indexed (edges g))
            ["POWERS"; "CONNECTS_TO"; "FEEDS_DATA"; "DEPENDS_ON"; "CONTROLS"]
            [] p /\
          path_start p = Some s /\ path_end p = Some j /\
          get_node g j = Some a /\
          name a = aff_name x /\ status a = aff_status x /\
          length p = distance x) /\
       (forall s source p j a,
          get_node g s = Some source -> name source = n ->
          is_trail 5 (indexed (edges g))
            ["POWERS"; "CONNECTS_TO"; "FEEDS_DATA"; "DEPENDS_ON"; "CONTROLS"]
            [] p ->
          path_start p = Some s -> path_end p = Some j ->
          get_node g j = Some a -> name a = aff_name x ->
          distance x <= length p)) /\
    impactRadius r = fold_right Nat.max 0 (map distance (allAffectedAssets r)) /\
    currentlyAffected r = length (filter isAffected (allAffectedAssets r)) /\
    (forall x, In x (allAffectedAssets r) ->
       (opt_in (aff_status x) ["offline"; "error"; "degraded"; "warning"] = true ->
        isAffected x = true) /\
       (isAffected x = true ->
        opt_in (aff_status x)
          ["offline"; "error"; "failed"; "unreachable"; "degraded"; "warning"]
        = true)).
Proof.
  intros Hn.
  destruct (cascade_counts_of_rows E g n Hn)
    as (r & Hr & Htot & Hnd & Hnames & Hdist & Hrad & Hcur & Hflag).
  exists r. split; [exact Hr|]. split; [exact Htot|]. split; [exact Hnd|].
  split; [|split; [|split; [exact Hrad|split; [exact Hcur|exact Hflag]]]].
  - intros nm. rewrite Hnames. split.
    + intros (a & d & Hin & Ha). apply cascade_rows_iff in Hin.
      destruct Hin as ([s source] & p & j & Hs & Htr & Hst & He & Hj & _).
      apply nodes_named_iff in Hs. destruct Hs as [Hg Hsn].
      exists s, source, p, j, a. auto 10.
    + intros (s & source & p & j & a & Hg & Hsn & Htr & Hst & He & Hj & Ha).
      exists a, (length p). split; [|exact Ha].
      apply cascade_rows_iff. exists (s, source), p, j.
      split; [now apply nodes_named_iff|]. auto.
  - intros x Hx. destruct (Hdist x Hx) as [Hex Hmin]. split.
    + destruct Hex as (a & Hin & Ha & Hst). apply cascade_rows_iff in Hin.
      destruct Hin as ([s source] & p & j & Hs & Htr & Hstart & He & Hj & Hd).
      apply nodes_named_iff in Hs. destruct Hs as [Hg Hsn].
      exists s, source, p, j, a. auto 12.
    + intros s source p j a Hg Hsn Htr Hstart He Hj Ha.
      apply (Hmin a (length p)); [|exact Ha].
      apply cascade_rows_iff. exists (s, source), p, j.
      split; [now apply nodes_named_iff|]. auto.
Qed.

Lemma cascade_counts_by_name_witness :
  In "UPS" (map name (nodes scenario_graph)) /\
  exists r,
    analyze_cascade_impact first_match_engine scenario_graph (Some "UPS")
    = Ok r /\
    totalDownstream r = length (allAffectedAssets r) /\
    NoDup (map aff_name (allAffectedAssets r)) /\
    impactRadius r = fold_right Nat.max 0 (map distance (allAffectedAssets r)).
Proof.
  assert (H : In "UPS" (map name (nodes scenario_graph))) by (simpl; auto).
  split; [exact H|].
  destruct (cascade_counts_by_name first_match_engine scenario_graph "UPS" H)
    as (r & Hr & Htot & Hnd & _ & _ & Hrad & _).
  exists r. auto.
Defined.

(** ** Critical paths *)

(** Two lists without repetition that hold the same things have the same
    length. *)
Lemma same_members_same_length {A : Type} (l l' : list A) :
  NoDup l -> NoDup l' -> (forall x, In x l <-> In x l') ->
  length l = length l'.
Proof.
  intros H1 H2 H. apply Permutation_length. now apply NoDup_Permutation.
Qed.

(** The number of dependents of an asset, counted on the paths of the
    snapshot, is the count of the query. *)
Lemma dependent_count_of_paths (E : Engine) (g : Graph) (i : nat)
    (l : list nat) :
  NoDup l ->
  (forall j, In j l <->
     exists p,
       is_trail 3 (indexed (edges g)) ["POWERS"; "CONNECTS_TO"; "FEEDS_DATA"]
         [] p /\
       path_start p = Some i /\ path_end p = Some j /\
       get_node g j <> None) ->
  dependent_count E g i = length l.
Proof.
  intros Hnd Hl. destruct (dependent_count_spec E g i) as (l' & Hnd' & Hlen & Hl').
  rewrite <- Hlen. apply same_members_same_length; auto.
  intros j. rewrite Hl. apply Hl'.
Qed.

Lemma filter_map_length {A B : Type} (p : B -> bool) (f : A -> B)
    (l : list A) :
  length (filter p (map f l)) = length (filter (fun x => p (f x)) l).
Proof.
  induction l as [|x l IH]; simpl; [reflexivity|].
  destruct (p (f x)); simpl; now rewrite IH.
Qed.

(** Filtering indexed rows keeps their indices distinct. *)
Lemma NoDup_keys_filter {K V : Type} (keep : K * V -> bool)
    (rows : list (K * V)) :
  NoDup (map fst rows) -> NoDup (map fst (filter keep rows)).
Proof.
  intros Hrows. induction rows as [|row rows IH]; simpl; [constructor|].
  simpl in Hrows. apply NoDup_cons_iff in Hrows. destruct Hrows as [Hx Hl].
  destruct (keep row); simpl; [|now apply IH].
  apply NoDup_cons; [|now apply IH].
  intros Hin. apply Hx. apply in_map_iff in Hin.
  destruct Hin as [y [Hy Hin]]. apply filter_In in Hin.
  rewrite <- Hy. apply in_map. tauto.
Qed.

Lemma map_fst_indexed {A : Type} (l : list A) :
  map fst (indexed l) = seq 0 (length l).
Proof.
  unfold indexed. generalize 0 as k.
  induction l as [|x l IH]; intros k; simpl; [reflexivity|].
  now rewrite IH.
Qed.

(** The assets that pass the filter of the query, as distinct nodes: as
    many as there are rows. *)
Lemma qualifying_nodes (E : Engine) (g : Graph) :
  exists ids,
    NoDup ids /\ length ids = length (significant_rows E g) /\
    forall k, In k ids ->
      exists b, get_node g k = Some b /\ 3 < dependent_count E g k.
Proof.
  exists (map fst (filter (fun c => 3 <? dependent_count E g (fst c))
                          (row_order E CriticalAssets (indexed (nodes g))))).
  split; [|split].
  - apply NoDup_keys_filter.
    apply (Permutation_NoDup
             (Permutation_map fst
                (Permutation_sym (row_order_perm E CriticalAssets _ _)))).
    rewrite map_fst_indexed. apply seq_NoDup.
  - rewrite length_map. unfold significant_rows.
    now rewrite filter_map_length.
  - intros k Hk. apply in_map_iff in Hk. destruct Hk as [[i b] [<- Hin]].
    apply filter_In in Hin. destruct Hin as [Hin Hc].
    apply row_order_In, indexed_In in Hin. simpl in *.
    exists b. split; [exact Hin|]. now apply Nat.ltb_lt.
Qed.

(** C5, amended.  [analyze_critical_paths] reports at most ten assets.
    Each reported asset has more than three dependents, a dependent being an
    asset in which a path of 1 to 3 distinct POWERS, CONNECTS_TO or
    FEEDS_DATA relationships out of it ends, each counted once; its score
    is [dependentCount] plus 10 for type UPS, Router or NetworkSwitch plus 5
    for status warning or degraded; its severity is critical above 20, high
    above 10, else medium.  The report is sorted by descending score.
    Every asset with more than three dependents is either reported, or left
    out of a report of ten assets each of which scores at least as much, and
    then more than ten assets have more than three dependents.  The order
    among equal scores is left to the row order of the engine. *)
Theorem critical_paths_top_ten (E : Engine) (g : Graph) :
  length (analyze_critical_paths E g) <= 10 /\
  (forall r, In r (analyze_critical_paths E g) ->
     exists i a l,
       get_node g i = Some a /\
       asset r = name a /\ spof_type r = type a /\ spof_status r = status a /\
       NoDup l /\
       (forall j, In j l <->
          exists p,
            is_trail 3 (indexed (edges g))
              ["POWERS"; "CONNECTS_TO"; "FEEDS_DATA"] [] p /\
            path_start p = Some i /\ path_end p = Some j /\
            get_node g j <> None) /\
       dependentCount r = length l /\
       3 < dependentCount r /\
       criticalityScore r
       = dependentCount r
         + (if str_in (type a) ["UPS"; "Router"; "NetworkSwitch"]
            then 10 else 0)
         + (if opt_in (status a) ["warning"; "degraded"] then 5 else 0) /\
       spof_severity r
       = (if 20 <? criticalityScore r then "critical"
          else if 10 <? criticalityScore r then "high" else "medium")) /\
  StronglySorted (fun x y => criticalityScore y <= criticalityScore x)
                 (analyze_critical_paths E g) /\
  (forall i a l,
     get_node g i = Some a ->
     NoDup l ->
     (forall j, In j l <->
        exists p,
          is_trail 3 (indexed (edges g))
            ["POWERS"; "CONNECTS_TO"; "FEEDS_DATA"] [] p /\
          path_start p = Some i /\ path_end p = Some j /\
          get_node g j <> None) ->
     3 < length l ->
     (exists r, In r (analyze_critical_paths E g) /\
                asset r = name a /\ spof_type r = type a /\
                spof_status r = status a /\ dependentCount r = length l) \/
     (length (analyze_critical_paths E g) = 10 /\
      (forall x, In x (analyze_critical_paths E g) ->
         length l
         + (if str_in (type a) ["UPS"; "Router"; "NetworkSwitch"]
            then 10 else 0)
         + (if opt_in (status a) ["warning"; "degraded"] then 5 else 0)
         <= criticalityScore x) /\
      exists ids,
        NoDup ids /\ 10 < length ids /\
        forall k, In k ids ->
          exists b m,
            get_node g k = Some b /\ NoDup m /\
            (forall j, In j m <->
               exists p,
                 is_trail 3 (indexed (edges g))
                   ["POWERS"; "CONNECTS_TO"; "FEEDS_DATA"] [] p /\
                 path_start p = Some k /\ path_end p = Some j /\
                 get_node g j <> None) /\
            3 < length m)).
Proof.
  destruct (critical_paths_head_of_rows E g)
    as (Hlen & _ & Hsorted & rest & Hperm & Hdom & Hall).
  split; [exact Hlen|]. split; [|split; [exact Hsorted|]].
  - intros r Hr. unfold analyze_critical_paths, limit in Hr.
    apply firstn_incl, order_by_In, significant_rows_In in Hr.
    destruct Hr as (i & a & Ha & _ & -> & Hc).
    destruct (dependent_count_spec E g i) as (l & Hnd & Hl & Hmem).
    exists i, a, l.
    cbn [critical_path_row asset spof_type spof_status dependentCount
         criticalityScore spof_severity fst snd].
    repeat split; auto; try apply Hmem.
  - intros i a l Ha Hnd Hmem Hbig.
    pose proof (dependent_count_of_paths E g i l Hnd Hmem) as Hcount.
    assert (Hrow : In (critical_path_row E g (i, a)) (significant_rows E g)).
    { apply significant_rows_In. exists i, a.
      split; [exact Ha|]. split; [now apply In_indexed_nth|].
      split; [reflexivity|]. lia. }
    apply (Permutation_in _ (Permutation_sym Hperm)) in Hrow.
    apply in_app_or in Hrow. destruct Hrow as [Hrep|Hrest].
    + left. exists (critical_path_row E g (i, a)). split; [exact Hrep|].
      cbn [critical_path_row asset spof_type spof_status dependentCount
           fst snd]. auto.
    + right.
      assert (Hmany : 10 < length (significant_rows E g)).
      { destruct (Nat.le_gt_cases (length (significant_rows E g)) 10)
          as [Hle|Hgt]; [|exact Hgt].
        rewrite (Hall Hle) in Hrest. contradiction. }
      split; [|split].
      * unfold analyze_critical_paths, limit.
        rewrite length_firstn, order_by_length. lia.
      * intros x Hx. specialize (Hdom x _ Hx Hrest).
        cbn [critical_path_row criticalityScore fst snd] in Hdom.
        unfold criticality_score in Hdom. rewrite Hcount in Hdom.
        exact Hdom.
      * destruct (qualifying_nodes E g) as (ids & Hids & Hidlen & Hq).
        exists ids. split; [exact Hids|]. split; [lia|].
        intros k Hk. destruct (Hq k Hk) as (b & Hb & Hc).
        destruct (dependent_count_spec E g k) as (m & Hm & Hmlen & Hmk).
        exists b, m. split; [exact Hb|]. split; [exact Hm|].
        split; [exact Hmk|]. lia.
Qed.

(** ** Drift *)

Lemma opt_eqb_false_iff (x y : option string) :
  opt_eqb x y = false <-> x <> y.
Proof.
  split; [apply opt_eqb_false|].
  intros H. destruct (opt_eqb x y) eqn:E; [|reflexivity].
  apply opt_eqb_eq in E. contradiction.
Qed.

(** Which fields the comparison lists, and with which values. *)
Lemma drift_fields_listed (a : ActualState) (i : GitopsConfig) (critical : nat)
    (v : DriftVars) :
  detect_drifts a i critical = Ok v ->
  (In "status" (map field (drifts v)) <->
   exists s, act_status a = Some s /\ lower s <> lower (cfg_status i)) /\
  (In "ipAddress" (map field (drifts v)) <->
   act_ipAddress a <> Some (cfg_ipAddress i)) /\
  (In "version" (map field (drifts v)) <->
   act_version a <> Some (cfg_version i)) /\
  (In "configChecksum" (map field (drifts v)) <->
   act_configChecksum a <> Some (cfg_configChecksum i) /\
   act_configChecksum a <> Some "unknown") /\
  (In "securityZone" (map field (drifts v)) <->
   act_securityZone a <> Some (cfg_securityZone i)) /\
  (forall d, In d (drifts v) ->
     (field d = "status" /\ intended d = Some (cfg_status i) /\
      actual d = act_status a) \/
     (field d = "ipAddress" /\ intended d = Some (cfg_ipAddress i) /\
      actual d = act_ipAddress a) \/
     (field d = "version" /\ intended d = Some (cfg_version i) /\
      actual d = act_version a) \/
     (field d = "configChecksum" /\
      intended d = Some (cfg_configChecksum i) /\
      actual d = act_configChecksum a) \/
     (field d = "securityZone" /\ intended d = Some (cfg_securityZone i) /\
      actual d = act_securityZone a)).
Proof.
  intros H. drift_shape H.
  assert (H1 : b1 = true <->
               exists s, act_status a = Some s /\
                         lower s <> lower (cfg_status i)).
  { rewrite Hb1, negb_true_iff, String.eqb_neq. split.
    - intros Hne. exists sts. auto.
    - intros [s [Hs' Hne]]. rewrite Hs in Hs'. now inversion Hs'; subst. }
  assert (H2 : b2 = true <-> act_ipAddress a <> Some (cfg_ipAddress i))
    by (rewrite Hb2, negb_true_iff; apply opt_eqb_false_iff).
  assert (H3 : b3 = true <-> act_version a <> Some (cfg_version i))
    by (rewrite Hb3, negb_true_iff; apply opt_eqb_false_iff).
  assert (H4 : b4 = true <->
               act_configChecksum a <> Some (cfg_configChecksum i) /\
               act_configChecksum a <> Some "unknown").
  { rewrite Hb4, andb_true_iff, !negb_true_iff, !opt_eqb_false_iff. tauto. }
  assert (H5 : b5 = true <-> act_securityZone a <> Some (cfg_securityZone i))
    by (rewrite Hb5, negb_true_iff; apply opt_eqb_false_iff).
  rewrite <- H1, <- H2, <- H3, <- H4, <- H5, Hdr.
  clear. destruct b1, b2, b3, b4, b5; simpl;
    repeat split; intros; try discriminate; try reflexivity;
    intuition (subst; simpl; auto 10; try discriminate).
Qed.

(** C4, amended.  When the comparison of an asset goes through, a field
    is listed as a mismatch exactly when its observed value differs from
    the intended one: the status compared without regard to case, the
    configChecksum only when the observed checksum is not [unknown].  Every
    mismatch carries the severity fixed for its field (status: critical if
    the observed status is offline, error or failed, else high; ipAddress:
    medium; version: high; configChecksum: high; securityZone: critical),
    and the overall severity is the maximum, under
    critical > high > medium > none, of the mismatches' severities with a
    status mismatch counted as critical.  Without a status mismatch it is
    the maximum of the per-field severities. *)
Theorem drift_severity_by_field (a : ActualState) (i : GitopsConfig)
    (critical : nat) (v : DriftVars) :
  detect_drifts a i critical = Ok v ->
  (In "status" (map field (drifts v)) <->
   exists s, act_status a = Some s /\ lower s <> lower (cfg_status i)) /\
  (In "ipAddress" (map field (drifts v)) <->
   act_ipAddress a <> Some (cfg_ipAddress i)) /\
  (In "version" (map field (drifts v)) <->
   act_version a <> Some (cfg_version i)) /\
  (In "configChecksum" (map field (drifts v)) <->
   act_configChecksum a <> Some (cfg_configChecksum i) /\
   act_configChecksum a <> Some "unknown") /\
  (In "securityZone" (map field (drifts v)) <->
   act_securityZone a <> Some (cfg_securityZone i)) /\
  (forall d, In d (drifts v) ->
     (field d = "status" /\ intended d = Some (cfg_status i) /\
      actual d = act_status a /\
      field_severity d
      = (if opt_in (act_status a) ["offline"; "error"; "failed"]
         then "critical" else "high")) \/
     (field d = "ipAddress" /\ intended d = Some (cfg_ipAddress i) /\
      actual d = act_ipAddress a /\ field_severity d = "medium") \/
     (field d = "version" /\ intended d = Some (cfg_version i) /\
      actual d = act_version a /\ field_severity d = "high") \/
     (field d = "configChecksum" /\
      intended d = Some (cfg_configChecksum i) /\
      actual d = act_configChecksum a /\ field_severity d = "high") \/
     (field d = "securityZone" /\ intended d = Some (cfg_securityZone i) /\
      actual d = act_securityZone a /\ field_severity d = "critical")) /\
  drift_severity v = max_severity (map asset_level_severity (drifts v)) /\
  (~ In "status" (map field (drifts v)) ->
   drift_severity v = max_severity (map field_severity (drifts v))).
Proof.
  intros H.
  destruct (drift_fields_listed a i critical v H)
    as (H1 & H2 & H3 & H4 & H5 & Hval).
  destruct (drift_severity_of_entries a i critical v H)
    as (Hsev & _ & Hmax & Hno).
  split; [exact H1|]. split; [exact H2|]. split; [exact H3|].
  split; [exact H4|]. split; [exact H5|].
  split; [|split; [exact Hmax|exact Hno]].
  intros d Hd. rewrite Forall_forall in Hsev. specialize (Hsev d Hd).
  unfold expected_field_severity in Hsev.
  destruct (Hval d Hd)
    as [(Hf & Hi & Ha)|[(Hf & Hi & Ha)|[(Hf & Hi & Ha)|[(Hf & Hi & Ha)
       |(Hf & Hi & Ha)]]]];
    rewrite Hf in Hsev; simpl in Hsev;
    [left|right; left|right; right; left|right; right; right; left
    |right; right; right; right];
    repeat split; auto.
  now rewrite <- Ha.
Qed.

Lemma drift_severity_by_field_witness :
  exists v,
    detect_drifts (actual_state plc_warning) plc_config 0 = Ok v /\
    (In "status" (map field (drifts v)) <->
     exists s, act_status (actual_state plc_warning) = Some s /\
               lower s <> lower (cfg_status plc_config)) /\
    drift_severity v = max_severity (map asset_level_severity (drifts v)) /\
    drift_severity v = "critical" /\
    map field_severity (drifts v) = ["high"].
Proof.
  eexists. split; [reflexivity|].
  destruct (drift_severity_by_field (actual_state plc_warning) plc_config 0 _
              eq_refl)
    as (H1 & _ & _ & _ & _ & _ & Hmax & _).
  split; [exact H1|]. split; [exact Hmax|]. split; reflexivity.
Defined.

(** ** What the four operations depend on *)

(** The answer of [find_root_cause] kept by the shorter model is the data
    part of the whole answer. *)
Lemma detailed_conclusion (H : Hashing) (rca : RcaData) (d : DetailedAnalysis) :
  detailed_rca_analysis H rca = Ok d ->
  generate_detailed_rca_analysis rca = Ok (da_conclusion d).
Proof.
  unfold detailed_rca_analysis, generate_detailed_rca_analysis.
  destruct (failureDepth rca), (failureChain rca), (relationshipTypes rca);
    try discriminate.
  intros Hd. inversion Hd; subst d. reflexivity.
Qed.

Lemma isolated_conclusion (nm t : string) (s : option string) (reason : string) :
  match isolated_failure_analysis nm t s reason with
  | Ok d => generate_isolated_failure_analysis nm t s reason
            = Ok (da_conclusion d)
  | ErrorBody m => generate_isolated_failure_analysis nm t s reason
                   = ErrorBody m
  | Raised e => generate_isolated_failure_analysis nm t s reason = Raised e
  end.
Proof.
  unfold isolated_failure_analysis, generate_isolated_failure_analysis.
  destruct s; reflexivity.
Qed.

Lemma find_root_cause_response_data (H : Hashing) (E : Engine) (g : Graph)
    (n : option string) (r : RootCauseResponse) :
  find_root_cause_response H E g n = Ok r ->
  find_root_cause E g n = Ok (rc_data r).
Proof.
  unfold find_root_cause_response, find_root_cause. cbv zeta.
  destruct (match single (root_cause_query E g n) with
            | Some rca => if truthy (rootCause rca) then Some rca else None
            | None => None
            end) as [rca|].
  - destruct (detailed_rca_analysis H rca) as [d| |] eqn:Hd; try discriminate.
    rewrite (detailed_conclusion H rca d Hd).
    intros Hr. inversion Hr; subst r. reflexivity.
  - destruct (single (asset_query E g n)) as [a|]; [|discriminate].
    destruct n as [nm|]; [|discriminate].
    unfold isolated_response, isolated_result.
    pose proof (isolated_conclusion nm (type a) (status a)
                  (or_default (failureReason a) "No specific reason provided"))
      as Hc.
    destruct (isolated_failure_analysis nm (type a) (status a) _) as [d| |];
      try discriminate.
    rewrite Hc. intros Hr. inversion Hr; subst r. reflexivity.
Qed.

Lemma relationship_text_order (H H' : Hashing) (l : list string) (x : string) :
  set_order H l = set_order H' l ->
  relationship_text H l x = relationship_text H' l x.
Proof. intros Heq. unfold relationship_text. now rewrite Heq. Qed.

(** The whole root-cause answer depends on the hashing only through the
    order it gives to the relationship kinds of the answer. *)
Lemma root_cause_response_hashing (H H' : Hashing) (E : Engine) (g : Graph)
    (n : option string) :
  (forall r l, find_root_cause E g n = Ok r ->
               relationshipTypes r = Some l ->
               set_order H l = set_order H' l) ->
  find_root_cause_response H E g n = find_root_cause_response H' E g n.
Proof.
  intros Hsame.
  assert (Hfr : forall r, find_root_cause_response H E g n = Ok r ->
                          find_root_cause E g n = Ok (rc_data r))
    by (intros r; apply find_root_cause_response_data).
  revert Hfr. unfold find_root_cause_response. cbv zeta.
  destruct (match single (root_cause_query E g n) with
            | Some rca => if truthy (rootCause rca) then Some rca else None
            | None => None
            end) as [rca|]; [|reflexivity].
  unfold detailed_rca_analysis.
  destruct (failureDepth rca) as [depth|]; [|reflexivity].
  destruct (failureChain rca) as [chain|]; [|reflexivity].
  destruct (relationshipTypes rca) as [rel|] eqn:Hrel; [|reflexivity].
  intros Hfr. specialize (Hfr _ eq_refl).
  assert (Heq : set_order H rel = set_order H' rel).
  { apply (Hsame _ rel Hfr). reflexivity. }
  now rewrite !(relationship_text_order H H' rel _ Heq).
Qed.

(** C8, as stated, fails twice.  For the drift operation: on one
    snapshot, with one engine, one hashing and one clock, two sequences of
    random draws give two different answers ([Pump-7] has no predefined
    configuration, so its intended address and version are drawn).  For the
    root-cause operation: when the chain runs over two kinds of
    relationship, two interpreters that iterate the set of these kinds in
    opposite orders word the third line of the thought process
    differently. *)
Lemma analyzer_depends_on_draws_and_hashing :
  (exists r0 c0 r1 c1,
     analyzer first_seen_hashing first_match_engine (mkGraph [pump_asset] [])
       Drift zero_world (mkCounters 0 0) = Ok (DriftAnswer r0, c0) /\
     analyzer first_seen_hashing first_match_engine (mkGraph [pump_asset] [])
       Drift one_world (mkCounters 0 0) = Ok (DriftAnswer r1, c1) /\
     clock zero_world = clock one_world /\
     driftedAssets r0 = 0 /\ driftList r0 = [] /\
     driftedAssets r1 = 1 /\ map assetName (driftList r1) = ["Pump-7"]) /\
  (exists r0 r1,
     find_root_cause_response first_seen_hashing first_match_engine
       two_kinds_graph (Some "T") = Ok r0 /\
     find_root_cause_response last_seen_hashing first_match_engine
       two_kinds_graph (Some "T") = Ok r1 /\
     rc_data r0 = rc_data r1 /\
     relationshipTypes (rc_data r0) = Some ["POWERS"; "CONNECTS_TO"] /\
     nth 2 (da_thoughtProcess (rc_detailedAnalysis r0)) ""
     = "3. RELATIONSHIP MAPPING: Identified 2 dependency relationships: POWERS, CONNECTS_TO." /\
     nth 2 (da_thoughtProcess (rc_detailedAnalysis r1)) ""
     = "3. RELATIONSHIP MAPPING: Identified 2 dependency relationships: CONNECTS_TO, POWERS.").
Proof.
  split.
  - do 4 eexists. split; [reflexivity|]. split; [reflexivity|].
    simpl. auto.
  - eexists. eexists. split; [reflexivity|]. split; [reflexivity|].
    repeat split; reflexivity.
Qed.

(** C8, amended.  Of the four operations, root cause, cascade impact and
    critical paths make no random draw and read no clock: their answers are
    the same in every world and leave the counters of draws and readings as
    they were.  The answers of cascade impact, critical paths and drift do
    not depend on the interpreter's hashing; the root-cause answer depends
    on it only through the order it gives to the set of relationship kinds
    of the answer, which three sentences of [detailedAnalysis] spell out.
    The drift operation depends on random draws and on the clock; when
    every asset the query hands over has a predefined configuration, its
    answer is the same for any two sequences of draws under one clock.
    All of this is for one row order of the engine. *)
Theorem analyzer_dependencies (H : Hashing) (E : Engine) (g : Graph)
    (op : Operation) :
  (op <> Drift ->
   forall (w w' : World) (c : Counters),
     analyzer H E g op w c = analyzer H E g op w' c /\
     forall (a : Answer) (c' : Counters),
       analyzer H E g op w c = Ok (a, c') -> c' = c) /\
  (forall (H' : Hashing) (w : World) (c : Counters),
     (forall n r l,
        op = RootCause n -> find_root_cause E g n = Ok r ->
        relationshipTypes r = Some l ->
        set_order H l = set_order H' l) ->
     analyzer H E g op w c = analyzer H' E g op w c) /\
  (op = Drift ->
   forall (tape1 tape2 : nat -> N) (clk : nat -> Z) (c : Counters),
     (forall a, In a (actual_query E g) ->
                dict_get gitops_configs (act_name a) <> None) ->
     analyzer H E g op (mkWorld tape1 clk) c
     = analyzer H E g op (mkWorld tape2 clk) c).
Proof.
  split; [|split].
  - intros Hop w w' c. destruct op as [n|n| |]; [| | |contradiction];
      (split; [reflexivity|]); unfold analyzer, lift, ret; intros a c'.
    + destruct (answer RootCauseAnswer _); intros Hr; inversion Hr; reflexivity.
    + destruct (answer CascadeAnswer _); intros Hr; inversion Hr; reflexivity.
    + intros Hr; inversion Hr; reflexivity.
  - intros H' w c Hsame. destruct op as [n|n| |]; try reflexivity.
    unfold analyzer.
    rewrite (root_cause_response_hashing H H' E g n); [reflexivity|].
    intros r l. now apply (Hsame n).
  - intros -> tape1 tape2 clk c Hpre. unfold analyzer, bind.
    now rewrite (calculate_drift_draw_independent E g tape1 tape2 clk c Hpre).
Qed.

Lemma analyzer_dependencies_witness :
  (forall a, In a (actual_query first_match_engine (mkGraph [plc_warning] [])) ->
             dict_get gitops_configs (act_name a) <> None) /\
  analyzer first_seen_hashing first_match_engine (mkGraph [plc_warning] [])
    Drift (mkWorld (tape zero_world) (clock zero_world)) (mkCounters 0 0)
  = analyzer first_seen_hashing first_match_engine (mkGraph [plc_warning] [])
      Drift (mkWorld (tape one_world) (clock zero_world)) (mkCounters 0 0) /\
  analyzer first_seen_hashing first_match_engine scenario_graph_powers
    (RootCause (Some "Robot1")) zero_world (mkCounters 0 0)
  = analyzer last_seen_hashing first_match_engine scenario_graph_powers
      (RootCause (Some "Robot1")) zero_world (mkCounters 0 0) /\
  analyzer first_seen_hashing first_match_engine scenario_graph
    (CascadeImpact (Some "UPS")) zero_world (mkCounters 0 0)
  = analyzer first_seen_hashing first_match_engine scenario_graph
      (CascadeImpact (Some "UPS")) one_world (mkCounters 0 0).
Proof.
  assert (Hpre : forall a,
             In a (actual_query first_match_engine (mkGraph [plc_warning] [])) ->
             dict_get gitops_configs (act_name a) <> None).
  { intros a [<-|[]]. simpl. discriminate. }
  split; [exact Hpre|]. split; [|split].
  - exact (proj2 (proj2 (analyzer_dependencies first_seen_hashing
                           first_match_engine (mkGraph [plc_warning] [])
                           Drift))
             eq_refl (tape zero_world) (tape one_world) (clock zero_world)
             (mkCounters 0 0) Hpre).
  - apply (proj1 (proj2 (analyzer_dependencies first_seen_hashing
                           first_match_engine scenario_graph_powers
                           (RootCause (Some "Robot1"))))).
    intros n r l Hop Hr Hl. injection Hop as <-.
    vm_compute in Hr. inversion Hr; subst r. simpl in Hl.
    inversion Hl; subst l. reflexivity.
  - apply (proj1 (analyzer_dependencies first_seen_hashing first_match_engine
                    scenario_graph (CascadeImpact (Some "UPS")))).
    discriminate.
Defined.

(** * Further facts, stated on the snapshot *)

(** X14.  When one of the assets its query hands over has no status,
    [calculate_drift] ends in [AttributeError] and returns no report,
    whatever the other assets are. *)
Theorem drift_fails_on_missing_status (E : Engine) (g : Graph) (w : World)
    (c : Counters) :
  (exists a, In a (actual_query E g) /\ act_status a = None) ->
  calculate_drift E g w c = Raised "AttributeError".
Proof.
  intros H. unfold calculate_drift, bind.
  now rewrite (drift_loop_raises _ (mkDriftLoop [] 0 0) w c H).
Qed.

Lemma drift_fails_on_missing_status_witness :
  (exists a, In a (actual_query first_match_engine no_status_graph) /\
             act_status a = None) /\
  calculate_drift first_match_engine no_status_graph zero_world
    (mkCounters 0 0) = Raised "AttributeError".
Proof.
  assert (H : exists a, In a (actual_query first_match_engine no_status_graph)
                        /\ act_status a = None).
  { eexists. split; [left; reflexivity|reflexivity]. }
  split; [exact H|].
  exact (drift_fails_on_missing_status first_match_engine no_status_graph
           zero_world (mkCounters 0 0) H).
Defined.

Lemma iso_eqb_eq (x y : IsolatedDevice) : iso_eqb x y = true -> x = y.
Proof.
  unfold iso_eqb. rewrite !andb_true_iff. intros [[H1 H2] H3].
  apply opt_eqb_eq in H1, H2, H3. destruct x, y. simpl in *. now subst.
Qed.

(** X23.  [analyze_network_path_failures] lists at most ten failed
    network devices, by descending [isolatedCount].  [isolatedCount] is the
    length of [isolatedDevices] and is never zero.  When no asset in status
    offline, unreachable or error lies at the end of a path of one to three
    CONNECTS_TO relationships out of the device, the list holds one entry
    whose name, type and status are all null, and the count is 1.
    Otherwise the list holds exactly the distinct (name, type, status) maps
    of the assets that do. *)
Theorem network_failure_never_counts_zero (P : Planner) (g : Graph)
    (r : NetworkFailure) :
  In r (analyze_network_path_failures P g) ->
  length (analyze_network_path_failures P g) <= 10 /\
  StronglySorted (fun x y => isolatedCount y <= isolatedCount x)
                 (analyze_network_path_failures P g) /\
  isolatedCount r = length (isolatedDevices r) /\
  1 <= isolatedCount r /\
  NoDup (isolatedDevices r) /\
  nf_severity r
  = (if 10 <? isolatedCount r then "critical"
     else if 5 <? isolatedCount r then "high" else "medium") /\
  exists i a,
    get_node g i = Some a /\ failedNetworkDevice r = name a /\
    str_in (type a) ["NetworkSwitch"; "Router"; "Firewall"; "Gateway"] = true /\
    opt_in (status a) ["offline"; "error"] = true /\
    (~ (exists p j b,
          is_trail 3 (indexed (edges g)) ["CONNECTS_TO"] [] p /\
          path_start p = Some i /\ path_end p = Some j /\
          get_node g j = Some b /\
          opt_in (status b) ["offline"; "unreachable"; "error"] = true) ->
     isolatedDevices r = [mkIsolatedDevice None None None] /\
     isolatedCount r = 1) /\
    ((exists p j b,
        is_trail 3 (indexed (edges g)) ["CONNECTS_TO"] [] p /\
        path_start p = Some i /\ path_end p = Some j /\
        get_node g j = Some b /\
        opt_in (status b) ["offline"; "unreachable"; "error"] = true) ->
     forall x,
       In x (isolatedDevices r) <->
       exists p j b,
         is_trail 3 (indexed (edges g)) ["CONNECTS_TO"] [] p /\
         path_start p = Some i /\ path_end p = Some j /\
         get_node g j = Some b /\
         opt_in (status b) ["offline"; "unreachable"; "error"] = true /\
         x = mkIsolatedDevice (Some (name b)) (Some (type b)) (status b)).
Proof.
  intros H. split; [apply firstn_le_length|]. split.
  { unfold analyze_network_path_failures, limit.
    apply StronglySorted_firstn.
    apply StronglySorted_weaken
      with (R := fun x y => isolated_desc x y = true).
    - intros x y Hxy. now apply Nat.leb_le.
    - apply order_by_sorted;
        [apply isolated_desc_total|apply isolated_desc_trans]. }
  apply network_rows_In in H. destruct H as (i & a & Hn & Hf & ->).
  cbn [network_failure_row isolatedCount isolatedDevices nf_severity
       failedNetworkDevice fst snd].
  split; [reflexivity|]. split.
  { apply distinct_head, optional_rows_not_nil. }
  split; [apply distinct_NoDup_refl, iso_eqb_refl|].
  split; [reflexivity|].
  exists i, a. split; [exact Hn|]. split; [reflexivity|].
  unfold network_failed in Hf. apply andb_true_iff in Hf.
  destruct Hf as [Hf1 Hf2]. split; [exact Hf1|]. split; [exact Hf2|].
  split.
  - intros Hnone.
    assert (Hm : isolated_matches P g i = []).
    { destruct (isolated_matches P g i) as [|x0 l0] eqn:Hm; [reflexivity|].
      exfalso. apply Hnone.
      assert (Hx0 : In x0 (isolated_matches P g i))
        by (rewrite Hm; now left).
      apply isolated_matches_In in Hx0.
      destruct Hx0 as (p & j & b & H1 & H2 & H3 & H4 & H5 & _).
      exists p, j, b. auto. }
    rewrite Hm. split; reflexivity.
  - intros (p0 & j0 & b0 & H1 & H2 & H3 & H4 & H5) x.
    assert (Hx0 : In (mkIsolatedDevice (Some (name b0)) (Some (type b0))
                        (status b0)) (isolated_matches P g i)).
    { apply isolated_matches_In. exists p0, j0, b0. auto 10. }
    rewrite <- isolated_matches_In. split.
    + intros Hx. apply distinct_incl, optional_rows_In in Hx.
      destruct Hx as [[Hnil _]|Hx]; [|exact Hx].
      rewrite Hnil in Hx0. contradiction.
    + intros Hx. apply distinct_complete; [apply iso_eqb_eq|].
      apply optional_rows_In. now right.
Qed.

Lemma network_failure_never_counts_zero_witness :
  exists r,
    In r (analyze_network_path_failures forward_planner
            (mkGraph [plain_asset "Router-1" "Router" (Some "offline")] [])) /\
    isolatedDevices r = [mkIsolatedDevice None None None] /\
    isolatedCount r = length (isolatedDevices r) /\
    1 <= isolatedCount r.
Proof.
  assert (H : exists r,
             In r (analyze_network_path_failures forward_planner
                     (mkGraph [plain_asset "Router-1" "Router"
                                 (Some "offline")] [])) /\
             isolatedDevices r = [mkIsolatedDevice None None None]).
  { eexists. split; [left; reflexivity|reflexivity]. }
  destruct H as [r [Hin Hd]]. exists r. split; [exact Hin|].
  split; [exact Hd|].
  destruct (network_failure_never_counts_zero forward_planner _ r Hin)
    as (_ & _ & Hlen & Hpos & _).
  split; [exact Hlen|exact Hpos].
Defined.

Lemma In_str_in (s : string) (l : list string) : In s l -> str_in s l = true.
Proof.
  intros H. unfold str_in. apply existsb_exists. exists s.
  split; [exact H|apply String.eqb_refl].
Qed.

(** The rows of the dependency query, counted on the relationships of the
    snapshot. *)
Lemma dependency_rows_count (g : Graph) :
  length (dependency_rows g)
  = length
      (filter
         (fun e =>
            str_in (kind e) ["POWERS"; "CONNECTS_TO"; "FEEDS_DATA"; "CONTROLS"]
            && (src e <? length (nodes g)) && (dst e <? length (nodes g)))
         (edges g)).
Proof.
  unfold dependency_rows. induction (edges g) as [|e es IH]; [reflexivity|].
  cbn [flat_map filter]. rewrite length_app, IH. unfold dependency_of.
  destruct (get_node g (src e)) as [s|] eqn:Hs.
  - assert (Hs' : (src e <? length (nodes g)) = true).
    { apply Nat.ltb_lt, nth_error_Some. unfold get_node in Hs.
      rewrite Hs. discriminate. }
    rewrite Hs'. destruct (get_node g (dst e)) as [t|] eqn:Ht.
    + assert (Ht' : (dst e <? length (nodes g)) = true).
      { apply Nat.ltb_lt, nth_error_Some. unfold get_node in Ht.
        rewrite Ht. discriminate. }
      rewrite Ht'. unfold dependency_kinds.
      destruct (str_in (kind e) _); reflexivity.
    + assert (Ht' : (dst e <? length (nodes g)) = false).
      { apply Nat.ltb_ge, nth_error_None. exact Ht. }
      rewrite Ht', andb_false_r. reflexivity.
  - assert (Hs' : (src e <? length (nodes g)) = false).
    { apply Nat.ltb_ge, nth_error_None. exact Hs. }
    rewrite Hs', andb_false_r. reflexivity.
Qed.

(** X25.  Every entry of [get_all_dependencies] is a POWERS, CONNECTS_TO,
    FEEDS_DATA or CONTROLS relationship between two assets of the snapshot,
    described by their names, types and statuses.  [totalDependencies] is
    the length of the list, which is the number of such relationships of the
    snapshot or 100, whichever is smaller; when there are no more than 100,
    every one of them is listed. *)
Theorem dependencies_listed_up_to_100 (P : Planner) (g : Graph) :
  totalDependencies (get_all_dependencies P g)
  = length (dependency_list (get_all_dependencies P g)) /\
  totalDependencies (get_all_dependencies P g)
  = Nat.min 100
      (length
         (filter
            (fun e =>
               str_in (kind e)
                 ["POWERS"; "CONNECTS_TO"; "FEEDS_DATA"; "CONTROLS"]
               && (src e <? length (nodes g)) && (dst e <? length (nodes g)))
            (edges g))) /\
  (forall d, In d (dependency_list (get_all_dependencies P g)) ->
     exists e s t,
       In e (edges g) /\ get_node g (src e) = Some s /\
       get_node g (dst e) = Some t /\
       In (kind e) ["POWERS"; "CONNECTS_TO"; "FEEDS_DATA"; "CONTROLS"] /\
       d = mkDependency (name s) (type s) (kind e) (name t) (type t)
             (status s) (status t)) /\
  (length
     (filter
        (fun e =>
           str_in (kind e) ["POWERS"; "CONNECTS_TO"; "FEEDS_DATA"; "CONTROLS"]
           && (src e <? length (nodes g)) && (dst e <? length (nodes g)))
        (edges g)) <= 100 ->
   forall e s t,
     In e (edges g) -> get_node g (src e) = Some s ->
     get_node g (dst e) = Some t ->
     In (kind e) ["POWERS"; "CONNECTS_TO"; "FEEDS_DATA"; "CONTROLS"] ->
     In (mkDependency (name s) (type s) (kind e) (name t) (type t)
           (status s) (status t))
        (dependency_list (get_all_dependencies P g))).
Proof.
  unfold get_all_dependencies. cbn [totalDependencies dependency_list].
  unfold limit. rewrite <- dependency_rows_count.
  assert (Hlen : length (scan P (dependency_rows g))
                 = length (dependency_rows g))
    by apply Permutation_length, scan_perm.
  split; [reflexivity|]. split; [now rewrite length_firstn, Hlen|].
  split.
  - intros d Hd. apply firstn_incl, scan_In, dependency_rows_In in Hd.
    destruct Hd as (e & s & t & He & Hs & Ht & Hk & ->).
    exists e, s, t. repeat split; auto. now apply str_in_In.
  - intros Hle e s t He Hs Ht Hk. rewrite firstn_all2 by lia.
    apply scan_In, dependency_rows_In. exists e, s, t.
    repeat split; auto. now apply In_str_in.
Qed.

Lemma map_snd_indexed {A : Type} (l : list A) : map snd (indexed l) = l.
Proof.
  unfold indexed. generalize 0 as k.
  induction l as [|x l IH]; intros k; simpl; [reflexivity|].
  now rewrite IH.
Qed.

Lemma predefined_names (n : string) :
  dict_get gitops_configs n = None <->
  str_in n ["PLC-001"; "NetworkSwitch-01"; "Robot-Arm-101"; "SCADA-HMI-01"]
  = false.
Proof.
  unfold gitops_configs, str_in. cbn [dict_get existsb].
  rewrite !(String.eqb_sym n).
  destruct (String.eqb "PLC-001" n); [split; discriminate|].
  destruct (String.eqb "NetworkSwitch-01" n); [split; discriminate|].
  destruct (String.eqb "Robot-Arm-101" n); [split; discriminate|].
  destruct (String.eqb "SCADA-HMI-01" n); [split; discriminate|].
  split; reflexivity.
Qed.

Lemma generated_rows_by_name (rows : list (string * string)) :
  generated_rows rows
  = length
      (filter
         (fun n => negb (str_in n ["PLC-001"; "NetworkSwitch-01";
                                   "Robot-Arm-101"; "SCADA-HMI-01"]))
         (map fst rows)).
Proof.
  unfold generated_rows. induction rows as [|r rows IH]; [reflexivity|].
  cbn [filter map].
  destruct (dict_get gitops_configs (fst r)) eqn:Hd.
  - assert (Hs : str_in (fst r) ["PLC-001"; "NetworkSwitch-01";
                                 "Robot-Arm-101"; "SCADA-HMI-01"] = true).
    { destruct (str_in (fst r) _) eqn:Hs; [reflexivity|].
      apply predefined_names in Hs. rewrite Hs in Hd. discriminate. }
    rewrite Hs. exact IH.
  - apply predefined_names in Hd. rewrite Hd. cbn [negb length].
    now rewrite IH.
Qed.

(** The rows of the configuration query are the head of the assets sorted
    by name. *)
Lemma config_query_head (P : Planner) (g : Graph) :
  exists rest,
    Permutation (map fst (config_query P g) ++ rest) (map name (nodes g)) /\
    forall x y, In x (map fst (config_query P g)) -> In y rest ->
                String.compare x y <> Gt.
Proof.
  set (sorted := order_by name_asc (scan P (indexed (nodes g)))).
  exists (map (fun ia => name (snd ia)) (skipn 50 sorted)).
  unfold config_query, limit. fold sorted. rewrite map_map. cbn [fst].
  split.
  - rewrite <- map_app, firstn_skipn.
    assert (Hn : map name (nodes g)
                 = map (fun ia => name (snd ia)) (indexed (nodes g))).
    { rewrite <- (map_map snd name). now rewrite map_snd_indexed. }
    rewrite Hn. apply Permutation_map. unfold sorted.
    eapply Permutation_trans; [apply order_by_perm|apply scan_perm].
  - intros x y Hx Hy. apply in_map_iff in Hx, Hy.
    destruct Hx as [ia [<- Hia]]. destruct Hy as [ib [<- Hib]].
    pose proof (limit_order_by_dropped name_asc name_asc_total name_asc_trans
                  50 _ ia ib Hia Hib) as Hle.
    unfold name_asc in Hle.
    destruct (String.compare (name (snd ia)) (name (snd ib)));
      discriminate.
Qed.

(** X28.  When [get_all_gitops_configs] returns, it has one configuration
    for each of the first fifty assets in name order, in that order and
    under the asset's own name, every one of them with status running: the
    names it lists are sorted, they are as many as the assets of the
    snapshot or fifty, whichever is smaller, and every asset name left out
    sorts at or after every name listed.  [totalAssets] is the number of
    configurations.  Eight random draws are made for each listed name that
    is not one of the four predefined names, and one clock reading for each
    such name plus one for [lastSync]. *)
Theorem all_configs_one_per_asset (P : Planner) (g : Graph) (w : World)
    (c c' : Counters) (rep : GitopsConfigs) :
  get_all_gitops_configs P g w c = Ok (rep, c') ->
  cfgs_totalAssets rep = length (configs rep) /\
  cfgs_totalAssets rep = Nat.min 50 (length (nodes g)) /\
  StronglySorted (fun a b => String.compare a b <> Gt)
                 (map cfg_name (configs rep)) /\
  (exists rest,
     Permutation (map cfg_name (configs rep) ++ rest) (map name (nodes g)) /\
     forall x y, In x (map cfg_name (configs rep)) -> In y rest ->
                 String.compare x y <> Gt) /\
  Forall (fun cfg => cfg_status cfg = "running") (configs rep) /\
  draws c'
  = draws c
    + 8 * length
            (filter
               (fun n => negb (str_in n ["PLC-001"; "NetworkSwitch-01";
                                         "Robot-Arm-101"; "SCADA-HMI-01"]))
               (map cfg_name (configs rep))) /\
  reads c'
  = reads c
    + length
        (filter
           (fun n => negb (str_in n ["PLC-001"; "NetworkSwitch-01";
                                     "Robot-Arm-101"; "SCADA-HMI-01"]))
           (map cfg_name (configs rep)))
    + 1.
Proof.
  intros Hrun.
  destruct (all_configs_run P g w c)
    as (rep0 & c0 & Hrun0 & Htot & Hmin & Hnames & Hsorted & _ & Hall & Hd & Hr).
  rewrite Hrun in Hrun0. inversion Hrun0; subst rep0 c0; clear Hrun0.
  rewrite generated_rows_by_name, <- Hnames in Hd, Hr.
  split; [exact Htot|]. split; [exact Hmin|]. split; [exact Hsorted|].
  split; [|split; [exact Hall|split; [exact Hd|exact Hr]]].
  rewrite Hnames. apply config_query_head.
Qed.

Lemma all_configs_one_per_asset_witness :
  exists rep c',
    get_all_gitops_configs forward_planner scenario_graph zero_world
      (mkCounters 0 0) = Ok (rep, c') /\
    cfgs_totalAssets rep = length (configs rep) /\
    cfgs_totalAssets rep = 3 /\
    Forall (fun cfg => cfg_status cfg = "running") (configs rep).
Proof.
  destruct (get_all_gitops_configs forward_planner scenario_graph zero_world
              (mkCounters 0 0)) as [[rep c']| |] eqn:Hrun;
    [|vm_compute in Hrun; discriminate Hrun
     |vm_compute in Hrun; discriminate Hrun].
  exists rep, c'. split; [reflexivity|].
  destruct (all_configs_one_per_asset forward_planner scenario_graph zero_world
              (mkCounters 0 0) c' rep Hrun)
    as (Htot & Hmin & _ & _ & Hall & _).
  split; [exact Htot|]. split; [exact Hmin|exact Hall].
Defined.
